(** * Gift transfer action of cdp-agentkit: a shallow embedding

    Source: cdp_agentkit_core/actions/gift/gift.py.

    The action is one Python function, [gift_transfer], that calls four
    collaborators in sequence (a buy quote, a contract invocation, a sell
    quote, a second contract invocation) and glues them with double-precision
    fee arithmetic and string formatting, the whole body being wrapped in one
    [try ... except Exception] block.

    The embedding has three layers:
    - Python values: [str] as [string], [int] as [Z], [float] as the
      IEEE 754 binary64 specification of the standard library
      ([spec_float] with precision 53 and [emax] 1024), exceptions as a class
      name, a message and whether they are instances of [Exception];
    - effects: a program is a tree of collaborator calls ([prog]); running it
      against any stateful environment yields an answer and the trace of calls
      made with their responses;
    - the action itself, written in the order the Python text evaluates.

    The builtins [int] and [float] applied to a string are parameters of the
    action, as are the parts the source imports: what is proved holds for
    whatever strings they accept. *)

From Stdlib Require Import ZArith List String Ascii Bool Lia.
From Stdlib Require Import DecimalString.
From Stdlib Require Import Floats.SpecFloat.
Import ListNotations.

Local Open Scope string_scope.
Local Open Scope Z_scope.

(** ** Exceptions and results *)

(** A Python exception, as far as the action can observe it: its class,
    [str(e)], and whether it is an instance of [Exception], which is what the
    [except Exception] clause of the source tests. [KeyboardInterrupt] and
    [SystemExit] are not. *)
Record exn : Type := mk_exn {
  exn_class : string;
  exn_message : string;
  exn_is_Exception : bool }.

(** A computation step either raises or returns. *)
Definition result (A : Type) : Type := (exn + A)%type.

Definition ok {A} (a : A) : result A := inr a.

(** Raising an instance of [Exception]. *)
Definition raise {A} (cls msg : string) : result A := inl (mk_exn cls msg true).

(** ** Python arithmetic on [int] and [float] *)

Module Py.

(** Binary64 parameters. *)
Definition prec : Z := 53.
Definition emax : Z := 1024.

Definition float : Type := spec_float.

Definition fmul : float -> float -> float := SFmul prec emax.
Definition fdiv : float -> float -> float := SFdiv prec emax.

(** [str(n)] for an [int]. *)
Definition str_of_int (z : Z) : string := NilZero.string_of_int (Z.to_int z).

(** *** [float(n)] on an [int]

    Rounds to nearest, ties to even; an [int] beyond the double range raises
    [OverflowError]. *)
Definition float_of_int (z : Z) : result float :=
  match binary_normalize prec emax z 0 false with
  | S754_infinity _ => raise "OverflowError" "int too large to convert to float"
  | f => ok f
  end.

(** *** [int(x)] on a [float]: truncation toward zero *)

Definition trunc_pos (m : positive) (e : Z) : Z :=
  if 0 <=? e then Zpos m * 2 ^ e else Zpos m / 2 ^ (- e).

Definition int_of_float (x : float) : result Z :=
  match x with
  | S754_zero _ => ok 0
  | S754_finite s m e => ok (if s then - trunc_pos m e else trunc_pos m e)
  | S754_infinity _ =>
      raise "OverflowError" "cannot convert float infinity to integer"
  | S754_nan => raise "ValueError" "cannot convert float NaN to integer"
  end.

(** *** The double nearest to a decimal

    The decimal value [m * 10 ^ e], with the sign [neg], rounded once, to
    nearest even. *)
Definition float_of_decimal (neg : bool) (m e : Z) : float :=
  match m with
  | Zpos p =>
      if 0 <=? e then binary_round prec emax neg (Z.to_pos (Zpos p * 10 ^ e)) 0
      else
        let '(q, eq, l) :=
          SFdiv_core_binary prec emax (Zpos p) 0 (10 ^ (- e)) 0 in
        binary_round_aux prec emax neg q eq l
  | _ => S754_zero neg
  end.

(** *** The float literals of the source *)

Definition f_0_03 : float := S754_finite false 8646911284551352 (-58).
Definition f_0_99 : float := S754_finite false 8917127262193582 (-53).
Definition f_1e18 : float := S754_finite false 7812500000000000 7.
Definition f_1e6 : float := S754_finite false 8589934592000000 (-33).
Definition f_2000 : float := S754_finite false 8796093022208000 (-42).

(** *** What a shifted mantissa remembers

    The record reached from the exact mantissa [M] after [n] halvings holds
    the quotient, and its round bit is set only if the bits shifted out
    amount to half a unit or more. *)
Definition shr_inv (M n : Z) (mrs : shr_record) : Prop :=
  shr_m mrs = M / 2 ^ n /\ (shr_r mrs = true -> 2 ^ n <= 2 * (M mod 2 ^ n)).

(** The round bit a location stands for. *)
Definition round_bit (l : location) : bool :=
  match l with
  | loc_Inexact Eq | loc_Inexact Gt => true
  | _ => false
  end.

(** The record reached after [n] halvings from the quotient of [N] by [D]:
    it holds the quotient of [N] by [D * 2 ^ n], and its round bit is set
    only if the remainder is half the divisor or more. *)
Definition shr_inv_frac (N D n : Z) (mrs : shr_record) : Prop :=
  shr_m mrs = N / (D * 2 ^ n) /\
  (shr_r mrs = true -> D * 2 ^ n <= 2 * (N mod (D * 2 ^ n))).

(** The unit in which every finite double is an integer: [2 ^ -1074]. *)
Definition unit_scale : Z := 2 ^ 1074.

(** The magnitude of a double in that unit. *)
Definition scaled (x : float) : Z :=
  match x with
  | S754_finite _ m e => Zpos m * 2 ^ (e + 1074)
  | _ => 0
  end.

End Py.

(** ** The builtins that read strings

    [int(s)] and [float(s)] are not part of the source: the action takes
    them as parameters. The one fact about them that a theorem below relies
    on is stated here: a string that [int] reads as the integer [a] is read
    by [float] as the double nearest to [a], with the sign the literal
    carries. *)
Definition literal_agreement
    (int_of_str : string -> result Z)
    (float_of_str : string -> result Py.float) : Prop :=
  forall (s : string) (a : Z) (x : Py.float),
    int_of_str s = inr a ->
    float_of_str s = inr x ->
    exists neg : bool,
      x = Py.float_of_decimal neg (Z.abs a) 0 /\
      (0 < a -> neg = false) /\
      (a < 0 -> neg = true).

(** *** A reference implementation

    [int(s)] and [float(s)] for strings whose characters are code points
    below 256, one per byte, under the interpreter's default settings. It is
    used to run the action on concrete inputs. *)
Module Literal.

Definition code (c : ascii) : Z := Z.of_nat (nat_of_ascii c).

(** Whitespace the two builtins strip: the ASCII set of C, and the spaces
    beyond ASCII (next line and no-break space below 256). *)
Definition is_space (c : ascii) : bool :=
  let n := code c in
  ((9 <=? n) && (n <=? 13)) || (n =? 32) || (n =? 133) || (n =? 160).

Definition digit_of (c : ascii) : option Z :=
  let n := code c in
  if (48 <=? n) && (n <=? 57) then Some (n - 48) else None.

Fixpoint lstrip (s : string) : string :=
  match s with
  | String c s' => if is_space c then lstrip s' else s
  | EmptyString => s
  end.

Fixpoint rev_string (acc s : string) : string :=
  match s with
  | String c s' => rev_string (String c acc) s'
  | EmptyString => acc
  end.

(** [s.strip()] *)
Definition strip (s : string) : string :=
  rev_string EmptyString (lstrip (rev_string EmptyString (lstrip s))).

(** A run of digits in which single underscores may separate digits
    (PEP 515): the value accumulated onto [acc], the number of digits read
    added to [cnt], and the unread rest. *)
Fixpoint digits_tail (acc cnt : Z) (s : string) : Z * Z * string :=
  match s with
  | String c s' =>
      match digit_of c with
      | Some d => digits_tail (10 * acc + d) (cnt + 1) s'
      | None =>
          if Ascii.eqb c "_" then
            match s' with
            | String c2 s'' =>
                match digit_of c2 with
                | Some d => digits_tail (10 * acc + d) (cnt + 1) s''
                | None => (acc, cnt, s)
                end
            | EmptyString => (acc, cnt, s)
            end
          else (acc, cnt, s)
      end
  | EmptyString => (acc, cnt, s)
  end.

(** A digit part must start with a digit. *)
Definition digitpart (acc : Z) (s : string) : option (Z * Z * string) :=
  match s with
  | String c s' =>
      match digit_of c with
      | Some d => Some (digits_tail (10 * acc + d) 1 s')
      | None => None
      end
  | EmptyString => None
  end.

(** An optional sign: [true] for minus. *)
Definition sign_of (s : string) : bool * string :=
  match s with
  | String c s' =>
      if Ascii.eqb c "-" then (true, s')
      else if Ascii.eqb c "+" then (false, s')
      else (false, s)
  | EmptyString => (false, s)
  end.

Definition is_empty (s : string) : bool :=
  match s with EmptyString => true | _ => false end.

Definition hex_digit (n : Z) : ascii :=
  ascii_of_nat (Z.to_nat (if n <? 10 then 48 + n else 87 + n)).

Definition quote : ascii := "'"%char.
Definition double_quote : ascii := "034"%char.
Definition backslash : ascii := "\"%char.

Fixpoint contains (c : ascii) (s : string) : bool :=
  match s with
  | String c' s' => Ascii.eqb c c' || contains c s'
  | EmptyString => false
  end.

(** How [repr] writes one character inside the quotes [q]. *)
Definition repr_char (q c : ascii) : string :=
  let n := code c in
  if Ascii.eqb c q || Ascii.eqb c backslash
  then String backslash (String c EmptyString)
  else if n =? 9 then String backslash "t"
  else if n =? 10 then String backslash "n"
  else if n =? 13 then String backslash "r"
  else if (n <? 32) || ((127 <=? n) && (n <=? 160)) || (n =? 173)
  then String backslash
         (String "x" (String (hex_digit (n / 16))
                        (String (hex_digit (n mod 16)) EmptyString)))
  else String c EmptyString.

Fixpoint repr_body (q : ascii) (s : string) : string :=
  match s with
  | String c s' => repr_char q c ++ repr_body q s'
  | EmptyString => EmptyString
  end.

(** [repr(s)]: single quotes, unless the string holds a single quote and no
    double quote. *)
Definition repr (s : string) : string :=
  let q := if contains quote s && negb (contains double_quote s)
           then double_quote else quote in
  String q (repr_body q s ++ String q EmptyString).

(** *** [int(s)], base 10

    Surrounding whitespace, an optional sign, then decimal digits; a literal
    of more than 4300 digits is refused. *)

Definition max_str_digits : Z := 4300.

Definition starts_with_underscore (s : string) : bool :=
  match s with
  | String c _ => Ascii.eqb c "_"
  | EmptyString => false
  end.

Inductive int_literal : Type :=
| IntValue (z : Z)
| IntTooLong (digits : Z)
| IntInvalid.

Definition parse_int (s : string) : int_literal :=
  let '(neg, body) := sign_of (strip s) in
  match digitpart 0 body with
  | Some (v, cnt, rest) =>
      if starts_with_underscore rest then IntInvalid
      else if max_str_digits <? cnt then IntTooLong cnt
      else if is_empty rest then IntValue (if neg then - v else v)
      else IntInvalid
  | None => IntInvalid
  end.

Definition int_of_str (s : string) : result Z :=
  match parse_int s with
  | IntValue z => ok z
  | IntTooLong n =>
      raise "ValueError"
        ("Exceeds the limit (4300 digits) for integer string conversion: value has "
         ++ Py.str_of_int n
         ++ " digits; use sys.set_int_max_str_digits() to increase the limit")
  | IntInvalid =>
      raise "ValueError" ("invalid literal for int() with base 10: " ++ repr s)
  end.

(** *** [float(s)] *)

Definition lower (c : ascii) : ascii :=
  let n := nat_of_ascii c in
  if ((65 <=? n) && (n <=? 90))%nat then ascii_of_nat (n + 32) else c.

Fixpoint lower_string (s : string) : string :=
  match s with
  | String c s' => String (lower c) (lower_string s')
  | EmptyString => s
  end.

(** Mantissa: [digitpart], [digitpart "."], [digitpart "." digitpart] or
    ["." digitpart]; returns the digits as one integer, the number of
    fraction digits, and the rest. *)
Definition mantissa (s : string) : option (Z * Z * string) :=
  match digitpart 0 s with
  | Some (v, _, String c rest) =>
      if Ascii.eqb c "." then
        match digitpart v rest with
        | Some (v', n, rest') => Some (v', n, rest')
        | None => Some (v, 0, rest)
        end
      else Some (v, 0, String c rest)
  | Some (v, _, EmptyString) => Some (v, 0, EmptyString)
  | None =>
      match s with
      | String c rest =>
          if Ascii.eqb c "." then
            match digitpart 0 rest with
            | Some (v', n, rest') => Some (v', n, rest')
            | None => None
            end
          else None
      | EmptyString => None
      end
  end.

(** Exponent: nothing, or ["e"] / ["E"], an optional sign and a digit part. *)
Definition exponent (s : string) : option Z :=
  match s with
  | EmptyString => Some 0
  | String c rest =>
      if Ascii.eqb (lower c) "e" then
        let '(neg, body) := sign_of rest in
        match digitpart 0 body with
        | Some (v, _, EmptyString) => Some (if neg then - v else v)
        | _ => None
        end
      else None
  end.

Definition parse_float (s : string) : option Py.float :=
  let '(neg, body) := sign_of (strip s) in
  let word := lower_string body in
  if (String.eqb word "inf" || String.eqb word "infinity")%bool
  then Some (S754_infinity neg)
  else if String.eqb word "nan" then Some S754_nan
  else
    match mantissa body with
    | Some (m, nfrac, rest) =>
        match exponent rest with
        | Some e => Some (Py.float_of_decimal neg m (e - nfrac))
        | None => None
        end
    | None => None
    end.

Definition float_of_str (s : string) : result Py.float :=
  match parse_float s with
  | Some x => ok x
  | None => raise "ValueError" ("could not convert string to float: " ++ repr s)
  end.

End Literal.

(** ** The SDK objects the action touches *)

Record Address : Type := { address_id : string }.

(** [cdp.Wallet]: the two attributes the action reads. *)
Record Wallet : Type := { network_id : string; default_address : Address }.

(** Values put in the [args] dictionary of a contract invocation. *)
Inductive pyval : Type :=
| PyStr (s : string)
| PyInt (z : Z).

Record abi_param : Type := { param_name : string; param_type : string }.

Record abi_entry : Type := {
  abi_inputs : list abi_param;
  abi_name : string;
  abi_outputs : list abi_param;
  abi_stateMutability : string;
  abi_type : string }.

Definition abi : Type := list abi_entry.

(** The keyword arguments of [wallet.invoke_contract]. *)
Record contract_call : Type := {
  contract_address : string;
  method : string;
  call_abi : abi;
  args : list (string * pyval);
  amount : option string;
  asset_id : option string }.

(** What [invoke_contract] and [wait] return. *)
Record ContractInvocation : Type := {
  transaction_hash : string;
  transaction_link : string }.

(** Lookup in a dictionary literal. *)
Fixpoint dict_get (d : list (string * pyval)) (k : string) : option pyval :=
  match d with
  | (k', v) :: d' => if String.eqb k k' then Some v else dict_get d' k
  | [] => None
  end.

(** The entry of an ABI that declares the function [fn]. *)
Fixpoint abi_lookup (a : abi) (fn : string) : option abi_entry :=
  match a with
  | e :: a' => if String.eqb (abi_name e) fn then Some e else abi_lookup a' fn
  | [] => None
  end.

(** ** Programs over collaborator calls *)

(** The calls that leave the action, indexed by what they return. *)
Inductive call : Type -> Type :=
| get_buy_quote (network token_address amount_eth_in_wei : string) : call Z
| get_sell_quote (network token_address amount_tokens_in_wei : string) : call Z
| invoke_contract (w : Wallet) (c : contract_call) : call ContractInvocation
| wait (i : ContractInvocation) : call ContractInvocation.

(** A program: it returns, raises, or makes a call and goes on with the
    response, which is a value or an exception. *)
Inductive prog (A : Type) : Type :=
| Ret (a : A)
| Raise (e : exn)
| Do {X : Type} (c : call X) (k : result X -> prog A).

Arguments Ret {A} a.
Arguments Raise {A} e.
Arguments Do {A X} c k.

Fixpoint bind {A B} (p : prog A) (f : A -> prog B) : prog B :=
  match p with
  | Ret a => f a
  | Raise e => Raise e
  | Do c k => Do c (fun r => bind (k r) f)
  end.

(** A call whose exception propagates. *)
Definition perform {X} (c : call X) : prog X :=
  Do c (fun r => match r with inl e => Raise e | inr x => Ret x end).

(** A pure step that may raise. *)
Definition lift {A} (r : result A) : prog A :=
  match r with inl e => Raise e | inr a => Ret a end.

(** [try: p except Exception as e: h e]: the handler takes the exceptions
    that are instances of [Exception]; any other goes on to the caller. *)
Fixpoint try_except {A} (p : prog A) (h : exn -> prog A) : prog A :=
  match p with
  | Ret a => Ret a
  | Raise e => if exn_is_Exception e then h e else Raise e
  | Do c k => Do c (fun r => try_except (k r) h)
  end.

Declare Scope prog_scope.
Delimit Scope prog_scope with prog.
Notation "x <- p ;; q" := (bind p (fun x => q))
  (at level 61, p at next level, right associativity) : prog_scope.

(** *** Traces *)

(** A call as logged, without its index. *)
Inductive request : Type :=
| ReqBuyQuote (network token_address amount_eth_in_wei : string)
| ReqSellQuote (network token_address amount_tokens_in_wei : string)
| ReqInvoke (w : Wallet) (c : contract_call)
| ReqWait (i : ContractInvocation).

Inductive response : Type :=
| RespRaise (e : exn)
| RespInt (z : Z)
| RespInvocation (i : ContractInvocation).

Definition request_of {X} (c : call X) : request :=
  match c with
  | get_buy_quote n t a => ReqBuyQuote n t a
  | get_sell_quote n t a => ReqSellQuote n t a
  | invoke_contract w c => ReqInvoke w c
  | wait i => ReqWait i
  end.

Definition response_of {X} (c : call X) : result X -> response :=
  match c in call T return result T -> response with
  | get_buy_quote _ _ _ | get_sell_quote _ _ _ =>
      fun r => match r with inl e => RespRaise e | inr z => RespInt z end
  | invoke_contract _ _ | wait _ =>
      fun r => match r with inl e => RespRaise e | inr i => RespInvocation i end
  end.

Definition event : Type := (request * response)%type.
Definition trace : Type := list event.

(** The environment: the collaborators, with whatever state [S] they keep
    (the chain, the wallet's nonce, the network). *)
Definition handler (S : Type) : Type := forall X, call X -> S -> result X * S.

Record outcome (S A : Type) : Type := {
  answer : result A;
  calls : trace;
  final : S }.

Arguments answer {S A} o.
Arguments calls {S A} o.
Arguments final {S A} o.

Fixpoint run {S A} (h : handler S) (p : prog A) (s : S) : outcome S A :=
  match p with
  | Ret a => {| answer := inr a; calls := []; final := s |}
  | Raise e => {| answer := inl e; calls := []; final := s |}
  | Do c k =>
      let '(r, s') := h _ c s in
      let o := run h (k r) s' in
      {| answer := answer o;
         calls := (request_of c, response_of c r) :: calls o;
         final := final o |}
  end.

Definition requests (t : trace) : list request := map fst t.
Definition responses (t : trace) : list response := map snd t.

(** ** The action *)

Local Open Scope prog_scope.

Definition nl : string := String "010"%char EmptyString.

Definition GIFT_ESCROW_ABI : abi :=
  [ {| abi_inputs :=
         [ {| param_name := "token"; param_type := "address" |};
           {| param_name := "recipient"; param_type := "address" |};
           {| param_name := "giver"; param_type := "address" |};
           {| param_name := "redeemableUsdcAmount"; param_type := "uint256" |};
           {| param_name := "initialBuyPrice"; param_type := "uint256" |} ];
       abi_name := "createGift";
       abi_outputs := [ {| param_name := "giftId"; param_type := "uint256" |} ];
       abi_stateMutability := "payable";
       abi_type := "function" |};
    {| abi_inputs :=
         [ {| param_name := "giftId"; param_type := "uint256" |};
           {| param_name := "choice"; param_type := "uint8" |} ];
       abi_name := "redeemGift";
       abi_outputs := [];
       abi_stateMutability := "nonpayable";
       abi_type := "function" |} ].

Definition GIFT_TRANSFER_PROMPT : string :=
  nl ++
  "This tool enables gift transfer of a memecoin with a fixed USDC redemption option. The sender buys "
  ++ nl ++
  "the memecoin which is locked in escrow, and the recipient can choose to either:"
  ++ nl ++
  "1. Receive the memecoin"
  ++ nl ++
  "2. Receive the fixed USDC amount (equal to sender's initial buy price)"
  ++ nl ++
  "An NFT receipt is minted upon redemption showing whether the sender profited or lost based on "
  ++ nl ++
  "the memecoin's current value.".

(** The pydantic model: every field is declared [str] with [Field(...)],
    that is, required. *)
Inductive py_type : Type := TStr | TInt | TFloat.

Record field_info : Type := {
  field_name : string;
  field_type : py_type;
  field_required : bool;
  field_description : string }.

Record model : Type := { model_name : string; model_fields : list field_info }.

Definition GiftTransferInput : model :=
  {| model_name := "GiftTransferInput";
     model_fields :=
       [ {| field_name := "amount_eth_in_wei"; field_type := TStr;
            field_required := true;
            field_description := "Amount of ETH to spend on memecoin (in wei)" |};
         {| field_name := "memecoin_address"; field_type := TStr;
            field_required := true;
            field_description := "The memecoin token address to purchase and gift" |};
         {| field_name := "recipient"; field_type := TStr;
            field_required := true;
            field_description := "The address to receive the gift" |};
         {| field_name := "giver"; field_type := TStr;
            field_required := true;
            field_description := "The address sending the gift" |} ] |}.

(** The placeholder the source binds to [escrow_address]. *)
Definition escrow_address : string := "0x...".

Definition error_prefix : string := "Error in gift transfer: ".

Section Action.

(** Parts the source imports and does not define. *)

(** [WOW_ABI], from [cdp_agentkit_core.actions.wow.constants]. *)
Variable WOW_ABI : abi.

(** [Web3.from_wei(n, 'ether')] as an f-string renders it; it may raise. *)
Variable from_wei_ether : Z -> result string.

(** A [float] as an f-string renders it. *)
Variable float_str : Py.float -> string.

(** The builtins [int(s)] and [float(s)] on a string. *)
Variable int_of_str : string -> result Z.
Variable float_of_str : string -> result Py.float.

(** [eth_price_in_usdc = 2000], the mock ETH/USDC price. *)
Definition eth_price_in_usdc : Z := 2000.

(** The arithmetic of [get_current_usdc_price] on the sell quote:
    [int((float(sell_quote) / 1e18) * eth_price_in_usdc * 1e6)]. *)
Definition usdc_value (sell_quote : Z) : result Z :=
  match Py.float_of_int sell_quote with
  | inl e => inl e
  | inr q =>
      match Py.float_of_int eth_price_in_usdc with
      | inl e => inl e
      | inr p =>
          Py.int_of_float
            (Py.fmul (Py.fmul (Py.fdiv q Py.f_1e18) p) Py.f_1e6)
      end
  end.

Definition get_current_usdc_price
    (network memecoin_address : string) (token_amount : Z) : prog Z :=
  sell_quote <-
    perform (get_sell_quote network memecoin_address (Py.str_of_int token_amount)) ;;
  lift (usdc_value sell_quote).

(** The keyword arguments of the purchase. *)
Definition buy_call (wallet : Wallet) (memecoin_address recipient : string)
    (min_order_size : Z) (total_eth_required : string) : contract_call :=
  {| contract_address := memecoin_address;
     method := "buy";
     call_abi := WOW_ABI;
     args :=
       [ ("recipient", PyStr escrow_address);
         ("refundRecipient", PyStr (address_id (default_address wallet)));
         ("orderReferrer", PyStr "0x0000000000000000000000000000000000000000");
         ("expectedMarketType", PyStr "0");
         ("minOrderSize", PyStr (Py.str_of_int min_order_size));
         ("sqrtPriceLimitX96", PyStr "0");
         ("comment", PyStr ("Gift purchase for " ++ recipient)) ];
     amount := Some total_eth_required;
     asset_id := Some "wei" |}.

(** The keyword arguments of the escrow deposit. *)
Definition create_gift_call
    (amount_eth_in_wei memecoin_address recipient giver : string)
    (usdc_price : Z) : contract_call :=
  {| contract_address := escrow_address;
     method := "createGift";
     call_abi := GIFT_ESCROW_ABI;
     args :=
       [ ("token", PyStr memecoin_address);
         ("recipient", PyStr recipient);
         ("giver", PyStr giver);
         ("redeemableUsdcAmount", PyInt usdc_price);
         ("initialBuyPrice", PyStr amount_eth_in_wei) ];
     amount := None;
     asset_id := None |}.

(** The message returned on success. *)
Definition success_message
    (token_quote : Z) (memecoin_address giver recipient : string)
    (eth_spent fee usdc : string) (gift_result : ContractInvocation) : string :=
  "Created gift transfer with fixed USDC redemption:" ++ nl ++
  "- Purchased " ++ Py.str_of_int token_quote ++ " tokens of "
    ++ memecoin_address ++ nl ++
  "- From: " ++ giver ++ nl ++
  "- To: " ++ recipient ++ nl ++
  "- Initial ETH spent: " ++ eth_spent ++ " ETH" ++ nl ++
  "- Platform fee: " ++ fee ++ " ETH" ++ nl ++
  "- Fixed USDC redemption value: " ++ usdc ++ " USDC" ++ nl ++
  "- Recipient can choose to receive either:" ++ nl ++
  "  1. The memecoin tokens" ++ nl ++
  "  2. The fixed USDC amount" ++ nl ++
  "Gift creation tx: " ++ transaction_hash gift_result ++ nl ++
  "Transaction link: " ++ transaction_link gift_result.

(** The suite of the [try] statement, in evaluation order. *)
Definition gift_transfer_body (wallet : Wallet)
    (amount_eth_in_wei memecoin_address recipient giver : string)
  : prog string :=
  token_quote <-
    perform (get_buy_quote (network_id wallet) memecoin_address amount_eth_in_wei) ;;
  amount_float <- lift (float_of_str amount_eth_in_wei) ;;
  platform_fee <- lift (Py.int_of_float (Py.fmul amount_float Py.f_0_03)) ;;
  amount_int <- lift (int_of_str amount_eth_in_wei) ;;
  let total_eth_required := Py.str_of_int (amount_int + platform_fee) in
  quote_float <- lift (Py.float_of_int token_quote) ;;
  min_order_size <- lift (Py.int_of_float (Py.fmul quote_float Py.f_0_99)) ;;
  pending_buy <-
    perform (invoke_contract wallet
               (buy_call wallet memecoin_address recipient
                         min_order_size total_eth_required)) ;;
  buy_result <- perform (wait pending_buy) ;;
  usdc_price <-
    get_current_usdc_price (network_id wallet) memecoin_address token_quote ;;
  pending_gift <-
    perform (invoke_contract wallet
               (create_gift_call amount_eth_in_wei memecoin_address
                                 recipient giver usdc_price)) ;;
  gift_result <- perform (wait pending_gift) ;;
  amount_again <- lift (int_of_str amount_eth_in_wei) ;;
  eth_spent <- lift (from_wei_ether amount_again) ;;
  fee <- lift (from_wei_ether platform_fee) ;;
  usdc_float <- lift (Py.float_of_int usdc_price) ;;
  Ret (success_message token_quote memecoin_address giver recipient
         eth_spent fee (float_str (Py.fdiv usdc_float Py.f_1e6)) gift_result).

Definition gift_transfer (wallet : Wallet)
    (amount_eth_in_wei memecoin_address recipient giver : string)
  : prog string :=
  try_except
    (gift_transfer_body wallet amount_eth_in_wei memecoin_address recipient giver)
    (fun e => Ret (error_prefix ++ exn_message e)).

(** [CdpAction] as the action class fills it. *)
Record CdpAction : Type := {
  name : string;
  description : string;
  args_schema : option model;
  func : Wallet -> string -> string -> string -> string -> prog string }.

Definition GiftTransferAction : CdpAction :=
  {| name := "gift_transfer";
     description := GIFT_TRANSFER_PROMPT;
     args_schema := Some GiftTransferInput;
     func := gift_transfer |}.

End Action.

(** ** Reading traces and answers *)

(** What kind of call an entry of the trace is. *)
Inductive call_kind : Type :=
| KBuyQuote
| KSellQuote
| KInvoke (method_name : string)
| KWait.

Definition kind_of (r : request) : call_kind :=
  match r with
  | ReqBuyQuote _ _ _ => KBuyQuote
  | ReqSellQuote _ _ _ => KSellQuote
  | ReqInvoke _ c => KInvoke (method c)
  | ReqWait _ => KWait
  end.

Definition kinds (t : trace) : list call_kind := map kind_of (requests t).

Definition is_wait (k : call_kind) : bool :=
  match k with KWait => true | _ => false end.

(** The calls with each [invoke_contract(...).wait()] counted once. *)
Definition external_calls (t : trace) : list call_kind :=
  filter (fun k => negb (is_wait k)) (kinds t).

Definition is_invoke (r : request) : bool :=
  match r with ReqInvoke _ _ => true | _ => false end.

Definition raised (r : response) : bool :=
  match r with RespRaise _ => true | _ => false end.

(** The calls of a run in which nothing failed. *)
Definition full_sequence : list call_kind :=
  [KBuyQuote; KInvoke "buy"; KWait; KSellQuote; KInvoke "createGift"; KWait].

(** [s.startswith(p)] *)
Fixpoint startswith (p s : string) : bool :=
  match p, s with
  | EmptyString, _ => true
  | String a p', String b s' => Ascii.eqb a b && startswith p' s'
  | String _ _, EmptyString => false
  end.

(** An answer of the [except] branch. *)
Definition is_error_report (s : string) : bool := startswith error_prefix s.

(** What the [try] statement of the action makes of an exception raised in
    its suite: the error report for an instance of [Exception], the
    exception itself otherwise. *)
Definition caught (e : exn) : result string :=
  if exn_is_Exception e then inr (error_prefix ++ exn_message e) else inl e.

(** What a response shows to the text of the action: a quote, an exception
    and the invocation that the last [wait] returns, whose hash and link are
    printed; of the three invocations before it, only that there is one. *)
Definition blank : ContractInvocation :=
  {| transaction_hash := EmptyString; transaction_link := EmptyString |}.

Definition observed (position : nat) (r : response) : response :=
  match r with
  | RespInvocation _ => if Nat.eqb position 5 then r else RespInvocation blank
  | _ => r
  end.

Fixpoint observations_from (position : nat) (rs : list response)
  : list response :=
  match rs with
  | r :: rs' => observed position r :: observations_from (S position) rs'
  | [] => []
  end.

Definition observations (t : trace) : list response :=
  observations_from 0 (responses t).

(** The pricing formula as the specification words it:
    [int((sell_quote / 1e18) * 2000 * 1e6)], where [/] between an [int] and a
    [float] converts the [int] first and [*] between a [float] and the
    [int] 2000 multiplies by the double 2000.0. *)
Definition truediv_int_float (z : Z) (y : Py.float) : result Py.float :=
  match Py.float_of_int z with
  | inl e => inl e
  | inr x => inr (Py.fdiv x y)
  end.

Definition usdc_formula (sell_quote : Z) : result Z :=
  match truediv_int_float sell_quote Py.f_1e18 with
  | inl e => inl e
  | inr x => Py.int_of_float (Py.fmul (Py.fmul x Py.f_2000) Py.f_1e6)
  end.

(** The exact 3% of an amount, rounded down. *)
Definition exact_fee (amount : Z) : Z := 3 * amount / 100.

Definition pyval_eqb (a b : pyval) : bool :=
  match a, b with
  | PyStr x, PyStr y => String.eqb x y
  | PyInt x, PyInt y => Z.eqb x y
  | _, _ => false
  end.

(** Whether some entry of an [args] dictionary holds the value [v]. *)
Definition carries (d : list (string * pyval)) (v : pyval) : bool :=
  existsb (fun kv => pyval_eqb (snd kv) v) d.


(** ** A concrete environment *)

Module Demo.

Definition wallet : Wallet :=
  {| network_id := "base-sepolia";
     default_address := {| address_id := "0xW" |} |}.

Definition WOW_ABI : abi := [].

(** A stand-in for the rendering of [Web3.from_wei]: it refuses what lies
    outside [0, 2**256 - 1], as web3 does, and prints the wei otherwise. *)
Definition from_wei_ether (n : Z) : result string :=
  if (n <? 0) || (2 ^ 256 - 1 <? n)
  then raise "ValueError" "value must be between 1 and 2**256 - 1"
  else ok (Py.str_of_int n ++ "e-18").

(** A rendering that also refuses amounts of exactly 30000 wei. *)
Definition picky_from_wei_ether (n : Z) : result string :=
  if n =? 30000 then raise "ValueError" "refused" else from_wei_ether n.

Definition float_str (x : Py.float) : string :=
  match Py.int_of_float x with
  | inr z => Py.str_of_int z ++ ".0"
  | inl _ => "nan"
  end.

Definition pending : ContractInvocation :=
  {| transaction_hash := EmptyString; transaction_link := EmptyString |}.

Definition mined : ContractInvocation :=
  {| transaction_hash := "0xabc"; transaction_link := "https://scan/tx/0xabc" |}.

(** Collaborators that always succeed, quoting [buy_quote] tokens and
    [sell_quote] wei; they keep no state. *)
Definition world (buy_quote sell_quote : Z) : handler unit :=
  fun X c s =>
    match c in call T return result T * unit with
    | get_buy_quote _ _ _ => (inr buy_quote, s)
    | get_sell_quote _ _ _ => (inr sell_quote, s)
    | invoke_contract _ _ => (inr pending, s)
    | wait _ => (inr mined, s)
    end.

(** Collaborators whose purchase is refused. *)
Definition refusing_world (buy_quote : Z) : handler unit :=
  fun X c s =>
    match c in call T return result T * unit with
    | get_buy_quote _ _ _ => (inr buy_quote, s)
    | get_sell_quote _ _ _ => (inr 0, s)
    | invoke_contract _ c =>
        if String.eqb (method c) "buy"
        then (raise "ApiError" "insufficient funds", s)
        else (inr pending, s)
    | wait _ => (inr mined, s)
    end.

(** Collaborators whose quotes cannot be fetched. *)
Definition offline_world : handler unit :=
  fun X c s =>
    match c in call T return result T * unit with
    | get_buy_quote _ _ _ => (raise "ConnectionError" "rpc unreachable", s)
    | get_sell_quote _ _ _ => (raise "ConnectionError" "rpc unreachable", s)
    | invoke_contract _ _ => (inr pending, s)
    | wait _ => (inr mined, s)
    end.

(** Collaborators whose sell quote cannot be fetched once the purchase is
    done. *)
Definition pricing_down_world : handler unit :=
  fun X c s =>
    match c in call T return result T * unit with
    | get_buy_quote _ _ _ => (inr 5000, s)
    | get_sell_quote _ _ _ => (raise "ConnectionError" "rpc unreachable", s)
    | invoke_contract _ _ => (inr pending, s)
    | wait _ => (inr mined, s)
    end.

(** The user interrupts the first call: [KeyboardInterrupt] is not an
    instance of [Exception]. *)
Definition interrupt : exn := mk_exn "KeyboardInterrupt" EmptyString false.

Definition interrupted_world : handler unit :=
  fun X c s =>
    match c in call T return result T * unit with
    | get_buy_quote _ _ _ => (inl interrupt, s)
    | get_sell_quote _ _ _ => (inl interrupt, s)
    | invoke_contract _ _ => (inl interrupt, s)
    | wait _ => (inl interrupt, s)
    end.

(** Collaborators that count the calls they serve and stamp the purchase
    with the count; the escrow deposit goes as in [world]. *)
Definition stamped (n : nat) : ContractInvocation :=
  {| transaction_hash := "0x" ++ Py.str_of_int (Z.of_nat n);
     transaction_link := "https://scan/tx/" ++ Py.str_of_int (Z.of_nat n) |}.

Definition counting_world (buy_quote sell_quote : Z) : handler nat :=
  fun X c s =>
    match c in call T return result T * nat with
    | get_buy_quote _ _ _ => (inr buy_quote, S s)
    | get_sell_quote _ _ _ => (inr sell_quote, S s)
    | invoke_contract _ c =>
        (inr (if String.eqb (method c) "buy" then stamped s else pending), S s)
    | wait i =>
        (inr (if String.eqb (transaction_hash i) EmptyString
              then mined else stamped s), S s)
    end.

(** A one-character string, by code point. *)
Definition char (n : nat) : string := String (ascii_of_nat n) EmptyString.

(** A literal of [n] digits. *)
Definition ones (n : nat) : string := String.concat EmptyString (repeat "1" n).

Definition gift_with (render : Z -> result string)
    (amount_eth_in_wei : string) : prog string :=
  gift_transfer WOW_ABI render float_str
    Literal.int_of_str Literal.float_of_str
    wallet amount_eth_in_wei "0xM" "0xR" "0xG".

Definition gift : string -> prog string := gift_with from_wei_ether.

(** A gift of 1000000 wei, quoted 5000 tokens that sell for 0.001 ETH. *)
Definition run_ok : outcome unit string :=
  run (world 5000 (10 ^ 15)) (gift "1000000") tt.

(** The same gift with a quote of 6000 tokens. *)
Definition run_other_quote : outcome unit string :=
  run (world 6000 (10 ^ 15)) (gift "1000000") tt.

(** The same gift served by the counting collaborators, after seven
    earlier calls. *)
Definition run_counted : outcome nat string :=
  run (counting_world 5000 (10 ^ 15)) (gift "1000000") 7%nat.

(** The same gift when the purchase is refused. *)
Definition run_refused : outcome unit string :=
  run (refusing_world 5000) (gift "1000000") tt.

(** The same gift when the pricing step finds the network down. *)
Definition run_pricing_down : outcome unit string :=
  run pricing_down_world (gift "1000000") tt.

(** The same gift when the user interrupts. *)
Definition run_interrupted : outcome unit string :=
  run interrupted_world (gift "1000000") tt.

(** The same gift with a quote of minus 5000 tokens. *)
Definition run_negative_quote : outcome unit string :=
  run (world (-5000) (10 ^ 15)) (gift "1000000") tt.

(** The same gift with quotes beyond the double range. *)
Definition run_huge_quote : outcome unit string :=
  run (world (2 ^ 1024) (10 ^ 15)) (gift "1000000") tt.

Definition run_huge_sell_quote : outcome unit string :=
  run (world 5000 (2 ^ 1024)) (gift "1000000") tt.

(** The same gift when the fee cannot be rendered. *)
Definition run_picky : outcome unit string :=
  run (world 5000 (10 ^ 15)) (gift_with picky_from_wei_ether "1000000") tt.

(** A gift of 12345678901234567890 wei, beyond the integers a double holds
    exactly. *)
Definition run_big : outcome unit string :=
  run (world 5000 (10 ^ 15)) (gift "12345678901234567890") tt.

(** A gift of minus 100 wei. *)
Definition run_negative : outcome unit string :=
  run (world 5000 (10 ^ 15)) (gift "-100") tt.

(** A gift of one wei and a half, of "ten" wei, of infinitely many. *)
Definition run_fraction : outcome unit string :=
  run (world 5000 (10 ^ 15)) (gift "1.5") tt.

Definition run_word : outcome unit string :=
  run (world 5000 (10 ^ 15)) (gift "ten") tt.

Definition run_infinite : outcome unit string :=
  run (world 5000 (10 ^ 15)) (gift "inf") tt.

(** The pricing of 5000 tokens, online and offline. *)
Definition run_price : outcome unit Z :=
  run (world 5000 (10 ^ 15))
      (get_current_usdc_price "base-sepolia" "0xM" 5000) tt.

Definition run_price_offline : outcome unit Z :=
  run offline_world (get_current_usdc_price "base-sepolia" "0xM" 5000) tt.

Definition buy_request_at (min_order_size : Z) (total_eth_required : string)
  : contract_call :=
  buy_call WOW_ABI wallet "0xM" "0xR" min_order_size total_eth_required.

Definition buy_request : string -> contract_call := buy_request_at 4950.

Definition gift_request : contract_call :=
  create_gift_call "1000000" "0xM" "0xR" "0xG" 2000000.

End Demo.

(** * Facts *)

(** ** Rounding in binary64

    [binary_round_aux] shifts the exact mantissa right, rounds to nearest
    even on the bits shifted out, and renormalises. The lemmas below bound
    the rounded value from above by [(1 + 2^-53)] times the exact one, away
    from the subnormal range, and track its sign. *)

Module PyFacts.
Import Py.

Example float_of_odd_int :
  float_of_int 9007199254740993 = inr (S754_finite false 4503599627370496 1).
Proof. reflexivity. Qed.

Example fee_of_million :
  int_of_float (fmul f_1e6 f_0_03)
  = inr 30000.
Proof. reflexivity. Qed.

Lemma digits2_pos_lower (p : positive) :
  2 ^ (Zpos (digits2_pos p) - 1) <= Zpos p.
Proof.
  induction p as [p IH|p IH|]; cbn [digits2_pos].
  - rewrite Pos2Z.inj_succ. replace (Z.succ (Zpos (digits2_pos p)) - 1) with (Z.succ (Zpos (digits2_pos p) - 1)) by lia.
    rewrite Z.pow_succ_r by lia. lia.
  - rewrite Pos2Z.inj_succ. replace (Z.succ (Zpos (digits2_pos p)) - 1) with (Z.succ (Zpos (digits2_pos p) - 1)) by lia.
    rewrite Z.pow_succ_r by lia. lia.
  - simpl. lia.
Qed.

(** One halving keeps the quotient, sets the round bit to the bit shifted
    out and folds the old round bit into the sticky bit. *)
Lemma shr_1_spec (m : Z) (r s : bool) :
  0 <= m ->
  shr_1 (Build_shr_record m r s) = Build_shr_record (m / 2) (Z.odd m) (r || s).
Proof.
  intros Hm. rewrite <- Z.div2_div.
  destruct m as [|[p|p|]|]; try reflexivity. lia.
Qed.

Lemma iter_pos_succ {A} (f : A -> A) (p : positive) (x : A) :
  iter_pos f (Pos.succ p) x = f (iter_pos f p x).
Proof.
  assert (comm : forall q y, iter_pos f q (f y) = f (iter_pos f q y)).
  { induction q as [q IH|q IH|]; intros y; cbn [iter_pos].
    - now rewrite !IH.
    - now rewrite !IH.
    - reflexivity. }
  revert x. induction p as [p IH|p IH|]; intros x; cbn [Pos.succ iter_pos].
  - rewrite !IH. now rewrite !comm.
  - now rewrite !comm.
  - reflexivity.
Qed.

Lemma shr_inv_step M n mrs :
  0 <= M -> 0 <= n -> shr_inv M n mrs -> shr_inv M (n + 1) (shr_1 mrs).
Proof.
  intros HM Hn [Hm Hr]. destruct mrs as [m r s]. cbn [shr_m shr_r] in Hm, Hr.
  assert (Hp : 0 < 2 ^ n) by (apply Z.pow_pos_nonneg; lia).
  assert (Hm0 : 0 <= m) by (subst m; apply Z.div_pos; lia).
  rewrite shr_1_spec by exact Hm0. unfold shr_inv; cbn [shr_m shr_r].
  rewrite Z.pow_add_r by lia. change (2 ^ 1) with 2.
  split.
  - subst m. rewrite Z.div_div by lia. reflexivity.
  - intros Hodd.
    rewrite Z.rem_mul_r by lia.
    rewrite <- Hm.
    rewrite Zmod_odd, Hodd.
    pose proof (Z.mod_pos_bound M (2 ^ n) Hp). nia.
Qed.

Lemma shr_inv_iter M (p : positive) :
  0 <= M ->
  shr_inv M (Zpos p) (iter_pos shr_1 p (Build_shr_record M false false)).
Proof.
  intros HM. induction p as [|p IH] using Pos.peano_ind.
  - cbn [iter_pos]. change 1 with (0 + 1). apply shr_inv_step; try lia.
    split; cbn [shr_m shr_r].
    + now rewrite Z.div_1_r.
    + discriminate.
  - rewrite iter_pos_succ, Pos2Z.inj_succ. apply shr_inv_step; try lia. exact IH.
Qed.


(** Above the subnormal range an exact mantissa is shifted only when it has
    more than 53 bits, and then by the excess. *)
Lemma shr_fexp_exact (p : positive) (e : Z) :
  -1074 <= e ->
  exists n,
    0 <= n /\
    snd (shr_fexp prec emax (Zpos p) e loc_Exact) = e + n /\
    shr_inv (Zpos p) n (fst (shr_fexp prec emax (Zpos p) e loc_Exact)) /\
    (0 < n -> 2 ^ (n + 52) <= Zpos p).
Proof.
  intros He. unfold shr_fexp, shr, shr_record_of_loc.
  cbn [Zdigits2].
  pose proof (digits2_pos_lower p) as Hd.
  set (d := Zpos (digits2_pos p)) in *.
  assert (Hk : fexp prec emax (d + e) - e = Z.max (d - 53) (-1074 - e)).
  { unfold fexp, SpecFloat.emin, prec, emax. lia. }
  rewrite Hk.
  destruct (Z.max (d - 53) (-1074 - e)) as [|q|q] eqn:Hq.
  - exists 0. cbn [fst snd]. repeat split; try lia.
    cbn [shr_m]. now rewrite Z.div_1_r.
    cbn [shr_r]. discriminate.
  - exists (Zpos q). cbn [fst snd]. repeat split; try lia.
    + apply shr_inv_iter. lia.
    + apply shr_inv_iter. lia.
    + intros _. replace (Zpos q + 52) with (d - 1) by lia. exact Hd.
  - exists 0. cbn [fst snd]. repeat split; try lia.
    cbn [shr_m]. now rewrite Z.div_1_r.
    cbn [shr_r]. discriminate.
Qed.

(** Rounding keeps the quotient or adds one, the latter only on a set round
    bit. *)
Lemma round_nearest_even_cases (mrs : shr_record) :
  let r := round_nearest_even (shr_m mrs) (loc_of_shr_record mrs) in
  r = shr_m mrs \/ (r = shr_m mrs + 1 /\ shr_r mrs = true).
Proof.
  destruct mrs as [m [|] [|]]; cbn [shr_m shr_r loc_of_shr_record round_nearest_even].
  - right; split; reflexivity.
  - destruct (Z.even m); [left|right]; auto.
  - left; reflexivity.
  - left; reflexivity.
Qed.

(** Rounding keeps the sign it is given. *)
Lemma binary_round_aux_sign (s : bool) (m e : Z) (l : location) :
  match binary_round_aux prec emax s m e l with
  | S754_zero s' | S754_infinity s' | S754_finite s' _ _ => s' = s
  | S754_nan => True
  end.
Proof.
  unfold binary_round_aux.
  destruct (shr_fexp prec emax m e l) as [mrs1 e1].
  destruct (shr_fexp prec emax _ e1 loc_Exact) as [mrs2 e2].
  destruct (shr_m mrs2); auto.
  destruct (e2 <=? emax - prec); reflexivity.
Qed.

(** The rounded value [m' * 2 ^ e'] is at most [(1 + 2^-53)] times the exact
    value [p * 2 ^ e]; both are scaled by [2 ^ (53 - e)] to stay in [Z]. *)
Lemma binary_round_aux_upper (s : bool) (p : positive) (e : Z) s' m' e' :
  -1074 <= e ->
  binary_round_aux prec emax s (Zpos p) e loc_Exact = S754_finite s' m' e' ->
  exists d, 0 <= d /\ e' = e + d /\
            2 ^ 53 * (Zpos m' * 2 ^ d) <= (2 ^ 53 + 1) * Zpos p.
Proof.
  intros He. unfold binary_round_aux.
  destruct (shr_fexp_exact p e He) as (n & Hn & He1 & [Hm1 Hr1] & Hbig).
  destruct (shr_fexp prec emax (Zpos p) e loc_Exact) as [mrs1 e1].
  cbn [fst snd] in *. subst e1.
  pose proof (round_nearest_even_cases mrs1) as Hround. cbn zeta in Hround.
  set (r0 := round_nearest_even (shr_m mrs1) (loc_of_shr_record mrs1)) in *.
  assert (Hpn : 0 < 2 ^ n) by (apply Z.pow_pos_nonneg; lia).
  pose proof (Z.div_mod (Zpos p) (2 ^ n) ltac:(lia)) as Hdm.
  pose proof (Z.mod_pos_bound (Zpos p) (2 ^ n) Hpn) as Hmod.
  assert (Hr0 : 2 ^ 53 * (r0 * 2 ^ n) <= (2 ^ 53 + 1) * Zpos p).
  { destruct Hround as [Heq|[Heq Hr]].
    - rewrite Heq, Hm1. nia.
    - specialize (Hr1 Hr).
      assert (0 < n).
      { destruct (Z.eq_dec n 0) as [->|]; [|lia]. rewrite Z.pow_0_r, Z.mod_1_r in Hr1. lia. }
      specialize (Hbig H). rewrite Z.pow_add_r in Hbig by lia.
      rewrite Heq, Hm1. nia. }
  assert (Hr0pos : 0 < r0).
  { assert (0 < Zpos p / 2 ^ n).
    { apply Z.div_str_pos. split; [lia|].
      destruct (Z.eq_dec n 0) as [->|]; [cbn; lia|].
      specialize (Hbig ltac:(lia)). rewrite Z.pow_add_r in Hbig by lia. nia. }
    destruct Hround as [Heq|[Heq _]]; rewrite Heq, Hm1; lia. }
  destruct r0 as [|q|q] eqn:Hq; try lia.
  destruct (shr_fexp_exact q (e + n) ltac:(lia)) as (n2 & Hn2 & He2 & [Hm2 _] & _).
    destruct (shr_fexp prec emax (Zpos q) (e + n) loc_Exact) as [mrs2 e2].
    cbn [fst snd] in *. subst e2.
    destruct (shr_m mrs2) as [|m2|m2] eqn:Hm2'; try discriminate.
    destruct (e + n + n2 <=? emax - prec); try discriminate.
    intros H; inversion H; subst s' m' e'; clear H.
    exists (n + n2). repeat split; try lia.
    assert (Hpn2 : 0 < 2 ^ n2) by (apply Z.pow_pos_nonneg; lia).
    pose proof (Z.div_mod (Zpos q) (2 ^ n2) ltac:(lia)) as Hdm2.
    pose proof (Z.mod_pos_bound (Zpos q) (2 ^ n2) Hpn2) as Hmod2.
    rewrite Z.pow_add_r by lia. nia.
Qed.

Lemma iter_xO_pow (p d : positive) :
  Zpos (Pos.iter xO p d) = Zpos p * 2 ^ Zpos d.
Proof.
  induction d as [|d IH] using Pos.peano_ind.
  - cbn [Pos.iter]. rewrite Pos2Z.inj_xO. change (2 ^ 1) with 2. lia.
  - rewrite Pos.iter_succ, Pos2Z.inj_xO, IH, Pos2Z.inj_succ, Z.pow_succ_r by lia. lia.
Qed.

Lemma shl_align_spec (p : positive) (e e' : Z) :
  let '(mz, ez) := shl_align p e e' in
  Z.min e e' = ez /\ Zpos mz = Zpos p * 2 ^ (e - ez).
Proof.
  unfold shl_align. destruct (e' - e) as [|d|d] eqn:Hd.
  - split; [lia|]. rewrite Z.sub_diag. cbn. lia.
  - split; [lia|]. rewrite Z.sub_diag. cbn. lia.
  - split; [lia|]. rewrite iter_xO_pow. f_equal. f_equal. lia.
Qed.

Lemma trunc_pos_nonneg m e : 0 <= trunc_pos m e.
Proof.
  unfold trunc_pos. destruct (0 <=? e) eqn:He.
  - apply Z.leb_le in He. pose proof (Z.pow_nonneg 2 e). nia.
  - apply Z.div_pos; [lia|]. apply Z.pow_pos_nonneg; lia.
Qed.

(** [m * 2 ^ d <= q * 2 ^ a] bounds the truncation of [m * 2 ^ (d - a)]. *)
Lemma trunc_pos_le (m : positive) (d a q : Z) :
  0 <= d -> 0 <= a -> Zpos m * 2 ^ d <= q * 2 ^ a -> trunc_pos m (d - a) <= q.
Proof.
  intros Hd Ha H. unfold trunc_pos.
  assert (0 < 2 ^ d) by (apply Z.pow_pos_nonneg; lia).
  assert (0 < 2 ^ a) by (apply Z.pow_pos_nonneg; lia).
  destruct (0 <=? d - a) eqn:He.
  - apply Z.leb_le in He.
    assert (0 < 2 ^ (d - a)) by (apply Z.pow_pos_nonneg; lia).
    replace d with ((d - a) + a) in H at 1 by lia.
    rewrite Z.pow_add_r in H by lia. nia.
  - apply Z.leb_gt in He.
    assert (0 < 2 ^ (a - d)) by (apply Z.pow_pos_nonneg; lia).
    replace (- (d - a)) with (a - d) by lia.
    apply Z.div_le_upper_bound; [lia|].
    replace a with ((a - d) + d) in H at 1 by lia.
    rewrite Z.pow_add_r in H by lia. nia.
Qed.

Lemma float_of_decimal_sign neg v :
  match float_of_decimal neg v 0 with
  | S754_zero s | S754_infinity s | S754_finite s _ _ => s = neg
  | S754_nan => True
  end.
Proof.
  unfold float_of_decimal. destruct v; try reflexivity.
  cbn [Z.leb Z.compare]. unfold binary_round.
  destruct (shl_align _ _ _) as [mz ez]. apply binary_round_aux_sign.
Qed.

Lemma fmul_sign x s m e :
  match fmul x (S754_finite s m e) with
  | S754_zero s' | S754_infinity s' | S754_finite s' _ _ =>
      match x with
      | S754_zero sx | S754_infinity sx | S754_finite sx _ _ => s' = xorb sx s
      | S754_nan => True
      end
  | S754_nan => True
  end.
Proof.
  destruct x as [sx|sx| |sx mx ex]; cbn [fmul SFmul]; try reflexivity.
  unfold fmul, SFmul. apply binary_round_aux_sign.
Qed.

(** [float(n)] for [n] of magnitude [p] is at most [(1 + 2^-53) * p] in
    magnitude, and has the sign of [n]. *)
Lemma binary_round_int_upper (sgn : bool) (p : positive) s m e :
  binary_round prec emax sgn p 0 = S754_finite s m e ->
  s = sgn /\
  exists a d, 0 <= a <= 52 /\ 0 <= d /\ e = d - a /\
    2 ^ 53 * (Zpos m * 2 ^ d) <= (2 ^ 53 + 1) * (Zpos p * 2 ^ a).
Proof.
  unfold binary_round.
  pose proof (shl_align_spec p 0 (fexp prec emax (Zpos (digits2_pos p) + 0))) as Hal.
  destruct (shl_align p 0 _) as [mz ez]. destruct Hal as [Hez Hmz].
  assert (Hrange : -52 <= ez <= 0).
  { unfold fexp, SpecFloat.emin, prec, emax in Hez.
    pose proof (Pos2Z.is_pos (digits2_pos p)). lia. }
  intros Hbra. split.
  - pose proof (binary_round_aux_sign sgn (Zpos mz) ez loc_Exact) as Hs.
    rewrite Hbra in Hs. exact Hs.
  - apply binary_round_aux_upper in Hbra; [|lia].
    destruct Hbra as (d & Hd & He & Hle).
    exists (- ez), d. repeat split; try lia.
    rewrite Hmz in Hle. replace (0 - ez) with (- ez) in Hle by lia. exact Hle.
Qed.

Lemma float_of_int_upper (q : Z) s m e :
  float_of_int q = inr (S754_finite s m e) ->
  q <> 0 /\ s = (q <? 0) /\
  exists a d, 0 <= a <= 52 /\ 0 <= d /\ e = d - a /\
    2 ^ 53 * (Zpos m * 2 ^ d) <= (2 ^ 53 + 1) * (Z.abs q * 2 ^ a).
Proof.
  unfold float_of_int, binary_normalize.
  destruct q as [|p|p]; [discriminate| |].
  - destruct (binary_round prec emax false p 0) as [| | |s1 m1 e1] eqn:Hbr;
      try discriminate.
    intros H; inversion H; subst s1 m1 e1; clear H.
    destruct (binary_round_int_upper _ _ _ _ _ Hbr) as [-> Hle].
    split; [lia|]. split; [reflexivity|exact Hle].
  - destruct (binary_round prec emax true p 0) as [| | |s1 m1 e1] eqn:Hbr;
      try discriminate.
    intros H; inversion H; subst s1 m1 e1; clear H.
    destruct (binary_round_int_upper _ _ _ _ _ Hbr) as [-> Hle].
    split; [lia|]. split; [reflexivity|exact Hle].
Qed.

(** [x * 0.99] is at most [(1 + 2^-53)] times the exact product. *)
Lemma fmul_099_upper s m e r :
  -1000 <= e ->
  fmul (S754_finite s m e) f_0_99 = r ->
  match r with
  | S754_finite _ m' e' =>
      exists d, 0 <= d /\ e' = e - 53 + d /\
        2 ^ 53 * (Zpos m' * 2 ^ d) <= (2 ^ 53 + 1) * (Zpos m * 8917127262193582)
  | _ => True
  end.
Proof.
  intros He <-. unfold fmul, f_0_99, SFmul.
  destruct (binary_round_aux _ _ _ _ _ _) as [| | |s' m' e'] eqn:Hbra; auto.
  apply binary_round_aux_upper in Hbra; [|lia].
  destruct Hbra as (d & Hd & He' & Hle).
  exists d. repeat split; try lia.
Qed.

(** [int(float(q) * 0.99)] lies between zero and [q]: two roundings cost
    less than the factor 0.99 gains, and the sign is kept. *)
Lemma min_order_toward_zero (q mo : Z) (F : float) :
  float_of_int q = inr F ->
  int_of_float (fmul F f_0_99) = inr mo ->
  (0 <= q -> 0 <= mo <= q) /\ (q <= 0 -> q <= mo <= 0).
Proof.
  intros HF Hmo.
  destruct F as [sF|sF| |sF mF eF]; try (cbn in Hmo; discriminate).
  - cbn in Hmo. inversion Hmo; lia.
  - destruct (float_of_int_upper _ _ _ _ HF)
      as (Hq & HsF & a & d1 & Ha & Hd1 & HeF & H1).
    pose proof (fmul_099_upper sF mF eF _ ltac:(lia) eq_refl) as H2.
    pose proof (fmul_sign (S754_finite sF mF eF)
                  false 8917127262193582 (-53)) as Hs.
    fold f_0_99 in Hs.
    destruct (fmul (S754_finite sF mF eF) f_0_99) as [s'|s'| |s' m' e'];
      cbn in Hmo; try discriminate.
    + inversion Hmo; lia.
    + destruct H2 as (d2 & Hd2 & He' & H2).
      assert (Hle : trunc_pos m' e' <= Z.abs q).
      { replace e' with ((d1 + d2) - (a + 53)) by lia.
        apply trunc_pos_le; try lia.
        rewrite !Z.pow_add_r by lia.
        assert (0 < 2 ^ d1) by (apply Z.pow_pos_nonneg; lia).
        assert (0 < 2 ^ d2) by (apply Z.pow_pos_nonneg; lia).
        assert (0 < 2 ^ a) by (apply Z.pow_pos_nonneg; lia).
        remember (2 ^ d1) as D1. remember (2 ^ d2) as D2. remember (2 ^ a) as A.
        remember (Zpos m' * D2) as X. remember (Zpos mF * D1) as Y.
        remember (Z.abs q) as Q.
        change (2 ^ 53) with 9007199254740992 in *.
        assert (HX : 9007199254740992 * (X * D1)
                     <= 9007199254740993 * 8917127262193582 * Y).
        { subst Y. apply Z.mul_le_mono_nonneg_r with (p := D1) in H2; lia. }
        replace (Zpos m' * (D1 * D2)) with (X * D1) by (subst X; ring).
        assert (0 <= Q) by (subst Q; lia).
        lia. }
      pose proof (trunc_pos_nonneg m' e').
      rewrite Bool.xorb_false_r in Hs. subst s' sF.
      inversion Hmo.
      destruct (q <? 0) eqn:Hneg;
        [apply Z.ltb_lt in Hneg|apply Z.ltb_ge in Hneg]; lia.
Qed.

(** [int(float(q) * 0.99) <= q] for a quote that is not negative. *)
Lemma min_order_le_quote (q mo : Z) (F : float) :
  0 <= q ->
  float_of_int q = inr F ->
  int_of_float (fmul F f_0_99) = inr mo ->
  mo <= q.
Proof.
  intros Hq HF Hmo.
  destruct (min_order_toward_zero q mo F HF Hmo) as [Hpos _]. lia.
Qed.

(** The fee on the double nearest to a non-negative integer is
    non-negative. *)
Lemma fee_of_decimal_nonneg (neg : bool) (a fee : Z) :
  0 <= a -> (0 < a -> neg = false) ->
  int_of_float (fmul (float_of_decimal neg a 0) f_0_03) = inr fee ->
  0 <= fee.
Proof.
  intros Ha Hneg.
  destruct a as [|p|p]; try lia.
  - cbn. intros [= <-]. lia.
  - rewrite (Hneg ltac:(lia)).
    pose proof (float_of_decimal_sign false (Zpos p)) as Hs.
    destruct (float_of_decimal false (Zpos p) 0) as [sx|sx| |sx mx ex];
      try (cbn; discriminate).
    + cbn. intros [= <-]. lia.
    + subst sx.
      pose proof (fmul_sign (S754_finite false mx ex)
                    false 8646911284551352 (-58)) as Hm.
      fold f_0_03 in Hm.
      destruct (fmul (S754_finite false mx ex) f_0_03) as [s'|s'| |s' m' e'];
        cbn [int_of_float]; try discriminate; intros [= <-]; [lia|].
      pose proof (trunc_pos_nonneg m' e'). subst s'. cbn [xorb]. lia.
Qed.

(** The fee on the double nearest to a negative integer is not
    positive. *)
Lemma fee_of_decimal_nonpos (neg : bool) (a fee : Z) :
  a < 0 -> neg = true ->
  int_of_float (fmul (float_of_decimal neg (Z.abs a) 0) f_0_03) = inr fee ->
  fee <= 0.
Proof.
  intros Ha ->.
  pose proof (float_of_decimal_sign true (Z.abs a)) as Hs.
  destruct (float_of_decimal true (Z.abs a) 0) as [sx|sx| |sx mx ex];
    try (cbn; discriminate).
  - cbn. intros [= <-]. lia.
  - subst sx.
    pose proof (fmul_sign (S754_finite true mx ex)
                  false 8646911284551352 (-58)) as Hm.
    fold f_0_03 in Hm.
    destruct (fmul (S754_finite true mx ex) f_0_03) as [s'|s'| |s' m' e'];
      cbn [int_of_float]; try discriminate; intros [= <-]; [lia|].
    pose proof (trunc_pos_nonneg m' e'). subst s'. cbn [xorb]. lia.
Qed.

(** The fee on a non-negative amount is non-negative, when [float] reads
    the number that [int] reads. *)
Lemma platform_fee_nonneg
    (int_of_str : string -> result Z) (float_of_str : string -> result float)
    (s : string) (a fee : Z) (F : float) :
  literal_agreement int_of_str float_of_str ->
  int_of_str s = inr a -> 0 <= a ->
  float_of_str s = inr F ->
  int_of_float (fmul F f_0_03) = inr fee ->
  0 <= fee.
Proof.
  intros Hagree Hint Ha Hfloat.
  destruct (Hagree s a F Hint Hfloat) as (neg & -> & Hpos & _).
  rewrite (Z.abs_eq a Ha). now apply fee_of_decimal_nonneg.
Qed.

(** The fee on a negative amount is not positive, under the same
    agreement. *)
Lemma platform_fee_nonpos
    (int_of_str : string -> result Z) (float_of_str : string -> result float)
    (s : string) (a fee : Z) (F : float) :
  literal_agreement int_of_str float_of_str ->
  int_of_str s = inr a -> a < 0 ->
  float_of_str s = inr F ->
  int_of_float (fmul F f_0_03) = inr fee ->
  fee <= 0.
Proof.
  intros Hagree Hint Ha Hfloat.
  destruct (Hagree s a F Hint Hfloat) as (neg & -> & _ & Hneg).
  apply fee_of_decimal_nonpos; auto.
Qed.

End PyFacts.

(** ** Rounding in binary64, from both sides

    The same rounding, followed on a quotient [N / D]: the rounded value
    lies within [1 + 2^-53] above and [(1 + 2^-52)^2] below the exact one,
    its mantissa has at most 53 bits, and it overflows only if the exact
    value reaches [2 ^ 1024] up to the rounding error. Magnitudes are
    counted in units of [2 ^ -1074], in which every double is an
    integer. *)

Module PyBounds.
Import Py PyFacts.

Lemma digits2_pos_upper (p : positive) : Zpos p < 2 ^ Zpos (digits2_pos p).
Proof.
  induction p as [p IH|p IH|]; cbn [digits2_pos].
  - rewrite Pos2Z.inj_succ, Z.pow_succ_r by lia. lia.
  - rewrite Pos2Z.inj_succ, Z.pow_succ_r by lia. lia.
  - reflexivity.
Qed.

Lemma shr_inv_frac_step N D n mrs :
  0 <= N -> 0 < D -> 0 <= n ->
  shr_inv_frac N D n mrs -> shr_inv_frac N D (n + 1) (shr_1 mrs).
Proof.
  intros HN HD Hn [Hm Hr]. destruct mrs as [m r s]. cbn [shr_m shr_r] in Hm, Hr.
  assert (Hp : 0 < 2 ^ n) by (apply Z.pow_pos_nonneg; lia).
  set (B := D * 2 ^ n) in *.
  assert (HB : 0 < B) by (unfold B; nia).
  assert (Hm0 : 0 <= m) by (subst m; apply Z.div_pos; lia).
  rewrite shr_1_spec by exact Hm0. unfold shr_inv_frac; cbn [shr_m shr_r].
  replace (D * 2 ^ (n + 1)) with (B * 2)
    by (unfold B; rewrite Z.pow_add_r by lia; change (2 ^ 1) with 2; ring).
  split.
  - subst m. rewrite Z.div_div by lia. reflexivity.
  - intros Hodd. rewrite Z.rem_mul_r by lia. rewrite <- Hm.
    rewrite Zmod_odd, Hodd.
    pose proof (Z.mod_pos_bound N B HB). nia.
Qed.

Lemma shr_inv_frac_iter N D (p : positive) mrs :
  0 <= N -> 0 < D ->
  shr_inv_frac N D 0 mrs ->
  shr_inv_frac N D (Zpos p) (iter_pos shr_1 p mrs).
Proof.
  intros HN HD H0. induction p as [|p IH] using Pos.peano_ind.
  - cbn [iter_pos]. change 1 with (0 + 1). apply shr_inv_frac_step; try lia.
    exact H0.
  - rewrite iter_pos_succ, Pos2Z.inj_succ.
    apply shr_inv_frac_step; try lia. exact IH.
Qed.

Lemma shr_record_of_loc_inv N D (p : positive) l :
  0 < D -> N / D = Zpos p ->
  (round_bit l = true -> D <= 2 * (N mod D)) ->
  shr_inv_frac N D 0 (shr_record_of_loc (Zpos p) l).
Proof.
  intros HD Hq Hl. unfold shr_inv_frac.
  rewrite Z.pow_0_r, Z.mul_1_r. split.
  - destruct l as [|[| |]]; cbn [shr_record_of_loc shr_m]; now rewrite Hq.
  - destruct l as [|[| |]]; cbn [shr_record_of_loc shr_r round_bit] in *;
      try discriminate; intros _; apply Hl; reflexivity.
Qed.

(** Above the subnormal range, the first shift of a rounding. *)
Lemma shr_fexp_frac (p : positive) (e : Z) l N D :
  -1074 <= e -> 0 <= N -> 0 < D -> N / D = Zpos p ->
  (round_bit l = true -> D <= 2 * (N mod D)) ->
  exists n,
    0 <= n /\
    snd (shr_fexp prec emax (Zpos p) e l) = e + n /\
    shr_inv_frac N D n (fst (shr_fexp prec emax (Zpos p) e l)) /\
    (n = 0 -> fst (shr_fexp prec emax (Zpos p) e l)
              = shr_record_of_loc (Zpos p) l) /\
    (0 < n -> 2 ^ (n + 52) <= Zpos p).
Proof.
  intros He HN HD Hq Hl. unfold shr_fexp, shr.
  cbn [Zdigits2].
  pose proof (digits2_pos_lower p) as Hd.
  set (d := Zpos (digits2_pos p)) in *.
  assert (Hk : fexp prec emax (d + e) - e = Z.max (d - 53) (-1074 - e)).
  { unfold fexp, SpecFloat.emin, prec, emax. lia. }
  rewrite Hk.
  pose proof (shr_record_of_loc_inv N D p l HD Hq Hl) as H0.
  destruct (Z.max (d - 53) (-1074 - e)) as [|q|q] eqn:Hmax; cbn [fst snd].
  - exists 0. repeat split; try lia. apply H0. apply H0.
  - exists (Zpos q). repeat split; try lia.
    + apply (shr_inv_frac_iter N D q _ HN HD H0).
    + apply (shr_inv_frac_iter N D q _ HN HD H0).
    + intros _. replace (Zpos q + 52) with (d - 1) by lia. exact Hd.
  - exists 0. repeat split; try lia. apply H0. apply H0.
Qed.

(** A shift leaves at most 53 bits. *)
Lemma shr_fexp_width (p : positive) (e : Z) :
  -1074 <= e ->
  exists n,
    0 <= n /\
    snd (shr_fexp prec emax (Zpos p) e loc_Exact) = e + n /\
    Zpos p < 2 ^ (n + 53).
Proof.
  intros He. unfold shr_fexp, shr, shr_record_of_loc.
  cbn [Zdigits2].
  pose proof (digits2_pos_upper p) as Hd.
  set (d := Zpos (digits2_pos p)) in *.
  assert (Hd0 : 0 < d) by (unfold d; lia).
  assert (Hk : fexp prec emax (d + e) - e = Z.max (d - 53) (-1074 - e)).
  { unfold fexp, SpecFloat.emin, prec, emax. lia. }
  rewrite Hk.
  assert (Hmono : forall k, d <= k -> Zpos p < 2 ^ k).
  { intros k Hle. eapply Z.lt_le_trans; [exact Hd|].
    apply Z.pow_le_mono_r; lia. }
  destruct (Z.max (d - 53) (-1074 - e)) as [|q|q] eqn:Hq.
  - exists 0. cbn [fst snd]. repeat split; try lia. apply Hmono. lia.
  - exists (Zpos q). cbn [fst snd]. repeat split; try lia. apply Hmono. lia.
  - exists 0. cbn [fst snd]. repeat split; try lia. apply Hmono. lia.
Qed.

(** One rounding, above the subnormal range: the rounded value
    [m' * 2 ^ e'] lies within a factor [1 + 2^-53] above and
    [(1 + 2^-52)^2] below the exact value [N / D * 2 ^ e]. *)
Lemma binary_round_aux_bounds (s : bool) (p : positive) (e : Z) l N D :
  -1074 <= e -> 0 <= N -> 0 < D -> N / D = Zpos p ->
  (round_bit l = true -> D <= 2 * (N mod D)) ->
  (l = loc_Exact -> N mod D = 0) ->
  (l <> loc_Exact -> 2 ^ 52 <= Zpos p) ->
  match binary_round_aux prec emax s (Zpos p) e l with
  | S754_finite s' m' e' =>
      s' = s /\ Zpos m' < 2 ^ 53 /\
      exists d, 0 <= d /\ e' = e + d /\ e' <= 971 /\
        2 ^ 53 * (Zpos m' * 2 ^ d * D) <= (2 ^ 53 + 1) * N /\
        2 ^ 104 * N <= (2 ^ 52 + 1) ^ 2 * (Zpos m' * 2 ^ d * D)
  | S754_infinity s' =>
      s' = s /\
      (e <= 971 -> 2 ^ 53 * (2 ^ 52 * 2 ^ (972 - e) * D) <= (2 ^ 53 + 1) * N)
  | _ => False
  end.
Proof.
  intros He HN HD Hq Hbit Hexact Hinexact. unfold binary_round_aux.
  destruct (shr_fexp_frac p e l N D He HN HD Hq Hbit)
    as (n & Hn & He1 & [Hm1 Hr1] & Hsame & Hbig).
  destruct (shr_fexp prec emax (Zpos p) e l) as [mrs1 e1].
  cbn [fst snd] in *. subst e1.
  pose proof (round_nearest_even_cases mrs1) as Hround. cbn zeta in Hround.
  set (r0 := round_nearest_even (shr_m mrs1) (loc_of_shr_record mrs1)) in *.
  assert (Hpn : 0 < 2 ^ n) by (apply Z.pow_pos_nonneg; lia).
  set (B := D * 2 ^ n) in *.
  assert (HB : 0 < B) by (unfold B; nia).
  pose proof (Z.div_mod N B ltac:(lia)) as Hdm.
  pose proof (Z.mod_pos_bound N B HB) as Hmod.
  set (m := shr_m mrs1) in *.
  assert (Hmp : m = Zpos p / 2 ^ n).
  { rewrite Hm1. unfold B. rewrite <- Z.div_div by lia. now rewrite Hq. }
  assert (Hm52 : 0 < n -> 2 ^ 52 <= m).
  { intros Hn0. specialize (Hbig Hn0). rewrite Z.pow_add_r in Hbig by lia.
    rewrite Hmp. apply Z.div_le_lower_bound; lia. }
  assert (Hm_pos : 0 < m).
  { destruct (Z.eq_dec n 0) as [Hz|Hz].
    - rewrite Hmp, Hz, Z.pow_0_r, Z.div_1_r. lia.
    - specialize (Hm52 ltac:(lia)). lia. }
  (* the round bit is only set on a mantissa of 53 bits *)
  assert (Hup : shr_r mrs1 = true -> 2 ^ 52 <= m).
  { intros Hr. destruct (Z.eq_dec n 0) as [Hz|Hz]; [|apply Hm52; lia].
    rewrite Hmp, Hz, Z.pow_0_r, Z.div_1_r. apply Hinexact.
    intros ->. rewrite (Hsame Hz) in Hr. discriminate Hr. }
  assert (Hlow : m < 2 ^ 52 -> N = m * B).
  { intros Hsmall. destruct (Z.eq_dec n 0) as [Hz|Hz];
      [|specialize (Hm52 ltac:(lia)); lia].
    assert (Hl : l = loc_Exact).
    { destruct l as [|c]; [reflexivity|].
      assert (2 ^ 52 <= Zpos p) by (apply Hinexact; discriminate).
      rewrite Hmp, Hz, Z.pow_0_r, Z.div_1_r in Hsmall. lia. }
    specialize (Hexact Hl). unfold B in *. rewrite Hz, Z.pow_0_r, Z.mul_1_r in *.
    fold m in Hm1. rewrite Hm1 at 1. rewrite Hexact in Hdm. lia. }
  change (2 ^ 52) with 4503599627370496 in *.
  change (2 ^ 53) with 9007199254740992 in *.
  change (2 ^ 104) with 20282409603651670423947251286016 in *.
  fold m in Hm1. rewrite <- Hm1 in Hdm.
  assert (HmB : 0 <= m * B) by (apply Z.mul_nonneg_nonneg; lia).
  assert (Hm52B : 4503599627370496 <= m -> 4503599627370496 * B <= m * B).
  { intros H. apply Z.mul_le_mono_nonneg_r; lia. }
  assert (Hr0_up : 9007199254740992 * (r0 * B) <= 9007199254740993 * N).
  { destruct Hround as [Heq|[Heq Hr]]; rewrite Heq; fold m.
    - lia.
    - specialize (Hr1 Hr). specialize (Hm52B (Hup Hr)). lia. }
  assert (Hr0_low : 4503599627370496 * N <= 4503599627370497 * (r0 * B)).
  { assert (Hge : m * B <= r0 * B).
    { apply Z.mul_le_mono_nonneg_r; [lia|].
      destruct Hround as [Heq|[Heq _]]; rewrite Heq; fold m; lia. }
    destruct (Z_lt_le_dec m 4503599627370496) as [Hsmall|Hbig'].
    - specialize (Hlow Hsmall). lia.
    - specialize (Hm52B Hbig'). lia. }
  assert (Hr0pos : 0 < r0).
  { destruct Hround as [Heq|[Heq _]]; rewrite Heq; fold m; lia. }
  destruct r0 as [|q|q] eqn:Hq0; try lia.
  destruct (shr_fexp_exact q (e + n) ltac:(lia)) as (n2 & Hn2 & He2 & [Hm2 _] & Hbig2).
  destruct (shr_fexp prec emax (Zpos q) (e + n) loc_Exact) as [mrs2 e2] eqn:Hshr2.
  cbn [fst snd] in *. subst e2.
  assert (Hpn2 : 0 < 2 ^ n2) by (apply Z.pow_pos_nonneg; lia).
  assert (Hm2pos : 0 < shr_m mrs2).
  { rewrite Hm2. apply Z.div_str_pos. split; [lia|].
    destruct (Z.eq_dec n2 0) as [Hz|Hz]; [rewrite Hz; cbn; lia|].
    specialize (Hbig2 ltac:(lia)). rewrite Z.pow_add_r in Hbig2 by lia.
    change (2 ^ 52) with 4503599627370496 in Hbig2. lia. }
  destruct (shr_m mrs2) as [|m2|m2] eqn:Hm2'; try lia.
  pose proof (Z.div_mod (Zpos q) (2 ^ n2) ltac:(lia)) as Hdm2.
  pose proof (Z.mod_pos_bound (Zpos q) (2 ^ n2) Hpn2) as Hmod2.
  rewrite <- Hm2 in Hdm2.
  set (T := Zpos m2 * 2 ^ n2) in *.
  assert (Hq_up : T <= Zpos q) by (unfold T; lia).
  assert (Hq_low : 4503599627370496 * Zpos q <= 4503599627370497 * T).
  { destruct (Z.eq_dec n2 0) as [Hz|Hz].
    - unfold T. rewrite Hz, Z.pow_0_r in *. lia.
    - specialize (Hbig2 ltac:(lia)). rewrite Z.pow_add_r in Hbig2 by lia.
      change (2 ^ 52) with 4503599627370496 in Hbig2.
      assert (4503599627370496 * 2 ^ n2 <= T).
      { unfold T. apply Z.mul_le_mono_nonneg_r; [lia|].
        rewrite Hm2. apply Z.div_le_lower_bound; lia. }
      unfold T in *. lia. }
  assert (HTB : T * B <= Zpos q * B) by (apply Z.mul_le_mono_nonneg_r; lia).
  assert (HqB : 4503599627370496 * Zpos q * B <= 4503599627370497 * T * B)
    by (apply Z.mul_le_mono_nonneg_r; lia).
  assert (Hshape : forall k, Zpos m2 * (2 ^ n * 2 ^ n2) * k = T * (k * 2 ^ n))
    by (intros k; unfold T; ring).
  assert (Hwidth : Zpos m2 < 9007199254740992).
  { destruct (shr_fexp_width q (e + n) ltac:(lia)) as (n2' & Hn2' & He2' & Hw).
    rewrite Hshr2 in He2'. cbn [snd] in He2'.
    assert (n2' = n2) by lia. subst n2'.
    rewrite Z.pow_add_r in Hw by lia.
    change (2 ^ 53) with 9007199254740992 in Hw.
    rewrite Hm2. apply Z.div_lt_upper_bound; lia. }
  destruct (e + n + n2 <=? emax - prec) eqn:Hfin.
  - apply Z.leb_le in Hfin. unfold emax, prec in Hfin.
    split; [reflexivity|]. split; [exact Hwidth|].
    exists (n + n2). split; [lia|]. split; [lia|]. split; [lia|].
    rewrite Z.pow_add_r by lia. rewrite Hshape. fold B.
    split.
    + lia.
    + change ((4503599627370496 + 1) ^ 2)
        with (4503599627370497 * 4503599627370497).
      lia.
  - apply Z.leb_gt in Hfin. unfold emax, prec in Hfin.
    split; [reflexivity|]. intros He971.
    assert (Hpow : 2 ^ (972 - e) <= 2 ^ n * 2 ^ n2).
    { rewrite <- Z.pow_add_r by lia. apply Z.pow_le_mono_r; lia. }
    assert (Hm2big : 4503599627370496 <= Zpos m2).
    { destruct (Z.eq_dec n2 0) as [Hz|Hz].
      - assert (Hn0 : 0 < n) by lia. specialize (Hm52 Hn0).
        rewrite Hm2, Hz, Z.pow_0_r, Z.div_1_r.
        destruct Hround as [Heq|[Heq _]]; rewrite Heq; fold m; lia.
      - specialize (Hbig2 ltac:(lia)). rewrite Z.pow_add_r in Hbig2 by lia.
        change (2 ^ 52) with 4503599627370496 in Hbig2.
        rewrite Hm2. apply Z.div_le_lower_bound; lia. }
    assert (4503599627370496 * 2 ^ (972 - e) * D <= T * B).
    { unfold T, B.
      replace (Zpos m2 * 2 ^ n2 * (D * 2 ^ n))
        with (Zpos m2 * (2 ^ n * 2 ^ n2 * D)) by ring.
      assert (HX : 0 <= 2 ^ n * 2 ^ n2 * D).
      { apply Z.mul_nonneg_nonneg; [|lia]. apply Z.mul_nonneg_nonneg; lia. }
      assert (2 ^ (972 - e) * D <= 2 ^ n * 2 ^ n2 * D)
        by (apply Z.mul_le_mono_nonneg_r; lia).
      assert (4503599627370496 * (2 ^ n * 2 ^ n2 * D)
              <= Zpos m2 * (2 ^ n * 2 ^ n2 * D))
        by (apply Z.mul_le_mono_nonneg_r; lia).
      lia. }
    lia.
Qed.

Lemma scale_both (c1 c2 a b q : Z) :
  0 <= q -> c1 * a <= c2 * b -> c1 * (a * q) <= c2 * (b * q).
Proof.
  intros Hq H. rewrite !Z.mul_assoc. apply Z.mul_le_mono_nonneg_r; assumption.
Qed.

Lemma scale_cancel (a b w : Z) : 0 < w -> a * w <= b * w -> a <= b.
Proof. intros Hw H. apply Z.mul_le_mono_pos_r with (p := w); assumption. Qed.

Lemma unit_scale_pos : 0 < unit_scale.
Proof. reflexivity. Qed.

Lemma unit_scale_split (k : Z) :
  0 <= k <= 1074 -> unit_scale = 2 ^ k * 2 ^ (1074 - k).
Proof.
  intros Hk. unfold unit_scale. rewrite <- Z.pow_add_r by lia.
  f_equal. lia.
Qed.

(** [int(x)] is the integer part of [x]. *)
Lemma trunc_pos_scaled (m : positive) (e : Z) :
  -1074 <= e ->
  trunc_pos m e * unit_scale <= Zpos m * 2 ^ (e + 1074)
  /\ Zpos m * 2 ^ (e + 1074) < (trunc_pos m e + 1) * unit_scale.
Proof.
  intros He. unfold trunc_pos. destruct (0 <=? e) eqn:Hs.
  - apply Z.leb_le in Hs. rewrite Z.pow_add_r by lia. fold unit_scale.
    pose proof unit_scale_pos. nia.
  - apply Z.leb_gt in Hs.
    rewrite (unit_scale_split (- e)) by lia.
    replace (e + 1074) with (1074 - - e) by lia.
    assert (Hk : 0 < 2 ^ (- e)) by (apply Z.pow_pos_nonneg; lia).
    assert (Hr : 0 < 2 ^ (1074 - - e)) by (apply Z.pow_pos_nonneg; lia).
    pose proof (Z.div_mod (Zpos m) (2 ^ (- e)) ltac:(lia)) as Hdm.
    pose proof (Z.mod_pos_bound (Zpos m) (2 ^ (- e)) Hk) as Hmod.
    set (t := Zpos m / 2 ^ (- e)) in *. set (K := 2 ^ (- e)) in *.
    set (R := 2 ^ (1074 - - e)) in *.
    assert (K * t * R <= Zpos m * R) by (apply Z.mul_le_mono_nonneg_r; lia).
    assert (Zpos m * R < (K * t + K) * R) by (apply Z.mul_lt_mono_pos_r; lia).
    split; lia.
Qed.

(** [2 ^ 1024], in units, split at an exponent. *)
Lemma overflow_split (e : Z) :
  -1074 <= e <= 972 ->
  2 ^ 1024 * unit_scale = 2 ^ 52 * (2 ^ (972 - e) * 2 ^ (e + 1074)).
Proof.
  intros He. rewrite <- Z.pow_add_r by lia.
  replace (972 - e + (e + 1074)) with 2046 by lia. reflexivity.
Qed.

(** The magnitude of a double with a mantissa of at most 53 bits and an
    exponent of at most 971 is below [2 ^ 1024]. *)
Lemma scaled_below_overflow (s : bool) (m : positive) (e : Z) :
  Zpos m < 2 ^ 53 -> -1074 <= e <= 971 ->
  scaled (S754_finite s m e) < 2 ^ 1024 * unit_scale.
Proof.
  intros Hm He. cbn [scaled].
  assert (Hp : 2 ^ (e + 1074) <= 2 ^ 2045) by (apply Z.pow_le_mono_r; lia).
  assert (Hp0 : 0 < 2 ^ (e + 1074)) by (apply Z.pow_pos_nonneg; lia).
  replace (2 ^ 1024 * unit_scale) with (2 ^ 53 * 2 ^ 2045)
    by (unfold unit_scale; rewrite <- !Z.pow_add_r by lia; reflexivity).
  assert (Zpos m * 2 ^ (e + 1074) < 2 ^ 53 * 2 ^ (e + 1074))
    by (apply Z.mul_lt_mono_pos_r; lia).
  assert (2 ^ 53 * 2 ^ (e + 1074) <= 2 ^ 53 * 2 ^ 2045)
    by (apply Z.mul_le_mono_nonneg_l; lia).
  lia.
Qed.

(** A product, rounded once: within the rounding error of the exact
    product when it is finite, and infinite only if the exact product
    reaches [2 ^ 1024] up to that error. *)
Lemma fmul_scaled (sx sy : bool) (mx my : positive) (ex ey : Z) :
  -1074 <= ex -> -1074 <= ey -> -1074 <= ex + ey ->
  let x := S754_finite sx mx ex in
  let y := S754_finite sy my ey in
  match fmul x y with
  | S754_finite s' m' e' =>
      s' = xorb sx sy /\ Zpos m' < 2 ^ 53 /\ ex + ey <= e' <= 971 /\
      2 ^ 53 * (scaled (fmul x y) * unit_scale)
        <= (2 ^ 53 + 1) * (scaled x * scaled y) /\
      2 ^ 104 * (scaled x * scaled y)
        <= (2 ^ 52 + 1) ^ 2 * (scaled (fmul x y) * unit_scale)
  | S754_infinity s' =>
      s' = xorb sx sy /\
      (ex + ey <= 971 ->
       2 ^ 53 * (2 ^ 1024 * unit_scale * unit_scale)
         <= (2 ^ 53 + 1) * (scaled x * scaled y))
  | _ => False
  end.
Proof.
  intros Hx Hy Hxy. cbv zeta. unfold fmul. cbn [SFmul].
  pose proof (binary_round_aux_bounds (xorb sx sy) (mx * my) (ex + ey)
                loc_Exact (Zpos (mx * my)) 1 Hxy ltac:(lia) ltac:(lia)
                (Z.div_1_r _) ltac:(discriminate)
                ltac:(intros _; apply Z.mod_1_r)
                ltac:(intros H; now elim H)) as Hb.
  set (P := 2 ^ (ex + ey + 1074)).
  assert (HP : 0 < P) by (apply Z.pow_pos_nonneg; lia).
  assert (Hxy' : Zpos mx * 2 ^ (ex + 1074) * (Zpos my * 2 ^ (ey + 1074))
                 = Zpos (mx * my) * (P * unit_scale)).
  { unfold P, unit_scale. rewrite Pos2Z.inj_mul.
    replace (2 ^ (ex + ey + 1074) * 2 ^ 1074)
      with (2 ^ (ex + 1074) * 2 ^ (ey + 1074))
      by (rewrite <- !Z.pow_add_r by lia; f_equal; lia).
    ring. }
  pose proof unit_scale_pos as HW.
  assert (HPW : 0 <= P * unit_scale)
    by (apply Z.mul_nonneg_nonneg; lia).
  destruct (binary_round_aux prec emax (xorb sx sy) (Zpos (mx * my))
              (ex + ey) loc_Exact) as [|s'| |s' m' e'];
    try contradiction.
  - destruct Hb as [Hs Hover]. split; [exact Hs|]. intros Hfit.
    specialize (Hover Hfit). cbn [scaled]. rewrite Hxy'.
    replace (2 ^ 1024 * unit_scale * unit_scale)
      with (2 ^ 52 * 2 ^ (972 - (ex + ey)) * 1 * (P * unit_scale)).
    + apply scale_both; assumption.
    + rewrite (overflow_split (ex + ey)) by lia. fold P. ring.
  - destruct Hb as (Hs & Hw & d & Hd & He & Hfin & Hup & Hlow).
    split; [exact Hs|]. split; [exact Hw|]. split; [lia|].
    cbn [scaled]. subst e'.
    assert (Hres : Zpos m' * 2 ^ (ex + ey + d + 1074) * unit_scale
                   = Zpos m' * 2 ^ d * 1 * (P * unit_scale)).
    { unfold P. replace (ex + ey + d + 1074) with (d + (ex + ey + 1074)) by lia.
      rewrite Z.pow_add_r by lia. ring. }
    rewrite Hres, Hxy'.
    split; apply scale_both; assumption.
Qed.

(** An integer, rounded once: [float(p)]. *)
Lemma binary_round_scaled (s : bool) (p : positive) :
  match binary_round prec emax s p 0 with
  | S754_finite s' m' e' =>
      s' = s /\ Zpos m' < 2 ^ 53 /\ -52 <= e' <= 971 /\
      2 ^ 53 * scaled (binary_round prec emax s p 0)
        <= (2 ^ 53 + 1) * (Zpos p * unit_scale) /\
      2 ^ 104 * (Zpos p * unit_scale)
        <= (2 ^ 52 + 1) ^ 2 * scaled (binary_round prec emax s p 0)
  | S754_infinity s' =>
      s' = s /\
      2 ^ 53 * (2 ^ 1024 * unit_scale) <= (2 ^ 53 + 1) * (Zpos p * unit_scale)
  | _ => False
  end.
Proof.
  unfold binary_round.
  pose proof (shl_align_spec p 0 (fexp prec emax (Zpos (digits2_pos p) + 0))) as Hal.
  destruct (shl_align p 0 _) as [mz ez]. destruct Hal as [Hez Hmz].
  assert (Hrange : -52 <= ez <= 0).
  { unfold fexp, SpecFloat.emin, prec, emax in Hez.
    pose proof (Pos2Z.is_pos (digits2_pos p)). lia. }
  pose proof (binary_round_aux_bounds s mz ez loc_Exact (Zpos mz) 1
                ltac:(lia) ltac:(lia) ltac:(lia)
                (Z.div_1_r _) ltac:(discriminate)
                ltac:(intros _; apply Z.mod_1_r)
                ltac:(intros H; now elim H)) as Hb.
  set (P := 2 ^ (ez + 1074)).
  assert (HP : 0 < P) by (apply Z.pow_pos_nonneg; lia).
  assert (Hp : Zpos p * unit_scale = Zpos mz * P).
  { rewrite Hmz. unfold P, unit_scale.
    rewrite <- Z.mul_assoc, <- Z.pow_add_r by lia. do 2 f_equal. lia. }
  destruct (binary_round_aux prec emax s (Zpos mz) ez loc_Exact)
    as [|s'| |s' m' e']; try contradiction.
  - destruct Hb as [Hs Hover]. split; [exact Hs|].
    specialize (Hover ltac:(lia)). rewrite Hp.
    replace (2 ^ 1024 * unit_scale) with (2 ^ 52 * 2 ^ (972 - ez) * 1 * P).
    + apply scale_both; [lia|assumption].
    + rewrite (overflow_split ez) by lia. fold P. ring.
  - destruct Hb as (Hs & Hw & d & Hd & He & Hfin & Hup & Hlow).
    split; [exact Hs|]. split; [exact Hw|]. split; [lia|].
    cbn [scaled]. subst e'.
    assert (Hres : Zpos m' * 2 ^ (ez + d + 1074) = Zpos m' * 2 ^ d * 1 * P).
    { unfold P. replace (ez + d + 1074) with (d + (ez + 1074)) by lia.
      rewrite Z.pow_add_r by lia. ring. }
    rewrite Hres, Hp. split; apply scale_both; lia.
Qed.

(** The scale splits at the exponent of a constant. *)
Lemma scaled_constant (sg : bool) (m : positive) (e : Z) :
  -1074 <= e ->
  scaled (S754_finite sg m e) = Zpos m * 2 ^ (e + 1074).
Proof. reflexivity. Qed.

(** What [float(q)] is when it does not overflow. *)
Lemma float_of_int_scaled (q : Z) (F : float) :
  float_of_int q = inr F ->
  match F with
  | S754_zero _ => q = 0
  | S754_finite s m e =>
      s = (q <? 0) /\ Zpos m < 2 ^ 53 /\ -52 <= e <= 971 /\
      2 ^ 53 * scaled F <= (2 ^ 53 + 1) * (Z.abs q * unit_scale) /\
      2 ^ 104 * (Z.abs q * unit_scale) <= (2 ^ 52 + 1) ^ 2 * scaled F
  | _ => False
  end.
Proof.
  unfold float_of_int, binary_normalize.
  destruct q as [|p|p].
  - intros [= <-]. reflexivity.
  - pose proof (binary_round_scaled false p) as Hb.
    destruct (binary_round prec emax false p 0) as [|s'| |s' m' e'];
      try contradiction; try discriminate.
    intros [= <-]. destruct Hb as (-> & Hw & He & Hup & Hlow).
    cbn [Z.abs]. repeat split; try assumption; lia.
  - pose proof (binary_round_scaled true p) as Hb.
    destruct (binary_round prec emax true p 0) as [|s'| |s' m' e'];
      try contradiction; try discriminate.
    intros [= <-]. destruct Hb as (-> & Hw & He & Hup & Hlow).
    cbn [Z.abs]. repeat split; try assumption; lia.
Qed.

(** [float(q)] overflows only from [2 ^ 1023] on. *)
Lemma float_of_int_total (q : Z) :
  Z.abs q < 2 ^ 1023 -> exists F, float_of_int q = inr F.
Proof.
  assert (Hpos : forall sg p, Zpos p < 2 ^ 1023 ->
            exists F, match binary_round prec emax sg p 0 with
                      | S754_infinity _ =>
                          raise "OverflowError" "int too large to convert to float"
                      | f => ok f
                      end = inr F).
  { intros sg p Hp. pose proof (binary_round_scaled sg p) as Hb.
    destruct (binary_round prec emax sg p 0) as [|s'| |s' m' e'];
      try contradiction; try (eexists; reflexivity).
    destruct Hb as [_ Hover]. exfalso.
    pose proof unit_scale_pos as HW.
    assert (HX : Zpos p * unit_scale < 2 ^ 1023 * unit_scale)
      by (apply Z.mul_lt_mono_pos_r; lia).
    replace (2 ^ 1024 * unit_scale) with (2 * (2 ^ 1023 * unit_scale)) in Hover
      by (change (2 ^ 1024) with (2 * 2 ^ 1023); ring).
    set (X := Zpos p * unit_scale) in *. set (Y := 2 ^ 1023 * unit_scale) in *.
    change (2 ^ 53) with 9007199254740992 in Hover. lia. }
  unfold float_of_int, binary_normalize. intros Hq.
  destruct q as [|p|p]; [eexists; reflexivity| |]; apply Hpos; exact Hq.
Qed.

(** A double that [float(q)] returned is below [2 ^ 1024] in magnitude. *)
Lemma float_of_int_below_overflow (q : Z) s m e :
  float_of_int q = inr (S754_finite s m e) ->
  scaled (S754_finite s m e) < 2 ^ 1024 * unit_scale.
Proof.
  intros HF. pose proof (float_of_int_scaled q _ HF) as Hb. cbv beta iota in Hb.
  destruct Hb as (_ & Hw & He & _). apply scaled_below_overflow; lia.
Qed.

(** [float(q) * 0.99] never overflows, so the slippage arithmetic on a
    quote that [float] took cannot raise. *)
Lemma min_order_total (q : Z) (F : float) :
  float_of_int q = inr F ->
  exists mo, int_of_float (fmul F f_0_99) = inr mo.
Proof.
  intros HF. pose proof (float_of_int_scaled q F HF) as HbF.
  destruct F as [sF|sF| |sF mF eF]; try contradiction.
  - eexists. reflexivity.
  - pose proof (float_of_int_below_overflow q _ _ _ HF) as Hbelow.
    destruct HbF as (_ & HwF & HeF & _).
    pose proof (fmul_scaled sF false mF 8917127262193582 eF (-53)
                  ltac:(lia) ltac:(lia) ltac:(lia)) as HbR.
    cbv zeta in HbR. fold f_0_99 in HbR.
    destruct (fmul (S754_finite sF mF eF) f_0_99) as [|sR| |sR mR eR];
      try contradiction; try (eexists; reflexivity).
    exfalso. destruct HbR as [_ Hover]. specialize (Hover ltac:(lia)).
    unfold f_0_99 in Hover.
    rewrite (scaled_constant false 8917127262193582 (-53)) in Hover by lia.
    change (-53 + 1074) with 1021 in Hover.
    set (vF := scaled (S754_finite sF mF eF)) in *.
    set (K := 2 ^ 1024 * unit_scale) in *.
    rewrite (unit_scale_split 53) in Hover by lia.
    change (1074 - 53) with 1021 in Hover.
    set (E := 2 ^ 1021) in *. assert (HE : 0 < E) by reflexivity.
    assert (HX : vF * E < K * E) by (apply Z.mul_lt_mono_pos_r; lia).
    assert (HK : 0 < K * E) by (unfold K, E; reflexivity).
    replace (K * (2 ^ 53 * E)) with (2 ^ 53 * (K * E)) in Hover by ring.
    replace (vF * (8917127262193582 * E))
      with (8917127262193582 * (vF * E)) in Hover by ring.
    change (2 ^ 53) with 9007199254740992 in Hover.
    set (X := vF * E) in *. set (Y := K * E) in *. lia.
Qed.

(** [int(float(q) * 0.99)] is 99% of a non-negative [q] up to a relative
    [2^-52] above and [2^-49] below, truncated. *)
Lemma min_order_bounds (q mo : Z) (F : float) :
  0 <= q ->
  float_of_int q = inr F ->
  int_of_float (fmul F f_0_99) = inr mo ->
  100 * 2 ^ 52 * mo <= 99 * (2 ^ 52 + 1) * q /\
  99 * (2 ^ 49 - 1) * q <= 100 * 2 ^ 49 * (mo + 1).
Proof.
  intros Hq HF Hmo. pose proof (float_of_int_scaled q F HF) as HbF.
  destruct F as [sF|sF| |sF mF eF]; try contradiction.
  { subst q. cbn in Hmo. injection Hmo as <-. lia. }
  destruct HbF as (HsF & HwF & HeF & HupF & HlowF).
  rewrite (Z.abs_eq q Hq) in *.
  assert (Hsign : sF = false) by (rewrite HsF; apply Z.ltb_ge; exact Hq).
  clear HsF. subst sF.
  pose proof (fmul_scaled false false mF 8917127262193582 eF (-53)
                ltac:(lia) ltac:(lia) ltac:(lia)) as HbR.
  cbv zeta in HbR. fold f_0_99 in HbR.
  destruct (fmul (S754_finite false mF eF) f_0_99) as [|sR| |sR mR eR];
    try contradiction; try (cbn in Hmo; discriminate Hmo).
  destruct HbR as (-> & _ & HeR & HupR & HlowR).
  cbn [xorb] in *. cbn [int_of_float] in Hmo. injection Hmo as <-.
  destruct (trunc_pos_scaled mR eR ltac:(lia)) as [Hint1 Hint2].
  pose proof (trunc_pos_nonneg mR eR) as Hnn.
  unfold f_0_99 in HupR, HlowR.
  rewrite (scaled_constant false 8917127262193582 (-53)) in HupR, HlowR by lia.
  change (-53 + 1074) with 1021 in *.
  rewrite (unit_scale_split 53) in * by lia. change (1074 - 53) with 1021 in *.
  fold (scaled (S754_finite false mR eR)) in Hint1, Hint2.
  set (E := 2 ^ 1021) in *. assert (HE : 0 < E) by reflexivity.
  set (vF := scaled (S754_finite false mF eF)) in *.
  set (vR := scaled (S754_finite false mR eR)) in *.
  set (t := trunc_pos mR eR) in *.
  change (2 ^ 53) with 9007199254740992 in *.
  change (2 ^ 104) with 20282409603651670423947251286016 in *.
  change ((2 ^ 52 + 1) ^ 2) with 20282409603651679431146506027009 in *.
  change (2 ^ 52) with 4503599627370496.
  change (2 ^ 49) with 562949953421312.
  assert (HU : 9007199254740992 * 9007199254740992 * vR
               <= 9007199254740993 * 8917127262193582 * vF).
  { apply scale_cancel with (w := E); [exact HE|]. lia. }
  assert (HL : 20282409603651670423947251286016 * 8917127262193582 * vF
               <= 20282409603651679431146506027009 * 9007199254740992 * vR).
  { apply scale_cancel with (w := E); [exact HE|]. lia. }
  split; (apply scale_cancel with (w := E); [exact HE|]); lia.
Qed.

(** The double nearest to an integer. *)
Lemma float_of_decimal_scaled (neg : bool) (a : Z) :
  0 <= a ->
  match float_of_decimal neg a 0 with
  | S754_zero _ => a = 0
  | S754_finite s m e =>
      s = neg /\ Zpos m < 2 ^ 53 /\ -52 <= e <= 971 /\
      2 ^ 53 * scaled (float_of_decimal neg a 0)
        <= (2 ^ 53 + 1) * (a * unit_scale) /\
      2 ^ 104 * (a * unit_scale)
        <= (2 ^ 52 + 1) ^ 2 * scaled (float_of_decimal neg a 0)
  | S754_infinity s => s = neg /\ 2 ^ 1023 <= a
  | S754_nan => False
  end.
Proof.
  intros Ha. unfold float_of_decimal.
  destruct a as [|p|p]; try lia.
  cbn [Z.leb Z.compare]. change (10 ^ 0) with 1. rewrite Z.mul_1_r.
  cbn [Z.to_pos].
  pose proof (binary_round_scaled neg p) as Hb.
  destruct (binary_round prec emax neg p 0) as [|s'| |s' m' e'];
    try contradiction.
  - destruct Hb as [Hs Hover]. split; [exact Hs|].
    pose proof unit_scale_pos as HW.
    destruct (Z_lt_le_dec (Zpos p) (2 ^ 1023)) as [Hlt|Hge]; [|exact Hge].
    exfalso.
    assert (HX : Zpos p * unit_scale < 2 ^ 1023 * unit_scale)
      by (apply Z.mul_lt_mono_pos_r; lia).
    replace (2 ^ 1024 * unit_scale) with (2 * (2 ^ 1023 * unit_scale)) in Hover
      by (change (2 ^ 1024) with (2 * 2 ^ 1023); ring).
    set (X := Zpos p * unit_scale) in *. set (Y := 2 ^ 1023 * unit_scale) in *.
    change (2 ^ 53) with 9007199254740992 in Hover. lia.
  - destruct Hb as (Hs & Hw & He & Hup & Hlow).
    repeat split; try assumption; lia.
Qed.

(** The fee on the double nearest to a non-negative amount is 3% of the
    amount up to a relative [2^-52] above and [2^-49] below, truncated. *)
Lemma fee_of_decimal_bounds (a fee : Z) :
  0 <= a ->
  int_of_float (fmul (float_of_decimal false a 0) f_0_03) = inr fee ->
  100 * 2 ^ 52 * fee <= 3 * (2 ^ 52 + 1) * a /\
  3 * (2 ^ 49 - 1) * a <= 100 * 2 ^ 49 * (fee + 1).
Proof.
  intros Ha. pose proof (float_of_decimal_scaled false a Ha) as HbF.
  destruct (float_of_decimal false a 0) as [sF|sF| |sF mF eF];
    try contradiction; try (cbn; discriminate).
  { subst a. intros H. vm_compute in H. injection H as <-. lia. }
  destruct HbF as (-> & HwF & HeF & HupF & HlowF).
  pose proof (fmul_scaled false false mF 8646911284551352 eF (-58)
                ltac:(lia) ltac:(lia) ltac:(lia)) as HbR.
  cbv zeta in HbR. fold f_0_03 in HbR.
  destruct (fmul (S754_finite false mF eF) f_0_03) as [|sR| |sR mR eR];
    try contradiction; try (cbn; discriminate).
  destruct HbR as (-> & _ & HeR & HupR & HlowR).
  cbn [xorb] in *. cbn [int_of_float]. intros [= <-].
  destruct (trunc_pos_scaled mR eR ltac:(lia)) as [Hint1 Hint2].
  pose proof (trunc_pos_nonneg mR eR) as Hnn.
  unfold f_0_03 in HupR, HlowR.
  rewrite (scaled_constant false 8646911284551352 (-58)) in HupR, HlowR by lia.
  change (-58 + 1074) with 1016 in *.
  rewrite (unit_scale_split 58) in * by lia. change (1074 - 58) with 1016 in *.
  fold (scaled (S754_finite false mR eR)) in Hint1, Hint2.
  set (E := 2 ^ 1016) in *. assert (HE : 0 < E) by reflexivity.
  set (vF := scaled (S754_finite false mF eF)) in *.
  set (vR := scaled (S754_finite false mR eR)) in *.
  set (t := trunc_pos mR eR) in *.
  change (2 ^ 58) with 288230376151711744 in *.
  change (2 ^ 53) with 9007199254740992 in *.
  change (2 ^ 104) with 20282409603651670423947251286016 in *.
  change ((2 ^ 52 + 1) ^ 2) with 20282409603651679431146506027009 in *.
  change (2 ^ 52) with 4503599627370496.
  change (2 ^ 49) with 562949953421312.
  assert (HU : 9007199254740992 * 288230376151711744 * vR
               <= 9007199254740993 * 8646911284551352 * vF).
  { apply scale_cancel with (w := E); [exact HE|]. lia. }
  assert (HL : 20282409603651670423947251286016 * 8646911284551352 * vF
               <= 20282409603651679431146506027009 * 288230376151711744 * vR).
  { apply scale_cancel with (w := E); [exact HE|]. lia. }
  split; (apply scale_cancel with (w := E); [exact HE|]); lia.
Qed.

(** The fee arithmetic raises only on an amount that [float] reads as
    infinite, that is from [2 ^ 1023] on in magnitude. *)
Lemma fee_of_decimal_total (neg : bool) (a : Z) :
  0 <= a < 2 ^ 1023 ->
  exists fee, int_of_float (fmul (float_of_decimal neg a 0) f_0_03) = inr fee.
Proof.
  intros Ha. pose proof (float_of_decimal_scaled neg a ltac:(lia)) as HbF.
  destruct (float_of_decimal neg a 0) as [sF|sF| |sF mF eF];
    try contradiction.
  - eexists. reflexivity.
  - destruct HbF as [_ Hbig]. lia.
  - destruct HbF as (_ & HwF & HeF & _).
    pose proof (scaled_below_overflow sF mF eF HwF ltac:(lia)) as Hbelow.
    pose proof (fmul_scaled sF false mF 8646911284551352 eF (-58)
                  ltac:(lia) ltac:(lia) ltac:(lia)) as HbR.
    cbv zeta in HbR. fold f_0_03 in HbR.
    destruct (fmul (S754_finite sF mF eF) f_0_03) as [|sR| |sR mR eR];
      try contradiction; try (eexists; reflexivity).
    exfalso. destruct HbR as [_ Hover]. specialize (Hover ltac:(lia)).
    unfold f_0_03 in Hover.
    rewrite (scaled_constant false 8646911284551352 (-58)) in Hover by lia.
    change (-58 + 1074) with 1016 in Hover.
    set (vF := scaled (S754_finite sF mF eF)) in *.
    set (K := 2 ^ 1024 * unit_scale) in *.
    rewrite (unit_scale_split 58) in Hover by lia.
    change (1074 - 58) with 1016 in Hover.
    set (E := 2 ^ 1016) in *. assert (HE : 0 < E) by reflexivity.
    assert (HX : vF * E < K * E) by (apply Z.mul_lt_mono_pos_r; lia).
    assert (HK : 0 < K * E) by (unfold K, E; reflexivity).
    replace (K * (2 ^ 58 * E)) with (2 ^ 58 * (K * E)) in Hover by ring.
    replace (vF * (8646911284551352 * E))
      with (8646911284551352 * (vF * E)) in Hover by ring.
    change (2 ^ 53) with 9007199254740992 in Hover.
    change (2 ^ 58) with 288230376151711744 in Hover.
    set (X := vF * E) in *. set (Y := K * E) in *. lia.
Qed.

(** The fee on a non-negative amount is 3% of it up to a relative [2^-52]
    above and [2^-49] below, truncated, when [float] reads the number that
    [int] reads. *)
Lemma platform_fee_bounds
    (int_of_str : string -> result Z) (float_of_str : string -> result float)
    (s : string) (a fee : Z) (F : float) :
  literal_agreement int_of_str float_of_str ->
  int_of_str s = inr a -> 0 <= a ->
  float_of_str s = inr F ->
  int_of_float (fmul F f_0_03) = inr fee ->
  100 * 2 ^ 52 * fee <= 3 * (2 ^ 52 + 1) * a /\
  3 * (2 ^ 49 - 1) * a <= 100 * 2 ^ 49 * (fee + 1).
Proof.
  intros Hagree Hint Ha Hfloat.
  destruct (Hagree s a F Hint Hfloat) as (neg & -> & Hpos & _).
  rewrite (Z.abs_eq a Ha).
  destruct (Z.eq_dec a 0) as [->|Hne].
  - intros H. vm_compute in H. injection H as <-. lia.
  - rewrite (Hpos ltac:(lia)). now apply fee_of_decimal_bounds.
Qed.

(** Under the same agreement the fee arithmetic raises only on an amount
    of magnitude [2 ^ 1023] or more. *)
Lemma platform_fee_total
    (int_of_str : string -> result Z) (float_of_str : string -> result float)
    (s : string) (a : Z) (F : float) :
  literal_agreement int_of_str float_of_str ->
  int_of_str s = inr a -> Z.abs a < 2 ^ 1023 ->
  float_of_str s = inr F ->
  exists fee, int_of_float (fmul F f_0_03) = inr fee.
Proof.
  intros Hagree Hint Ha Hfloat.
  destruct (Hagree s a F Hint Hfloat) as (neg & -> & _).
  apply fee_of_decimal_total. lia.
Qed.

(** What the location of a remainder says. *)
Lemma new_location_spec (D r : Z) :
  0 < D -> 0 <= r < D ->
  (round_bit (new_location D r) = true -> D <= 2 * r) /\
  (new_location D r = loc_Exact -> r = 0).
Proof.
  intros HD Hr. unfold new_location, new_location_even, new_location_odd.
  destruct (Z.even D); destruct (Z.eqb_spec r 0) as [Hz|Hz];
    cbn [round_bit]; try (split; [discriminate|auto]).
  - destruct (2 * r ?= D) eqn:Hc; cbn [round_bit];
      (split; [|discriminate]); try discriminate; intros _.
    + apply Z.compare_eq in Hc. lia.
    + apply Z.compare_gt_iff in Hc. lia.
  - destruct (2 * r + 1 ?= D) eqn:Hc; cbn [round_bit];
      (split; [|discriminate]); try discriminate; intros _.
    apply Z.compare_gt_iff in Hc. lia.
Qed.

Lemma shifted_mantissa (m : positive) (k : Z) :
  0 <= k ->
  match k with
  | 0 => Zpos m
  | Zpos _ => Z.shiftl (Zpos m) k
  | Zneg _ => 0
  end = Zpos m * 2 ^ k.
Proof.
  intros Hk. destruct k as [|k|k]; try lia.
  rewrite Z.shiftl_mul_pow2 by lia. reflexivity.
Qed.

(** A quotient, rounded once, when it lies above the subnormal range. *)
Lemma fdiv_scaled (sx sy : bool) (mx my : positive) (ex ey : Z) :
  -1074 <= ex -> -1074 <= ey -> -1074 <= ex - ey ->
  -1021 <= Zpos (digits2_pos mx) + ex - (Zpos (digits2_pos my) + ey) ->
  let x := S754_finite sx mx ex in
  let y := S754_finite sy my ey in
  match fdiv x y with
  | S754_finite s' m' e' =>
      s' = xorb sx sy /\ Zpos m' < 2 ^ 53 /\
      Z.min (Zpos (digits2_pos mx) + ex - (Zpos (digits2_pos my) + ey) - 53)
            (ex - ey) <= e' <= 971 /\
      2 ^ 53 * (scaled (fdiv x y) * scaled y)
        <= (2 ^ 53 + 1) * (scaled x * unit_scale) /\
      2 ^ 104 * (scaled x * unit_scale)
        <= (2 ^ 52 + 1) ^ 2 * (scaled (fdiv x y) * scaled y)
  | S754_infinity s' =>
      s' = xorb sx sy /\
      (ex - ey <= 971 ->
       2 ^ 53 * (2 ^ 1024 * unit_scale * scaled y)
         <= (2 ^ 53 + 1) * (scaled x * unit_scale))
  | _ => False
  end.
Proof.
  intros Hx Hy Hxy Hnormal. cbv zeta. unfold fdiv. cbn [SFdiv].
  unfold SFdiv_core_binary. cbn [Zdigits2].
  pose proof (digits2_pos_lower mx) as Hd1.
  pose proof (digits2_pos_upper my) as Hd2.
  set (d1 := Zpos (digits2_pos mx)) in *.
  set (d2 := Zpos (digits2_pos my)) in *.
  assert (Hd1pos : 0 < d1) by (unfold d1; lia).
  assert (Hd2pos : 0 < d2) by (unfold d2; lia).
  assert (Hfexp : fexp prec emax (d1 + ex - (d2 + ey)) = d1 + ex - (d2 + ey) - 53).
  { unfold fexp, SpecFloat.emin, prec, emax. lia. }
  rewrite Hfexp.
  set (ec := Z.min (d1 + ex - (d2 + ey) - 53) (ex - ey)).
  set (sh := ex - ey - ec).
  assert (Hsh : 53 - d1 + d2 <= sh) by (unfold sh, ec; lia).
  assert (Hsh0 : 0 <= sh) by (unfold sh, ec; lia).
  set (N := match sh with
            | 0 => Zpos mx
            | Zpos _ => Z.shiftl (Zpos mx) sh
            | Zneg _ => 0
            end).
  assert (HN : N = Zpos mx * 2 ^ sh).
  { unfold N. apply shifted_mantissa. exact Hsh0. }
  assert (Hbig : Zpos my * 2 ^ 52 <= N).
  { rewrite HN.
    assert (2 ^ (52 + d2) <= 2 ^ (d1 - 1) * 2 ^ sh).
    { rewrite <- Z.pow_add_r by lia. apply Z.pow_le_mono_r; lia. }
    rewrite Z.pow_add_r in H by lia.
    assert (2 ^ (d1 - 1) * 2 ^ sh <= Zpos mx * 2 ^ sh).
    { apply Z.mul_le_mono_nonneg_r; [apply Z.pow_nonneg; lia|exact Hd1]. }
    assert (Zpos my * 2 ^ 52 <= 2 ^ d2 * 2 ^ 52)
      by (apply Z.mul_le_mono_nonneg_r; lia).
    lia. }
  destruct (Z.div_eucl N (Zpos my)) as [q r] eqn:Hde.
  assert (Hq : q = N / Zpos my) by (unfold Z.div; now rewrite Hde).
  assert (Hr : r = N mod Zpos my) by (unfold Z.modulo; now rewrite Hde).
  assert (Hq52 : 2 ^ 52 <= q).
  { rewrite Hq. apply Z.div_le_lower_bound; lia. }
  destruct q as [|qp|qp]; try (change (2 ^ 52) with 4503599627370496 in Hq52; lia).
  pose proof (Z.mod_pos_bound N (Zpos my) ltac:(lia)) as Hmod.
  destruct (new_location_spec (Zpos my) r ltac:(lia) ltac:(lia)) as [Hbit Hexact].
  pose proof (binary_round_aux_bounds (xorb sx sy) qp ec
                (new_location (Zpos my) r) N (Zpos my)
                ltac:(unfold ec; lia) ltac:(lia) ltac:(lia) (eq_sym Hq)
                ltac:(rewrite <- Hr; exact Hbit)
                ltac:(rewrite <- Hr; exact Hexact)
                ltac:(intros _; exact Hq52)) as Hb.
  set (P := 2 ^ (ec + 1074) * 2 ^ (ey + 1074)).
  assert (HP : 0 <= P).
  { unfold P. apply Z.mul_nonneg_nonneg; apply Z.pow_nonneg; lia. }
  assert (Hec : -1074 <= ec) by (unfold ec; lia).
  assert (Hnum : Zpos mx * 2 ^ (ex + 1074) * unit_scale = N * P).
  { rewrite HN. unfold P, unit_scale.
    rewrite <- !Z.mul_assoc. f_equal.
    rewrite <- !Z.pow_add_r by lia. f_equal. unfold sh. lia. }
  destruct (binary_round_aux prec emax (xorb sx sy) (Zpos qp) ec
              (new_location (Zpos my) r)) as [|s'| |s' m' e'];
    try contradiction.
  - destruct Hb as [Hs Hover]. split; [exact Hs|]. intros Hfit.
    specialize (Hover ltac:(unfold ec; lia)).
    cbn [scaled]. rewrite Hnum.
    replace (2 ^ 1024 * unit_scale * (Zpos my * 2 ^ (ey + 1074)))
      with (2 ^ 52 * 2 ^ (972 - ec) * Zpos my * P).
    + apply scale_both; assumption.
    + rewrite (overflow_split ec) by (unfold ec; lia). unfold P. ring.
  - destruct Hb as (Hs & Hw & d & Hd & He & Hfin & Hup & Hlow).
    split; [exact Hs|]. split; [exact Hw|]. split; [lia|].
    cbn [scaled]. subst e'.
    assert (Hres : Zpos m' * 2 ^ (ec + d + 1074) * (Zpos my * 2 ^ (ey + 1074))
                   = Zpos m' * 2 ^ d * Zpos my * P).
    { unfold P. replace (ec + d + 1074) with (d + (ec + 1074)) by lia.
      rewrite Z.pow_add_r by lia. ring. }
    rewrite Hres, Hnum. split; apply scale_both; assumption.
Qed.

Lemma scaled_1e18 : scaled f_1e18 = 10 ^ 18 * unit_scale.
Proof. vm_compute. reflexivity. Qed.

Lemma scaled_2000 : scaled f_2000 = 2000 * unit_scale.
Proof. vm_compute. reflexivity. Qed.

Lemma scaled_1e6 : scaled f_1e6 = 10 ^ 6 * unit_scale.
Proof. vm_compute. reflexivity. Qed.

(** The pricing arithmetic on a sell quote that [float] took: it does not
    raise, its result has the sign of the quote, and in magnitude it is
    2000 USDC per ETH, in millionths of a USDC per wei of quote, that is
    [2 * sell_quote / 10^9] up to a relative [2^-50] above and [2^-48]
    below, truncated. *)
Lemma usdc_value_scaled (sell_quote : Z) (F : float) :
  float_of_int sell_quote = inr F ->
  exists usdc,
    usdc_value sell_quote = inr usdc /\
    (0 <= sell_quote -> 0 <= usdc) /\
    (sell_quote <= 0 -> usdc <= 0) /\
    10 ^ 9 * 2 ^ 50 * Z.abs usdc <= 2 * (2 ^ 50 + 1) * Z.abs sell_quote /\
    2 * (2 ^ 48 - 1) * Z.abs sell_quote <= 10 ^ 9 * 2 ^ 48 * (Z.abs usdc + 1).
Proof.
  intros HF. pose proof (float_of_int_scaled sell_quote F HF) as HbF.
  unfold usdc_value. rewrite HF.
  change (float_of_int eth_price_in_usdc) with (@inr exn float f_2000).
  cbv beta iota.
  destruct F as [sF|sF| |sF mF eF]; try contradiction.
  { subst sell_quote. exists 0. split; [vm_compute; reflexivity|].
    cbn [Z.abs]. lia. }
  pose proof (float_of_int_below_overflow sell_quote _ _ _ HF) as Hbelow.
  destruct HbF as (HsF & HwF & HeF & HupF & HlowF).
  pose proof unit_scale_pos as HW.
  set (K := 2 ^ 1024 * unit_scale) in *.
  assert (HK : 0 < K) by reflexivity.
  set (vF := scaled (S754_finite sF mF eF)) in *.
  pose proof (Pos2Z.is_pos (digits2_pos mF)) as HdF.
  (* the quotient by 1e18 *)
  pose proof (fdiv_scaled sF false mF 7812500000000000 eF 7
                ltac:(lia) ltac:(lia) ltac:(lia)
                ltac:(change (Zpos (digits2_pos 7812500000000000)) with 53; lia))
    as HbQ.
  cbv zeta in HbQ. fold f_1e18 in HbQ. fold vF in HbQ.
  change (Zpos (digits2_pos 7812500000000000)) with 53 in HbQ.
  rewrite scaled_1e18 in HbQ.
  change (2 ^ 53) with 9007199254740992 in *.
  change (2 ^ 104) with 20282409603651670423947251286016 in *.
  change ((2 ^ 52 + 1) ^ 2) with 20282409603651679431146506027009 in *.
  change (10 ^ 18) with 1000000000000000000 in *.
  destruct (fdiv (S754_finite sF mF eF) f_1e18) as [|sQ| |sQ mQ eQ];
    try contradiction.
  { exfalso. destruct HbQ as [_ Hover]. specialize (Hover ltac:(lia)).
    fold K in Hover.
    assert (9007199254740992 * 1000000000000000000 * K
            <= 9007199254740993 * vF).
    { apply scale_cancel with (w := unit_scale); [exact HW|]. lia. }
    lia. }
  destruct HbQ as (HsQ & HwQ & HeQ & HupQ & HlowQ).
  set (vQ := scaled (S754_finite sQ mQ eQ)) in *.
  assert (HupQ' : 9007199254740992 * 1000000000000000000 * vQ
                  <= 9007199254740993 * vF).
  { apply scale_cancel with (w := unit_scale); [exact HW|]. lia. }
  assert (HlowQ' : 20282409603651670423947251286016 * vF
                   <= 20282409603651679431146506027009 * 1000000000000000000 * vQ).
  { apply scale_cancel with (w := unit_scale); [exact HW|]. lia. }
  (* times 2000 *)
  pose proof (fmul_scaled sQ false mQ 8796093022208000 eQ (-42)
                ltac:(lia) ltac:(lia) ltac:(lia)) as HbP.
  cbv zeta in HbP. fold f_2000 in HbP. fold vQ in HbP.
  rewrite scaled_2000 in HbP.
  change (2 ^ 53) with 9007199254740992 in HbP.
  change (2 ^ 104) with 20282409603651670423947251286016 in HbP.
  change ((2 ^ 52 + 1) ^ 2) with 20282409603651679431146506027009 in HbP.
  fold K in HbP.
  destruct (fmul (S754_finite sQ mQ eQ) f_2000) as [|sP| |sP mP eP];
    try contradiction.
  { exfalso. destruct HbP as [_ Hover]. specialize (Hover ltac:(lia)).
    assert (9007199254740992 * K <= 9007199254740993 * 2000 * vQ).
    { apply scale_cancel with (w := unit_scale); [exact HW|]. lia. }
    lia. }
  destruct HbP as (HsP & HwP & HeP & HupP & HlowP).
  set (vP := scaled (S754_finite sP mP eP)) in *.
  assert (HupP' : 9007199254740992 * vP <= 9007199254740993 * 2000 * vQ).
  { apply scale_cancel with (w := unit_scale); [exact HW|]. lia. }
  assert (HlowP' : 20282409603651670423947251286016 * 2000 * vQ
                   <= 20282409603651679431146506027009 * vP).
  { apply scale_cancel with (w := unit_scale); [exact HW|]. lia. }
  (* times 1e6 *)
  pose proof (fmul_scaled sP false mP 8589934592000000 eP (-33)
                ltac:(lia) ltac:(lia) ltac:(lia)) as HbU.
  cbv zeta in HbU. fold f_1e6 in HbU. fold vP in HbU.
  rewrite scaled_1e6 in HbU.
  change (2 ^ 53) with 9007199254740992 in HbU.
  change (2 ^ 104) with 20282409603651670423947251286016 in HbU.
  change ((2 ^ 52 + 1) ^ 2) with 20282409603651679431146506027009 in HbU.
  change (10 ^ 6) with 1000000 in HbU.
  fold K in HbU.
  destruct (fmul (S754_finite sP mP eP) f_1e6) as [|sU| |sU mU eU];
    try contradiction.
  { exfalso. destruct HbU as [_ Hover]. specialize (Hover ltac:(lia)).
    assert (9007199254740992 * K <= 9007199254740993 * 1000000 * vP).
    { apply scale_cancel with (w := unit_scale); [exact HW|]. lia. }
    lia. }
  destruct HbU as (HsU & HwU & HeU & HupU & HlowU).
  set (vU := scaled (S754_finite sU mU eU)) in *.
  assert (HupU' : 9007199254740992 * vU <= 9007199254740993 * 1000000 * vP).
  { apply scale_cancel with (w := unit_scale); [exact HW|]. lia. }
  assert (HlowU' : 20282409603651670423947251286016 * 1000000 * vP
                   <= 20282409603651679431146506027009 * vU).
  { apply scale_cancel with (w := unit_scale); [exact HW|]. lia. }
  (* the truncation *)
  cbn [int_of_float]. eexists. split; [reflexivity|].
  destruct (trunc_pos_scaled mU eU ltac:(lia)) as [Hint1 Hint2].
  pose proof (trunc_pos_nonneg mU eU) as Hnn.
  fold (scaled (S754_finite sU mU eU)) in Hint1, Hint2. fold vU in Hint1, Hint2.
  set (t := trunc_pos mU eU) in *.
  assert (Hsign : sU = (sell_quote <? 0)).
  { rewrite HsU, HsP, HsQ, HsF. now rewrite !Bool.xorb_false_r. }
  assert (Habs : Z.abs (if sU then - t else t) = t) by (destruct sU; lia).
  rewrite Habs. clear Habs.
  set (a := Z.abs sell_quote) in *.
  change (10 ^ 9) with 1000000000.
  change (2 ^ 50) with 1125899906842624.
  change (2 ^ 48) with 281474976710656.
  split; [|split; [|split]].
  - intros Hq. apply Z.ltb_ge in Hq. rewrite Hsign, Hq. exact Hnn.
  - intros Hq. rewrite Hsign. destruct (sell_quote <? 0) eqn:Hneg; [lia|].
    apply Z.ltb_ge in Hneg. assert (a = 0) by (unfold a; lia).
    assert (t = 0); [|lia].
    assert (vF = 0) by lia.
    assert (t * unit_scale <= 0) by lia.
    destruct (Z.eq_dec t 0) as [|Hne]; [assumption|exfalso].
    assert (1 * unit_scale <= t * unit_scale)
      by (apply Z.mul_le_mono_nonneg_r; lia).
    lia.
  - apply scale_cancel with (w := unit_scale); [exact HW|]. lia.
  - apply scale_cancel with (w := unit_scale); [exact HW|]. lia.
Qed.

(** The redemption value can always be made a [float] again: it is smaller
    than the sell quote in magnitude. *)
Lemma usdc_float_total (sell_quote usdc : Z) (F : float) :
  float_of_int sell_quote = inr F ->
  usdc_value sell_quote = inr usdc ->
  exists U, float_of_int usdc = inr U.
Proof.
  intros HF Hu.
  destruct (usdc_value_scaled sell_quote F HF) as (u & Hu' & _ & _ & Hup & _).
  rewrite Hu in Hu'. injection Hu' as <-.
  apply float_of_int_total.
  pose proof (float_of_int_scaled sell_quote F HF) as HbF.
  destruct F as [sF|sF| |sF mF eF]; try contradiction.
  { subst sell_quote. cbn [Z.abs] in Hup.
    assert (Z.abs usdc = 0) by lia.
    rewrite H. reflexivity. }
  pose proof (float_of_int_below_overflow sell_quote _ _ _ HF) as Hbelow.
  destruct HbF as (_ & _ & _ & _ & HlowF).
  pose proof unit_scale_pos as HW.
  set (vF := scaled (S754_finite sF mF eF)) in *.
  set (a := Z.abs sell_quote) in *. set (u := Z.abs usdc) in *.
  assert (Ha : 2 ^ 104 * a < (2 ^ 52 + 1) ^ 2 * 2 ^ 1024).
  { apply Z.mul_lt_mono_pos_r with (p := unit_scale); [exact HW|].
    replace ((2 ^ 52 + 1) ^ 2 * 2 ^ 1024 * unit_scale)
      with ((2 ^ 52 + 1) ^ 2 * (2 ^ 1024 * unit_scale)) by ring.
    replace (2 ^ 104 * a * unit_scale) with (2 ^ 104 * (a * unit_scale)) by ring.
    set (K := 2 ^ 1024 * unit_scale) in *.
    change (2 ^ 104) with 20282409603651670423947251286016 in *.
    change ((2 ^ 52 + 1) ^ 2) with 20282409603651679431146506027009 in *.
    lia. }
  assert (Hpow : 2 ^ 1024 = 2 * 2 ^ 1023) by reflexivity.
  set (B := 2 ^ 1023) in *. rewrite Hpow in Ha.
  change (2 ^ 104) with 20282409603651670423947251286016 in Ha.
  change ((2 ^ 52 + 1) ^ 2) with 20282409603651679431146506027009 in Ha.
  change (10 ^ 9) with 1000000000 in Hup.
  change (2 ^ 50) with 1125899906842624 in Hup.
  assert (0 < B) by reflexivity.
  lia.
Qed.

End PyBounds.

(** ** The reference implementation of [int(s)] and [float(s)] *)

Module LiteralFacts.
Import Py Literal.

(** The float constants are the doubles nearest to the literals of the
    source, and the reference implementation agrees with the interpreter on
    sample values. *)
Example literal_0_03 : float_of_str "0.03" = inr f_0_03.
Proof. reflexivity. Qed.

Example literal_0_99 : float_of_str "0.99" = inr f_0_99.
Proof. reflexivity. Qed.

Example literal_1e18 : float_of_str "1e18" = inr f_1e18.
Proof. reflexivity. Qed.

Example literal_1e6 : float_of_str "1e6" = inr f_1e6.
Proof. reflexivity. Qed.

Example float_of_tenth :
  float_of_str "0.1" = inr (S754_finite false 7205759403792794 (-56)).
Proof. reflexivity. Qed.

Example float_of_underscores :
  float_of_str " 1_0.5e-3 " = inr (S754_finite false 6052837899185947 (-59)).
Proof. reflexivity. Qed.

Example int_of_signed : int_of_str " -1_000 " = inr (-1000).
Proof. reflexivity. Qed.

Example int_of_fraction :
  int_of_str "1.5"
  = raise "ValueError" "invalid literal for int() with base 10: '1.5'".
Proof. reflexivity. Qed.

(** A no-break space is stripped, a file separator is not. *)
Example int_after_no_break_space : int_of_str (Demo.char 160 ++ "5") = inr 5.
Proof. reflexivity. Qed.

Example int_after_file_separator :
  int_of_str (Demo.char 28 ++ "5")
  = raise "ValueError" "invalid literal for int() with base 10: '\x1c5'".
Proof. reflexivity. Qed.

(** [repr] picks its quotes by the string and escapes what it must. *)
Example repr_with_quote :
  repr "it's" = String double_quote ("it's" ++ String double_quote EmptyString).
Proof. reflexivity. Qed.

Example repr_with_newline : repr ("a" ++ Demo.char 10) = "'a\n'".
Proof. reflexivity. Qed.

(** A literal of 4301 digits is refused by [int] and read by [float]. *)
Example int_of_long_literal :
  int_of_str (Demo.ones 4301)
  = raise "ValueError"
      "Exceeds the limit (4300 digits) for integer string conversion: value has 4301 digits; use sys.set_int_max_str_digits() to increase the limit".
Proof. vm_compute. reflexivity. Qed.

Example float_of_long_literal :
  float_of_str (Demo.ones 4301) = inr (S754_infinity false).
Proof. vm_compute. reflexivity. Qed.

Lemma digit_of_range c d : digit_of c = Some d -> 0 <= d <= 9.
Proof.
  unfold digit_of. destruct (_ && _) eqn:H; [|discriminate].
  intros [= <-]. apply andb_true_iff in H. destruct H as [H1 H2].
  apply Z.leb_le in H1, H2. lia.
Qed.

Lemma digits_tail_nonneg_upto (n : nat) : forall s acc cnt,
  (String.length s <= n)%nat -> 0 <= acc ->
  0 <= fst (fst (digits_tail acc cnt s)).
Proof.
  induction n as [|n IH]; intros s acc cnt Hlen Hacc.
  - destruct s; [exact Hacc|cbn in Hlen; lia].
  - destruct s as [|c s]; cbn [digits_tail]; [exact Hacc|].
    cbn [String.length] in Hlen.
    destruct (digit_of c) as [d|] eqn:Hd.
    + apply digit_of_range in Hd. apply IH; lia.
    + destruct (Ascii.eqb c "_"%char); [|exact Hacc].
      destruct s as [|c2 s2]; [exact Hacc|].
      cbn [String.length] in Hlen.
      destruct (digit_of c2) as [d|] eqn:Hd2; [|exact Hacc].
      apply digit_of_range in Hd2. apply IH; lia.
Qed.

Lemma digits_tail_nonneg (s : string) (acc cnt : Z) :
  0 <= acc -> 0 <= fst (fst (digits_tail acc cnt s)).
Proof. apply (digits_tail_nonneg_upto (String.length s)). lia. Qed.

Lemma digitpart_nonneg s v n rest :
  digitpart 0 s = Some (v, n, rest) -> 0 <= v.
Proof.
  unfold digitpart. destruct s as [|c s]; [discriminate|].
  destruct (digit_of c) as [d|] eqn:Hd; [|discriminate].
  intros [= H]. apply digit_of_range in Hd.
  pose proof (digits_tail_nonneg s d 1 ltac:(lia)) as Hn.
  rewrite H in Hn. exact Hn.
Qed.

(** A string that starts with a digit spells neither "inf" nor "nan". *)
Lemma digit_not_word c d s :
  digit_of c = Some d ->
  let w := lower_string (String c s) in
  (String.eqb w "inf" || String.eqb w "infinity")%bool = false /\
  String.eqb w "nan" = false.
Proof.
  intros Hd. cbn [lower_string String.eqb].
  assert (Hi : Ascii.eqb (lower c) "i" = false /\ Ascii.eqb (lower c) "n" = false).
  { destruct c as [[] [] [] [] [] [] [] []]; try discriminate Hd; split; reflexivity. }
  destruct Hi as [-> ->]. split; reflexivity.
Qed.

(** On a string [int] accepts, [float] reads the same digits. *)
Lemma parse_float_of_int_literal (s : string) (z : Z) :
  parse_int s = IntValue z ->
  exists (neg : bool) (v : Z), 0 <= v /\ z = (if neg then - v else v) /\
                parse_float s = Some (float_of_decimal neg v 0).
Proof.
  unfold parse_int, parse_float.
  destruct (sign_of (strip s)) as [neg body].
  destruct (digitpart 0 body) as [[[v n] rest]|] eqn:Hdp; [|discriminate].
  destruct (starts_with_underscore rest); [discriminate|].
  destruct (max_str_digits <? n); [discriminate|].
  destruct rest as [|c rest]; [|discriminate]. cbn [is_empty].
  intros [= <-]. exists neg, v.
  split; [eapply digitpart_nonneg; eassumption|]. split; [reflexivity|].
  assert (Hw : exists c s', body = String c s' /\ exists d, digit_of c = Some d).
  { unfold digitpart in Hdp. destruct body as [|c s']; [discriminate|].
    destruct (digit_of c) eqn:Hd; [|discriminate]. eauto. }
  destruct Hw as (c & s' & -> & d & Hd).
  destruct (digit_not_word c d s' Hd) as [-> ->].
  unfold mantissa. rewrite Hdp. cbn [exponent]. reflexivity.
Qed.

(** The reference implementation reads one number with [int] and
    [float]. *)
Lemma reference_agreement : literal_agreement int_of_str float_of_str.
Proof.
  intros s a x Hint Hfloat.
  unfold int_of_str in Hint.
  destruct (parse_int s) as [z| |] eqn:Hparse; try discriminate Hint.
  injection Hint as <-.
  destruct (parse_float_of_int_literal s z Hparse) as (neg & v & Hv & -> & Hpf).
  unfold float_of_str in Hfloat. rewrite Hpf in Hfloat.
  injection Hfloat as <-. exists neg.
  destruct neg; (split; [f_equal; lia|split; [intros; try reflexivity; lia|intros; try reflexivity; lia]]).
Qed.

End LiteralFacts.

(** ** Programs and their runs *)

Section ProgFacts.

Context {S : Type} (h : handler S).

(** A handler that only reformats the exception leaves the trace alone, and
    an exception that is no instance of [Exception] passes through it. *)
Lemma run_try_except_ret {A} (p : prog A) (f : exn -> A) (s : S) :
  run h (try_except p (fun e => Ret (f e))) s =
  {| answer := match answer (run h p s) with
               | inl e => if exn_is_Exception e then inr (f e) else inl e
               | inr a => inr a
               end;
     calls := calls (run h p s);
     final := final (run h p s) |}.
Proof.
  revert s. induction p as [a|e|X c k IH]; intros s; cbn [try_except run].
  - reflexivity.
  - cbn [answer calls final]. destruct (exn_is_Exception e); reflexivity.
  - destruct (h X c s) as [r s']. rewrite IH. reflexivity.
Qed.

End ProgFacts.

(** ** The action *)

Section ActionFacts.

Variable WOW_ABI : abi.
Variable from_wei_ether : Z -> result string.
Variable float_str : Py.float -> string.
Variable int_of_str : string -> result Z.
Variable float_of_str : string -> result Py.float.

Local Abbreviation gift :=
  (gift_transfer WOW_ABI from_wei_ether float_str int_of_str float_of_str).

(** Follow a run of the action through every response and every pure step:
    one goal per place where the run can end. *)
Ltac explore h :=
  unfold gift_transfer, gift_transfer_body, get_current_usdc_price;
  repeat (cbn [run bind perform try_except answer calls final
                 request_of response_of]; unfold lift;
    match goal with
    | |- context [let '(_, _) := h ?X ?c ?s in _] =>
        destruct (h X c s) as [[?e|?x] ?s] eqn:?
    | |- context [match ?r with inl _ => _ | inr _ => _ end] =>
        destruct r as [?e|?v] eqn:?
    | |- context [if exn_is_Exception ?e then _ else _] =>
        destruct (exn_is_Exception e) eqn:?
    end);
  cbn [run bind perform try_except answer calls final
         request_of response_of].

(** Split a membership in a trace that is known entry by entry. *)
Ltac list_cases H :=
  cbn [In] in H;
  repeat match type of H with _ \/ _ => destruct H as [H|H] end;
  try contradiction.

(** Find the entry at a position of a trace that is known entry by entry. *)
Ltac position_cases i H :=
  repeat (destruct i as [|i]; cbn [nth_error] in H; try discriminate H).

(** Identify the results that one pure step has in two hypotheses. *)
Ltac same_step :=
  repeat match goal with
  | H : inl _ = inr _ |- _ => discriminate H
  | H : inr _ = inl _ |- _ => discriminate H
  | H : inl _ = inl _ |- _ => injection H as ?; subst
  | H : inr _ = inr _ |- _ => injection H as ?; subst
  | H : ?x = inl _, H' : ?x = _ |- _ => rewrite H in H'
  | H : ?x = inr _, H' : ?x = _ |- _ => rewrite H in H'
  end.

(** Close a goal on the answer of a run that ended in the handler. *)
Ltac reported :=
  try reflexivity; try congruence;
  match goal with
  | H : exn_is_Exception ?x = _ |- context [exn_is_Exception ?x] =>
      rewrite H; reflexivity
  end.

Lemma error_report_is_error (msg : string) :
  is_error_report (error_prefix ++ msg) = true.
Proof. reflexivity. Qed.

Lemma success_message_not_error q m g r spent fee usdc res :
  is_error_report (success_message q m g r spent fee usdc res) = false.
Proof. reflexivity. Qed.

(** The calls of any run are an initial part of [full_sequence]. *)
Lemma kinds_prefix {S} (h : handler S) st w a m r g :
  exists rest,
    (kinds (calls (run h (gift w a m r g) st)) ++ rest)%list = full_sequence.
Proof.
  explore h; cbn; eexists; reflexivity.
Qed.

(** C1, as amended. A run of [gift_transfer] that does not end in an error
    report makes its collaborator calls in one fixed order: the buy quote,
    the purchase ([invoke_contract] with method "buy") and its [wait], the
    sell quote of the pricing step, the escrow deposit ([invoke_contract]
    with method "createGift") and its [wait]; counting each waited
    invocation once, that is four calls. In every run, successful or not, a
    "createGift" invocation comes fifth, after the buy quote, the purchase,
    the purchase's [wait] and the sell quote have all returned normally. *)
Theorem gift_transfer_call_order {S} (h : handler S) st w a m r g :
  let o := run h (gift w a m r g) st in
  (forall s, answer o = inr s -> is_error_report s = false ->
     kinds (calls o) = full_sequence /\
     external_calls (calls o)
       = [KBuyQuote; KInvoke "buy"; KSellQuote; KInvoke "createGift"] /\
     forallb (fun x => negb (raised x)) (responses (calls o)) = true) /\
  (forall i w' c resp,
     nth_error (calls o) i = Some (ReqInvoke w' c, resp) ->
     method c = "createGift" ->
     kinds (firstn i (calls o)) = [KBuyQuote; KInvoke "buy"; KWait; KSellQuote] /\
     forallb (fun x => negb (raised x)) (responses (firstn i (calls o))) = true).
Proof.
  cbv zeta. split.
  - intros s. explore h; intros [= <-]; intros Herr;
      try (compute in Herr; discriminate Herr).
    repeat split; reflexivity.
  - intros i w' c resp. explore h; intros Hn Hm;
      position_cases i Hn;
      try (injection Hn as <- <- <-; cbn in Hm; discriminate Hm);
      try (split; reflexivity).
Qed.


(** C2, as amended. Whenever a run issues the "createGift" invocation, it is
    addressed to the escrow contract with the escrow ABI, and its arguments
    are exactly: the given memecoin token, the given recipient, the given
    giver, the USDC redemption value computed from the sell quote of the
    quoted token amount, and the initial buy price, which is the input
    [amount_eth_in_wei] string. *)
Theorem create_gift_arguments {S} (h : handler S) st w a m r g w' c resp :
  In (ReqInvoke w' c, resp) (calls (run h (gift w a m r g) st)) ->
  method c = "createGift" ->
  exists token_quote sell_quote usdc_price,
    nth_error (calls (run h (gift w a m r g) st)) 0
      = Some (ReqBuyQuote (network_id w) m a, RespInt token_quote) /\
    nth_error (calls (run h (gift w a m r g) st)) 3
      = Some (ReqSellQuote (network_id w) m (Py.str_of_int token_quote),
              RespInt sell_quote) /\
    usdc_value sell_quote = inr usdc_price /\
    w' = w /\
    contract_address c = escrow_address /\
    call_abi c = GIFT_ESCROW_ABI /\
    args c = [ ("token", PyStr m);
               ("recipient", PyStr r);
               ("giver", PyStr g);
               ("redeemableUsdcAmount", PyInt usdc_price);
               ("initialBuyPrice", PyStr a) ] /\
    amount c = None.
Proof.
  explore h; intros HIn Hm; list_cases HIn;
    try discriminate HIn;
    injection HIn as <- <- <-; try discriminate Hm;
    do 3 eexists; repeat split; try reflexivity; eassumption.
Qed.

(** C3, as amended. What [gift_transfer] makes of a failure, at whatever
    step, is [caught]: for an exception [e] that is an instance of
    [Exception] it returns exactly "Error in gift transfer: " followed by
    the message of [e], and any other exception goes on to the caller; no
    exception that is an instance of [Exception] ever leaves the function.
    - A collaborator call that raises [e] is the last call of the run, which
      answers [caught e].
    - After the buy quote, when [float] refuses the amount string, or the
      fee cannot be made an integer, or [int] refuses the amount string, or
      the quote is beyond the double range, the run answers [caught e] for
      the exception [e] of the first of these steps that fails, and the buy
      quote stays its only call.
    - When the pricing arithmetic on the sell quote raises [e], the run
      answers [caught e] after four calls.
    - After the six calls, when [Web3.from_wei] refuses the amount or the
      fee, the run answers [caught e] for its exception.
    - Whatever happens, the run either answers [caught e] for some exception
      [e], or has made its six calls and returns the success message. *)
Theorem gift_transfer_reports_errors {S} (h : handler S) st w a m r g :
  let o := run h (gift w a m r g) st in
  (forall e, answer o = inl e -> exn_is_Exception e = false) /\
  (forall i req e,
     nth_error (calls o) i = Some (req, RespRaise e) ->
     Datatypes.S i = List.length (calls o) /\ answer o = caught e) /\
  (forall req token_quote,
     nth_error (calls o) 0 = Some (req, RespInt token_quote) ->
     (forall e, float_of_str a = inl e ->
        List.length (calls o) = 1%nat /\ answer o = caught e) /\
     (forall amount_float e,
        float_of_str a = inr amount_float ->
        Py.int_of_float (Py.fmul amount_float Py.f_0_03) = inl e ->
        List.length (calls o) = 1%nat /\ answer o = caught e) /\
     (forall amount_float platform_fee e,
        float_of_str a = inr amount_float ->
        Py.int_of_float (Py.fmul amount_float Py.f_0_03) = inr platform_fee ->
        int_of_str a = inl e ->
        List.length (calls o) = 1%nat /\ answer o = caught e) /\
     (forall amount_float platform_fee amount_int e,
        float_of_str a = inr amount_float ->
        Py.int_of_float (Py.fmul amount_float Py.f_0_03) = inr platform_fee ->
        int_of_str a = inr amount_int ->
        Py.float_of_int token_quote = inl e ->
        List.length (calls o) = 1%nat /\ answer o = caught e)) /\
  (forall req sell_quote e,
     nth_error (calls o) 3 = Some (req, RespInt sell_quote) ->
     usdc_value sell_quote = inl e ->
     List.length (calls o) = 4%nat /\ answer o = caught e) /\
  (forall req gift_result,
     nth_error (calls o) 5 = Some (req, RespInvocation gift_result) ->
     (forall amount_int e,
        int_of_str a = inr amount_int ->
        from_wei_ether amount_int = inl e ->
        answer o = caught e) /\
     (forall amount_float platform_fee amount_int eth_spent e,
        float_of_str a = inr amount_float ->
        Py.int_of_float (Py.fmul amount_float Py.f_0_03) = inr platform_fee ->
        int_of_str a = inr amount_int ->
        from_wei_ether amount_int = inr eth_spent ->
        from_wei_ether platform_fee = inl e ->
        answer o = caught e)) /\
  ((exists e, answer o = caught e) \/
   (exists token_quote eth_spent fee usdc gift_result,
      List.length (calls o) = 6%nat /\
      answer o = inr (success_message token_quote m g r
                        eth_spent fee usdc gift_result))).
Proof.
  cbv zeta. unfold caught. split; [|split; [|split; [|split; [|split]]]].
  - intros e0. explore h; intros [= <-]; assumption.
  - intros i req e0.
    explore h; intros Hn; position_cases i Hn;
      injection Hn as <- <-; split; reported.
  - intros req q.
    explore h; intros Hn; try discriminate Hn; injection Hn as <- <-;
      (split; [|split; [|split]]); intros; same_step; split; reported.
  - intros req sq e0.
    explore h; intros Hn; try discriminate Hn; injection Hn as <- <-;
      intros; same_step; split; reported.
  - intros req res.
    explore h; intros Hn; try discriminate Hn; injection Hn as <- <-;
      split; intros; same_step; reported.
  - explore h;
      try (right; do 5 eexists; split; reflexivity);
      left;
      match goal with
      | H : exn_is_Exception ?x = _ |- _ => exists x; rewrite H; reflexivity
      end.
Qed.

Lemma float_of_int_2000 : Py.float_of_int eth_price_in_usdc = inr Py.f_2000.
Proof. reflexivity. Qed.

(** The arithmetic of the source is the formula of the specification. *)
Lemma usdc_value_formula (sell_quote : Z) :
  usdc_value sell_quote = usdc_formula sell_quote.
Proof.
  unfold usdc_value, usdc_formula, truediv_int_float.
  rewrite float_of_int_2000.
  destruct (Py.float_of_int sell_quote); reflexivity.
Qed.

(** C4. [get_current_usdc_price] makes one call, the sell quote for the token
    amount, and prices it with the hardcoded ETH/USDC price 2000: whatever
    the network id, the memecoin address and the environment, its result is
    [int((sell_quote / 1e18) * 2000 * 1e6)] on the quote received, and the
    quote's exception if the quote raises. *)
Theorem get_current_usdc_price_stub {S} (h : handler S) st
    (network memecoin_address : string) (token_amount : Z) :
  let o := run h (get_current_usdc_price network memecoin_address token_amount) st in
  requests (calls o)
    = [ReqSellQuote network memecoin_address (Py.str_of_int token_amount)] /\
  eth_price_in_usdc = 2000 /\
  (forall sell_quote,
     responses (calls o) = [RespInt sell_quote] ->
     answer o = usdc_formula sell_quote) /\
  (forall e, responses (calls o) = [RespRaise e] -> answer o = inl e).
Proof.
  cbv zeta. unfold get_current_usdc_price.
  cbn [run bind perform calls answer request_of response_of].
  destruct (h Z _ st) as [[e|sq] st'];
    cbn [run bind lift calls answer requests responses map fst snd].
  - repeat split; try reflexivity; intros x [= <-]. reflexivity.
  - unfold lift.
    destruct (usdc_value sq) eqn:Hu; cbn [run calls answer map fst snd];
      repeat split; try reflexivity; intros x [= <-];
      rewrite <- usdc_value_formula, Hu; reflexivity.
Qed.

(** C5. In every run, the "buy" invocation is addressed to the memecoin
    contract and its "recipient" argument is the escrow address; the wallet's
    own address is only the refund recipient. The "recipient" argument is
    therefore not the wallet's address, not the giver and not the gift
    recipient, whenever these differ from the escrow address. *)
Theorem buy_recipient_is_escrow {S} (h : handler S) st w a m r g w' c resp :
  In (ReqInvoke w' c, resp) (calls (run h (gift w a m r g) st)) ->
  method c = "buy" ->
  dict_get (args c) "recipient" = Some (PyStr escrow_address) /\
  dict_get (args c) "refundRecipient"
    = Some (PyStr (address_id (default_address w))) /\
  contract_address c = m /\
  (address_id (default_address w) <> escrow_address ->
   dict_get (args c) "recipient"
     <> Some (PyStr (address_id (default_address w)))) /\
  (g <> escrow_address -> dict_get (args c) "recipient" <> Some (PyStr g)) /\
  (r <> escrow_address -> dict_get (args c) "recipient" <> Some (PyStr r)).
Proof.
  explore h; intros HIn Hm; list_cases HIn;
    try discriminate HIn;
    injection HIn as <- <- <-; try discriminate Hm;
    cbn [buy_call args dict_get contract_address String.eqb Ascii.eqb Bool.eqb];
    repeat split; try reflexivity; congruence.
Qed.

(** C6. The escrow address is the constant "0x...": in every run it is the
    "recipient" of the "buy" invocation and the contract address of the
    "createGift" invocation, and the run makes no call besides those of
    [full_sequence], so none that could read or fetch an address. *)
Theorem escrow_is_placeholder {S} (h : handler S) st w a m r g :
  let o := run h (gift w a m r g) st in
  escrow_address = "0x..." /\
  (forall w' c resp, In (ReqInvoke w' c, resp) (calls o) ->
     (method c = "buy" ->
      dict_get (args c) "recipient" = Some (PyStr "0x...")) /\
     (method c = "createGift" -> contract_address c = "0x...")) /\
  (exists rest, (kinds (calls o) ++ rest)%list = full_sequence).
Proof.
  cbv zeta. split; [reflexivity|]. split; [|apply kinds_prefix].
  intros w' c resp.
  explore h; intros HIn; list_cases HIn;
    try discriminate HIn;
    injection HIn as <- <- <-; split; intros Hm;
    try discriminate Hm; reflexivity.
Qed.

(** The answer of [gift_transfer] depends on the responses only through
    their [observations]: the quotes, the exceptions and the invocation that
    the last [wait] returns. Two runs on the same inputs, in any two
    environments holding any two states, whose responses agree on these give
    the same answer and make calls of the same kinds, whatever the purchase
    and its [wait] returned. *)
Theorem answer_ignores_purchase_result
    {S1 S2} (h1 : handler S1) (h2 : handler S2) st1 st2 w a m r g :
  let o1 := run h1 (gift w a m r g) st1 in
  let o2 := run h2 (gift w a m r g) st2 in
  observations (calls o1) = observations (calls o2) ->
  answer o1 = answer o2 /\ kinds (calls o1) = kinds (calls o2).
Proof.
  cbv zeta. unfold observations.
  explore h1; explore h2;
    cbn [responses map snd observations_from observed Nat.eqb];
    intros Hobs; try discriminate Hobs;
    injection Hobs as ?; subst; same_step; split; reported.
Qed.

(** C8. The metadata of [GiftTransferAction]: its name is "gift_transfer",
    its description is [GIFT_TRANSFER_PROMPT], its argument schema is
    [GiftTransferInput], whose four fields, all required strings, are
    amount_eth_in_wei, memecoin_address, recipient and giver, and its
    function is [gift_transfer]. *)
Theorem GiftTransferAction_metadata :
  let action :=
    GiftTransferAction WOW_ABI from_wei_ether float_str int_of_str float_of_str in
  name action = "gift_transfer" /\
  description action = GIFT_TRANSFER_PROMPT /\
  args_schema action = Some GiftTransferInput /\
  map (fun f => (field_name f, field_type f, field_required f))
      (model_fields GiftTransferInput)
    = [ ("amount_eth_in_wei", TStr, true);
        ("memecoin_address", TStr, true);
        ("recipient", TStr, true);
        ("giver", TStr, true) ] /\
  func action = gift.
Proof.
  cbv zeta. repeat split.
Qed.

(** C9, as amended. In every run that issues the "buy" invocation, [int] and
    [float] have both read the amount string, the platform fee is
    [int(float(amount_eth_in_wei) * 0.03)] computed in binary64, and the
    value attached to the invocation, in wei, is the string of the integer
    amount plus that fee. When [float] reads the number that [int] reads
    ([literal_agreement]): if the amount is not negative, the attached value
    is not less than the amount, and if the amount is negative, it is not
    more; above 2^53 wei the fee can differ from the exact
    [floor(3 * amount / 100)]: on 12345678901234567890 wei the purchase is
    invoked with a fee of 370370367037036992 wei. *)
Theorem platform_fee_attached {S} (h : handler S) st w a m r g w' c resp :
  In (ReqInvoke w' c, resp) (calls (run h (gift w a m r g) st)) ->
  method c = "buy" ->
  exists amount_int amount_float platform_fee,
    int_of_str a = inr amount_int /\
    float_of_str a = inr amount_float /\
    Py.int_of_float (Py.fmul amount_float Py.f_0_03) = inr platform_fee /\
    amount c = Some (Py.str_of_int (amount_int + platform_fee)) /\
    asset_id c = Some "wei" /\
    (literal_agreement int_of_str float_of_str ->
     (0 <= amount_int -> amount_int <= amount_int + platform_fee) /\
     (amount_int < 0 -> amount_int + platform_fee <= amount_int) /\
     (amount_int = 12345678901234567890 ->
      2 ^ 53 < amount_int /\
      platform_fee = 370370367037036992 /\
      platform_fee <> exact_fee amount_int)).
Proof.
  explore h; intros HIn Hm; list_cases HIn;
    try discriminate HIn;
    injection HIn as <- <- <-; try discriminate Hm;
    do 3 eexists; repeat (split; [try eassumption; reflexivity|]);
    intros Hagree;
    match goal with
    | Hi : int_of_str a = inr ?ai, Hf : float_of_str a = inr ?af,
      Hfee : Py.int_of_float (Py.fmul ?af Py.f_0_03) = inr ?fee |- _ =>
        split; [|split];
        [ intros Hpos;
          pose proof (PyFacts.platform_fee_nonneg
                        int_of_str float_of_str a ai fee af
                        Hagree Hi Hpos Hf Hfee); lia
        | intros Hneg;
          pose proof (PyFacts.platform_fee_nonpos
                        int_of_str float_of_str a ai fee af
                        Hagree Hi Hneg Hf Hfee); lia
        | intros ->;
          destruct (Hagree a _ af Hi Hf) as (neg & -> & Hneg & _);
          rewrite (Hneg ltac:(lia)) in Hfee;
          vm_compute in Hfee; injection Hfee as <-;
          repeat split; vm_compute; congruence ]
    end.
Qed.

(** C10, as amended. In every run that issues the "buy" invocation, its
    "minOrderSize" argument is the string of
    [int(float(token_quote) * 0.99)], computed in binary64 on the quote that
    [get_buy_quote] returned. This minimum lies between zero and the quote:
    for a quote that is not negative it is not more than the quote, and for
    a negative quote it is not less. *)
Theorem min_order_size_slippage {S} (h : handler S) st w a m r g w' c resp :
  In (ReqInvoke w' c, resp) (calls (run h (gift w a m r g) st)) ->
  method c = "buy" ->
  exists token_quote quote_float min_order_size,
    nth_error (calls (run h (gift w a m r g) st)) 0
      = Some (ReqBuyQuote (network_id w) m a, RespInt token_quote) /\
    Py.float_of_int token_quote = inr quote_float /\
    Py.int_of_float (Py.fmul quote_float Py.f_0_99) = inr min_order_size /\
    dict_get (args c) "minOrderSize"
      = Some (PyStr (Py.str_of_int min_order_size)) /\
    (0 <= token_quote -> 0 <= min_order_size <= token_quote) /\
    (token_quote <= 0 -> token_quote <= min_order_size <= 0).
Proof.
  explore h; intros HIn Hm; list_cases HIn;
    try discriminate HIn;
    injection HIn as <- <- <-; try discriminate Hm;
    do 3 eexists; repeat (split; [try eassumption; reflexivity|]);
    eapply PyFacts.min_order_toward_zero; eassumption.
Qed.


(** ** Further properties of the action *)


(** Nothing undoes a purchase. When a call after the purchase raises (the
    sell quote, the escrow deposit or its [wait]), the purchase has been
    invoked with its value attached and waited for, the failing call is the
    last call of the run, and the run only reports the failure. *)
Theorem purchase_not_undone {S} (h : handler S) st w a m r g i req e :
  nth_error (calls (run h (gift w a m r g) st)) i = Some (req, RespRaise e) ->
  (3 <= i)%nat ->
  exists c pending_buy buy_result total,
    nth_error (calls (run h (gift w a m r g) st)) 1
      = Some (ReqInvoke w c, RespInvocation pending_buy) /\
    method c = "buy" /\
    amount c = Some total /\
    nth_error (calls (run h (gift w a m r g) st)) 2
      = Some (ReqWait pending_buy, RespInvocation buy_result) /\
    Datatypes.S i = List.length (calls (run h (gift w a m r g) st)) /\
    answer (run h (gift w a m r g) st) = caught e.
Proof.
  unfold caught.
  explore h; intros Hn Hi; position_cases i Hn; try lia;
    injection Hn as <- <-;
    do 4 eexists; repeat split; reported.
Qed.

(** A run invokes at most two contracts, from the wallet it was given:
    the memecoin's "buy" with the imported ABI and wei attached, and the
    escrow's "createGift" with the escrow ABI and nothing attached. The
    "redeemGift" function that the escrow ABI also declares is never
    invoked. *)
Theorem invocations_of_a_run {S} (h : handler S) st w a m r g :
  let o := run h (gift w a m r g) st in
  (forall w' c resp, In (ReqInvoke w' c, resp) (calls o) ->
     w' = w /\
     ((method c = "buy" /\ contract_address c = m /\ call_abi c = WOW_ABI /\
       asset_id c = Some "wei" /\ amount c <> None)
      \/
      (method c = "createGift" /\ contract_address c = escrow_address /\
       call_abi c = GIFT_ESCROW_ABI /\ asset_id c = None /\ amount c = None))) /\
  (List.length (filter is_invoke (requests (calls o))) <= 2)%nat.
Proof.
  cbv zeta. split.
  - intros w' c resp. explore h; intros HIn; list_cases HIn;
      try discriminate HIn; injection HIn as <- <- <-;
      (split; [reflexivity|]);
      ((left; repeat split; try reflexivity; discriminate)
       || (right; repeat split; reflexivity)).
  - explore h; cbn; lia.
Qed.

(** Every [wait] of a run is made on the invocation that the call just
    before it returned, which was an [invoke_contract] from the given
    wallet. *)
Theorem wait_follows_its_invocation {S} (h : handler S) st w a m r g k p resp :
  nth_error (calls (run h (gift w a m r g) st)) k = Some (ReqWait p, resp) ->
  exists k' c,
    k = Datatypes.S k' /\
    nth_error (calls (run h (gift w a m r g) st)) k'
      = Some (ReqInvoke w c, RespInvocation p).
Proof.
  explore h; intros Hn; position_cases k Hn;
    injection Hn as <- <-; do 2 eexists; split; reflexivity.
Qed.

(** The "createGift" invocation fits the ABI it is sent with: the escrow ABI
    declares the function, and the names of the arguments are the names of
    its inputs, in order. The ABI declares the function payable, and the
    invocation attaches no value. *)
Theorem create_gift_matches_abi {S} (h : handler S) st w a m r g w' c resp :
  In (ReqInvoke w' c, resp) (calls (run h (gift w a m r g) st)) ->
  method c = "createGift" ->
  exists entry,
    abi_lookup (call_abi c) (method c) = Some entry /\
    map fst (args c) = map param_name (abi_inputs entry) /\
    abi_stateMutability entry = "payable" /\
    amount c = None.
Proof.
  explore h; intros HIn Hm; list_cases HIn;
    try discriminate HIn; injection HIn as <- <- <-; try discriminate Hm;
    eexists; repeat split; reflexivity.
Qed.

(** The buy quote is asked before the amount is looked at: every run makes
    at least one call, its first call is [get_buy_quote] on the wallet's
    network, the memecoin address and the amount string as given, and when
    [float] or [int] refuses that string the run makes no other call. *)
Theorem quote_comes_first {S} (h : handler S) st w a m r g :
  let o := run h (gift w a m r g) st in
  (exists resp,
     nth_error (calls o) 0 = Some (ReqBuyQuote (network_id w) m a, resp)) /\
  (forall e, float_of_str a = inl e \/ int_of_str a = inl e ->
     exists resp, calls o = [(ReqBuyQuote (network_id w) m a, resp)]).
Proof.
  cbv zeta. split.
  - explore h; eexists; reflexivity.
  - intros e0 Hparse. explore h;
      try (destruct Hparse; congruence); eexists; reflexivity.
Qed.

(** The slippage factor is 1% up to the rounding of binary64: in every run
    that issues the "buy" invocation on a quote [q] that is not negative,
    the "minOrderSize" argument is the string of an integer that lies
    within [0.99 * q * (1 + 2^-52)] above and [0.99 * q * (1 - 2^-49) - 1]
    below. *)
Theorem min_order_size_within_one_percent
    {S} (h : handler S) st w a m r g w' c resp :
  In (ReqInvoke w' c, resp) (calls (run h (gift w a m r g) st)) ->
  method c = "buy" ->
  exists token_quote min_order_size,
    nth_error (calls (run h (gift w a m r g) st)) 0
      = Some (ReqBuyQuote (network_id w) m a, RespInt token_quote) /\
    dict_get (args c) "minOrderSize"
      = Some (PyStr (Py.str_of_int min_order_size)) /\
    (0 <= token_quote ->
     100 * 2 ^ 52 * min_order_size <= 99 * (2 ^ 52 + 1) * token_quote /\
     99 * (2 ^ 49 - 1) * token_quote <= 100 * 2 ^ 49 * (min_order_size + 1)).
Proof.
  explore h; intros HIn Hm; list_cases HIn;
    try discriminate HIn;
    injection HIn as <- <- <-; try discriminate Hm;
    do 2 eexists; repeat (split; [reflexivity|]);
    intros Hpos; eapply PyBounds.min_order_bounds; eassumption.
Qed.

(** The platform fee is 3% up to the rounding of binary64: when [float]
    reads the number that [int] reads, in every run that issues the "buy"
    invocation on an amount [n] that is not negative, the value attached is
    the string of [n] plus a fee that lies within [0.03 * n * (1 + 2^-52)]
    above and [0.03 * n * (1 - 2^-49) - 1] below. *)
Theorem platform_fee_within_three_percent
    {S} (h : handler S) st w a m r g w' c resp :
  literal_agreement int_of_str float_of_str ->
  In (ReqInvoke w' c, resp) (calls (run h (gift w a m r g) st)) ->
  method c = "buy" ->
  exists amount_int platform_fee,
    int_of_str a = inr amount_int /\
    amount c = Some (Py.str_of_int (amount_int + platform_fee)) /\
    (0 <= amount_int ->
     100 * 2 ^ 52 * platform_fee <= 3 * (2 ^ 52 + 1) * amount_int /\
     3 * (2 ^ 49 - 1) * amount_int <= 100 * 2 ^ 49 * (platform_fee + 1)).
Proof.
  intros Hagree.
  explore h; intros HIn Hm; list_cases HIn;
    try discriminate HIn;
    injection HIn as <- <- <-; try discriminate Hm;
    do 2 eexists; repeat (split; [try eassumption; reflexivity|]);
    intros Hpos; eapply PyBounds.platform_fee_bounds; eassumption.
Qed.

(** The redemption value that [get_current_usdc_price] returns on a sell
    quote [s]: it raises only what [float(s)] raises, which it does not
    below [2 ^ 1023] in magnitude; otherwise it returns an integer with the
    sign of [s] that is, in magnitude, [2 * s / 10^9] (2000 USDC per ETH, in
    millionths of a USDC) within [1 + 2^-50] above and [1 - 2^-48], less
    one, below. *)
Theorem usdc_price_of_sell_quote {S} (h : handler S) st
    (network memecoin_address : string) (token_amount sell_quote : Z) :
  let o := run h (get_current_usdc_price network memecoin_address token_amount) st in
  responses (calls o) = [RespInt sell_quote] ->
  (forall e, answer o = inl e -> Py.float_of_int sell_quote = inl e) /\
  (Z.abs sell_quote < 2 ^ 1023 -> exists usdc, answer o = inr usdc) /\
  (forall usdc, answer o = inr usdc ->
     (0 <= sell_quote -> 0 <= usdc) /\
     (sell_quote <= 0 -> usdc <= 0) /\
     10 ^ 9 * 2 ^ 50 * Z.abs usdc <= 2 * (2 ^ 50 + 1) * Z.abs sell_quote /\
     2 * (2 ^ 48 - 1) * Z.abs sell_quote
       <= 10 ^ 9 * 2 ^ 48 * (Z.abs usdc + 1)).
Proof.
  cbv zeta. unfold get_current_usdc_price.
  cbn [run bind perform calls answer request_of response_of].
  destruct (h Z _ st) as [[e|sq] st'];
    cbn [run bind lift calls answer requests responses map fst snd];
    intros [= <-].
  unfold lift.
  assert (Hcases : (exists e, Py.float_of_int sq = inl e /\ usdc_value sq = inl e)
                   \/ (exists F, Py.float_of_int sq = inr F)).
  { unfold usdc_value. destruct (Py.float_of_int sq) as [e|F]; eauto. }
  split; [|split].
  - intros e. destruct Hcases as [(e' & Hf & Hu)|(F & HF)].
    + rewrite Hu. cbn [run answer]. congruence.
    + destruct (PyBounds.usdc_value_scaled sq F HF) as (u & Hu & _).
      rewrite Hu. cbn [run answer]. discriminate.
  - intros Hsmall.
    destruct (PyBounds.float_of_int_total sq Hsmall) as (F & HF).
    destruct (PyBounds.usdc_value_scaled sq F HF) as (u & Hu & _).
    rewrite Hu. cbn [run answer]. eauto.
  - intros usdc. destruct Hcases as [(e' & Hf & Hu)|(F & HF)].
    + rewrite Hu. cbn [run answer]. discriminate.
    + destruct (PyBounds.usdc_value_scaled sq F HF) as (u & Hu & Hbounds).
      rewrite Hu. cbn [run answer]. intros [= <-]. exact Hbounds.
Qed.

(** What can make a run fail, and nothing else: either the run returns the
    success message after its six calls, or it answers [caught e] for an
    exception [e] that
    - its last call raised, or
    - [float] or [int] raised on the amount string, or
    - the fee arithmetic raised on the amount that [float] read, or
    - [float] raised on the buy quote or on the sell quote, or
    - [Web3.from_wei] raised on the amount or on the fee.
    The slippage arithmetic, the pricing arithmetic past [float], and the
    division of the redemption value by [1e6] never raise. *)
Theorem causes_of_failure {S} (h : handler S) st w a m r g :
  let o := run h (gift w a m r g) st in
  (exists token_quote eth_spent fee usdc gift_result,
     List.length (calls o) = 6%nat /\
     answer o = inr (success_message token_quote m g r
                       eth_spent fee usdc gift_result))
  \/
  (exists e,
     answer o = caught e /\
     ((exists i req,
         nth_error (calls o) i = Some (req, RespRaise e) /\
         Datatypes.S i = List.length (calls o))
      \/ float_of_str a = inl e
      \/ int_of_str a = inl e
      \/ (exists amount_float,
            float_of_str a = inr amount_float /\
            Py.int_of_float (Py.fmul amount_float Py.f_0_03) = inl e)
      \/ (exists req token_quote,
            nth_error (calls o) 0 = Some (req, RespInt token_quote) /\
            Py.float_of_int token_quote = inl e)
      \/ (exists req sell_quote,
            nth_error (calls o) 3 = Some (req, RespInt sell_quote) /\
            Py.float_of_int sell_quote = inl e)
      \/ (exists amount_int,
            int_of_str a = inr amount_int /\
            from_wei_ether amount_int = inl e)
      \/ (exists amount_float platform_fee,
            float_of_str a = inr amount_float /\
            Py.int_of_float (Py.fmul amount_float Py.f_0_03)
              = inr platform_fee /\
            from_wei_ether platform_fee = inl e))).
Proof.
  cbv zeta. unfold caught.
  explore h;
    try (left; do 5 eexists; split; reflexivity);
    right;
    match goal with
    | H : exn_is_Exception ?x = _ |- _ =>
        exists x; rewrite H; (split; [reflexivity|])
    end;
    try (left; do 2 eexists; split; [|cbn [List.length]; reflexivity];
         reflexivity);
    try (right; left; first [assumption|reflexivity]);
    try (right; right; left; first [assumption|reflexivity]);
    try (right; right; right; left; eexists;
         split; first [eassumption|reflexivity]);
    try (do 4 right; left; do 2 eexists;
         split; [reflexivity|first [assumption|reflexivity]]);
    try (do 6 right; left; eexists;
         split; first [eassumption|reflexivity]);
    try (do 7 right; do 2 eexists;
         split; [first [eassumption|reflexivity]|];
         split; first [eassumption|reflexivity]);
    try (exfalso;
         match goal with
         | HF : Py.float_of_int ?q = inr ?F,
           HM : Py.int_of_float (Py.fmul ?F Py.f_0_99) = inl _ |- _ =>
             destruct (PyBounds.min_order_total q F HF) as [mo Hmo]; congruence
         end);
    try (do 5 right; left; do 2 eexists; split; [reflexivity|];
         match goal with
         | HU : usdc_value ?sq = inl ?e |- Py.float_of_int ?sq = inl ?e =>
             unfold usdc_value in HU;
             destruct (Py.float_of_int sq) as [e'|F] eqn:HF; [congruence|];
             fold (usdc_value sq) in HU;
             destruct (PyBounds.usdc_value_scaled sq F HF) as (u & Hu & _);
             unfold usdc_value in Hu; rewrite HF in Hu; congruence
         end);
    try (exfalso;
         match goal with
         | HU : usdc_value ?sq = inr ?u, HF : Py.float_of_int ?u = inl _ |- _ =>
             destruct (Py.float_of_int sq) as [e'|F] eqn:HQ;
             [unfold usdc_value in HU; rewrite HQ in HU; discriminate HU|];
             destruct (PyBounds.usdc_float_total sq u F HQ HU) as [U HU'];
             congruence
         end).
Qed.

End ActionFacts.

(** ** The claims on concrete runs *)

Section Concrete.

Local Abbreviation demo thm :=
  (thm Demo.WOW_ABI Demo.from_wei_ether Demo.float_str
       Literal.int_of_str Literal.float_of_str).

Local Abbreviation demo_picky thm :=
  (thm Demo.WOW_ABI Demo.picky_from_wei_ether Demo.float_str
       Literal.int_of_str Literal.float_of_str).

Lemma gift_transfer_call_order_witness :
  (kinds (calls Demo.run_ok) = full_sequence /\
   external_calls (calls Demo.run_ok)
     = [KBuyQuote; KInvoke "buy"; KSellQuote; KInvoke "createGift"] /\
   forallb (fun x => negb (raised x)) (responses (calls Demo.run_ok)) = true) /\
  (kinds (firstn 4 (calls Demo.run_ok))
     = [KBuyQuote; KInvoke "buy"; KWait; KSellQuote] /\
   forallb (fun x => negb (raised x))
           (responses (firstn 4 (calls Demo.run_ok))) = true).
Proof.
  pose proof (demo gift_transfer_call_order (Demo.world 5000 (10 ^ 15)) tt
                Demo.wallet "1000000" "0xM" "0xR" "0xG") as H.
  cbv zeta in H. destruct H as [Hok Hgift]. split.
  - eapply Hok; vm_compute; reflexivity.
  - apply (Hgift 4%nat Demo.wallet Demo.gift_request
                 (RespInvocation Demo.pending)); vm_compute; reflexivity.
Defined.

(** C1 as stated fails: a successful run makes a fourth call, the sell
    quote, between the purchase and the escrow deposit. *)
Lemma three_calls_counterexample :
  (exists s, answer Demo.run_ok = inr s /\ is_error_report s = false) /\
  external_calls (calls Demo.run_ok)
    = [KBuyQuote; KInvoke "buy"; KSellQuote; KInvoke "createGift"] /\
  external_calls (calls Demo.run_ok)
    <> [KBuyQuote; KInvoke "buy"; KInvoke "createGift"].
Proof.
  split; [eexists; split; vm_compute; reflexivity|].
  split; [vm_compute; reflexivity|vm_compute; discriminate].
Qed.

Lemma create_gift_arguments_witness :
  exists token_quote sell_quote usdc_price,
    nth_error (calls Demo.run_ok) 0
      = Some (ReqBuyQuote "base-sepolia" "0xM" "1000000", RespInt token_quote) /\
    nth_error (calls Demo.run_ok) 3
      = Some (ReqSellQuote "base-sepolia" "0xM" (Py.str_of_int token_quote),
              RespInt sell_quote) /\
    usdc_value sell_quote = inr usdc_price /\
    Demo.wallet = Demo.wallet /\
    contract_address Demo.gift_request = escrow_address /\
    call_abi Demo.gift_request = GIFT_ESCROW_ABI /\
    args Demo.gift_request
      = [ ("token", PyStr "0xM");
          ("recipient", PyStr "0xR");
          ("giver", PyStr "0xG");
          ("redeemableUsdcAmount", PyInt usdc_price);
          ("initialBuyPrice", PyStr "1000000") ] /\
    amount Demo.gift_request = None.
Proof.
  apply (demo create_gift_arguments (Demo.world 5000 (10 ^ 15)) tt
           Demo.wallet "1000000" "0xM" "0xR" "0xG"
           Demo.wallet Demo.gift_request (RespInvocation Demo.pending)).
  - vm_compute. do 4 right. left. reflexivity.
  - reflexivity.
Defined.

(** C2 as stated fails: the quote was 5000 tokens and no argument of the
    "createGift" invocation holds it, as a number or as a string; a run quoted
    6000 tokens issues the very same invocation. *)
Lemma create_gift_omits_token_amount :
  nth_error (calls Demo.run_ok) 0
    = Some (ReqBuyQuote "base-sepolia" "0xM" "1000000", RespInt 5000) /\
  nth_error (calls Demo.run_ok) 4
    = Some (ReqInvoke Demo.wallet Demo.gift_request,
            RespInvocation Demo.pending) /\
  method Demo.gift_request = "createGift" /\
  carries (args Demo.gift_request) (PyInt 5000) = false /\
  carries (args Demo.gift_request) (PyStr "5000") = false /\
  nth_error (calls Demo.run_other_quote) 0
    = Some (ReqBuyQuote "base-sepolia" "0xM" "1000000", RespInt 6000) /\
  nth_error (calls Demo.run_other_quote) 4
    = nth_error (calls Demo.run_ok) 4.
Proof.
  repeat split; vm_compute; reflexivity.
Qed.

(** Every clause of the theorem on error reports, on a run that meets it:
    an interrupted quote, a refused purchase, the amounts "ten", "inf" and
    "1.5", quotes beyond the double range, the amount "-100", and a fee that
    cannot be rendered. *)
Lemma gift_transfer_reports_errors_witness :
  exn_is_Exception Demo.interrupt = false /\
  (List.length (calls Demo.run_interrupted) = 1%nat /\
   answer Demo.run_interrupted = caught Demo.interrupt) /\
  (List.length (calls Demo.run_refused) = 2%nat /\
   answer Demo.run_refused
     = caught (mk_exn "ApiError" "insufficient funds" true)) /\
  (List.length (calls Demo.run_word) = 1%nat /\
   answer Demo.run_word
     = caught (mk_exn "ValueError"
                 "could not convert string to float: 'ten'" true)) /\
  (List.length (calls Demo.run_infinite) = 1%nat /\
   answer Demo.run_infinite
     = caught (mk_exn "OverflowError"
                 "cannot convert float infinity to integer" true)) /\
  (List.length (calls Demo.run_fraction) = 1%nat /\
   answer Demo.run_fraction
     = caught (mk_exn "ValueError"
                 "invalid literal for int() with base 10: '1.5'" true)) /\
  (List.length (calls Demo.run_huge_quote) = 1%nat /\
   answer Demo.run_huge_quote
     = caught (mk_exn "OverflowError"
                 "int too large to convert to float" true)) /\
  (List.length (calls Demo.run_huge_sell_quote) = 4%nat /\
   answer Demo.run_huge_sell_quote
     = caught (mk_exn "OverflowError"
                 "int too large to convert to float" true)) /\
  answer Demo.run_negative
    = caught (mk_exn "ValueError"
                "value must be between 1 and 2**256 - 1" true) /\
  answer Demo.run_picky = caught (mk_exn "ValueError" "refused" true) /\
  ((exists e, answer Demo.run_ok = caught e) \/
   (exists token_quote eth_spent fee usdc gift_result,
      List.length (calls Demo.run_ok) = 6%nat /\
      answer Demo.run_ok
        = inr (success_message token_quote "0xM" "0xG" "0xR"
                 eth_spent fee usdc gift_result))).
Proof.
  pose proof (demo gift_transfer_reports_errors (Demo.world 5000 (10 ^ 15)) tt
                Demo.wallet "1000000" "0xM" "0xR" "0xG") as Hok.
  pose proof (demo gift_transfer_reports_errors Demo.interrupted_world tt
                Demo.wallet "1000000" "0xM" "0xR" "0xG") as Hinterrupted.
  pose proof (demo gift_transfer_reports_errors (Demo.refusing_world 5000) tt
                Demo.wallet "1000000" "0xM" "0xR" "0xG") as Hrefused.
  pose proof (demo gift_transfer_reports_errors (Demo.world 5000 (10 ^ 15)) tt
                Demo.wallet "ten" "0xM" "0xR" "0xG") as Hword.
  pose proof (demo gift_transfer_reports_errors (Demo.world 5000 (10 ^ 15)) tt
                Demo.wallet "inf" "0xM" "0xR" "0xG") as Hinfinite.
  pose proof (demo gift_transfer_reports_errors (Demo.world 5000 (10 ^ 15)) tt
                Demo.wallet "1.5" "0xM" "0xR" "0xG") as Hfraction.
  pose proof (demo gift_transfer_reports_errors
                (Demo.world (2 ^ 1024) (10 ^ 15)) tt
                Demo.wallet "1000000" "0xM" "0xR" "0xG") as Hquote.
  pose proof (demo gift_transfer_reports_errors
                (Demo.world 5000 (2 ^ 1024)) tt
                Demo.wallet "1000000" "0xM" "0xR" "0xG") as Hsell.
  pose proof (demo gift_transfer_reports_errors (Demo.world 5000 (10 ^ 15)) tt
                Demo.wallet "-100" "0xM" "0xR" "0xG") as Hnegative.
  pose proof (demo_picky gift_transfer_reports_errors
                (Demo.world 5000 (10 ^ 15)) tt
                Demo.wallet "1000000" "0xM" "0xR" "0xG") as Hpicky.
  cbv zeta in *.
  destruct Hok as (_ & _ & _ & _ & _ & Hok).
  destruct Hinterrupted as (Hescapes & Hcall0 & _).
  destruct Hrefused as (_ & Hcall1 & _).
  destruct Hword as (_ & _ & Hword & _).
  destruct Hinfinite as (_ & _ & Hinfinite & _).
  destruct Hfraction as (_ & _ & Hfraction & _).
  destruct Hquote as (_ & _ & Hquote & _).
  destruct Hsell as (_ & _ & _ & Hsell & _).
  destruct Hnegative as (_ & _ & _ & _ & Hnegative & _).
  destruct Hpicky as (_ & _ & _ & _ & Hpicky & _).
  split; [|split; [|split; [|split; [|split; [|split; [|split; [|split;
    [|split; [|split; [|exact Hok]]]]]]]]]].
  - apply Hescapes. vm_compute. reflexivity.
  - destruct (Hcall0 0%nat (ReqBuyQuote "base-sepolia" "0xM" "1000000")
                Demo.interrupt) as [Hlen Hans].
    + vm_compute. reflexivity.
    + split; [symmetry; exact Hlen|exact Hans].
  - destruct (Hcall1 1%nat (ReqInvoke Demo.wallet (Demo.buy_request "1030000"))
                (mk_exn "ApiError" "insufficient funds" true)) as [Hlen Hans].
    + vm_compute. reflexivity.
    + split; [symmetry; exact Hlen|exact Hans].
  - destruct (Hword (ReqBuyQuote "base-sepolia" "0xM" "ten") 5000)
      as (Hfloat & _).
    + vm_compute. reflexivity.
    + apply Hfloat. vm_compute. reflexivity.
  - destruct (Hinfinite (ReqBuyQuote "base-sepolia" "0xM" "inf") 5000)
      as (_ & Hfee & _).
    + vm_compute. reflexivity.
    + apply (Hfee (S754_infinity false)); vm_compute; reflexivity.
  - destruct (Hfraction (ReqBuyQuote "base-sepolia" "0xM" "1.5") 5000)
      as (_ & _ & Hint & _).
    + vm_compute. reflexivity.
    + apply (Hint (S754_finite false 6755399441055744 (-52)) 0);
        vm_compute; reflexivity.
  - destruct (Hquote (ReqBuyQuote "base-sepolia" "0xM" "1000000") (2 ^ 1024))
      as (_ & _ & _ & Hfloat).
    + vm_compute. reflexivity.
    + apply (Hfloat Py.f_1e6 30000 1000000); vm_compute; reflexivity.
  - apply (Hsell (ReqSellQuote "base-sepolia" "0xM" "5000") (2 ^ 1024));
      vm_compute; reflexivity.
  - destruct (Hnegative (ReqWait Demo.pending) Demo.mined) as (Hspent & _).
    + vm_compute. reflexivity.
    + apply (Hspent (-100)); vm_compute; reflexivity.
  - destruct (Hpicky (ReqWait Demo.pending) Demo.mined) as (_ & Hfee).
    + vm_compute. reflexivity.
    + apply (Hfee Py.f_1e6 30000 1000000 "1000000e-18");
        vm_compute; reflexivity.
Defined.

(** C3 as stated fails: when the user interrupts the buy quote, the
    exception is no instance of [Exception], the [except] clause does not
    take it, and the run raises it instead of returning a string. *)
Lemma interrupt_counterexample :
  nth_error (calls Demo.run_interrupted) 0
    = Some (ReqBuyQuote "base-sepolia" "0xM" "1000000",
            RespRaise Demo.interrupt) /\
  exn_class Demo.interrupt = "KeyboardInterrupt" /\
  exn_is_Exception Demo.interrupt = false /\
  answer Demo.run_interrupted = inl Demo.interrupt /\
  (forall s, answer Demo.run_interrupted <> inr s).
Proof.
  repeat split; try (vm_compute; reflexivity).
  intros s. vm_compute. discriminate.
Qed.

Lemma get_current_usdc_price_stub_witness :
  answer Demo.run_price = usdc_formula (10 ^ 15) /\
  usdc_formula (10 ^ 15) = inr 2000000 /\
  answer Demo.run_price_offline
    = inl (mk_exn "ConnectionError" "rpc unreachable" true).
Proof.
  pose proof (get_current_usdc_price_stub (Demo.world 5000 (10 ^ 15)) tt
                "base-sepolia" "0xM" 5000) as H.
  cbv zeta in H. destruct H as (_ & _ & Hquote & _).
  pose proof (get_current_usdc_price_stub Demo.offline_world tt
                "base-sepolia" "0xM" 5000) as H.
  cbv zeta in H. destruct H as (_ & _ & _ & Hraise).
  split; [|split].
  - apply Hquote. vm_compute. reflexivity.
  - vm_compute. reflexivity.
  - apply Hraise. vm_compute. reflexivity.
Defined.

Lemma buy_recipient_is_escrow_witness :
  dict_get (args (Demo.buy_request "1030000")) "recipient"
    = Some (PyStr escrow_address) /\
  dict_get (args (Demo.buy_request "1030000")) "recipient"
    <> Some (PyStr "0xW") /\
  dict_get (args (Demo.buy_request "1030000")) "recipient"
    <> Some (PyStr "0xG") /\
  dict_get (args (Demo.buy_request "1030000")) "recipient"
    <> Some (PyStr "0xR").
Proof.
  destruct (demo buy_recipient_is_escrow (Demo.world 5000 (10 ^ 15)) tt
              Demo.wallet "1000000" "0xM" "0xR" "0xG"
              Demo.wallet (Demo.buy_request "1030000")
              (RespInvocation Demo.pending))
    as (Hrec & _ & _ & Hwallet & Hgiver & Hrecipient).
  - vm_compute. right. left. reflexivity.
  - reflexivity.
  - split; [exact Hrec|]. split; [|split].
    + apply Hwallet. vm_compute. discriminate.
    + apply Hgiver. vm_compute. discriminate.
    + apply Hrecipient. vm_compute. discriminate.
Defined.

Lemma escrow_is_placeholder_witness :
  dict_get (args (Demo.buy_request "1030000")) "recipient"
    = Some (PyStr "0x...") /\
  contract_address Demo.gift_request = "0x...".
Proof.
  pose proof (demo escrow_is_placeholder (Demo.world 5000 (10 ^ 15)) tt
                Demo.wallet "1000000" "0xM" "0xR" "0xG") as H.
  cbv zeta in H. destruct H as (_ & Hcalls & _). split.
  - apply (Hcalls Demo.wallet (Demo.buy_request "1030000")
                  (RespInvocation Demo.pending)).
    + vm_compute. right. left. reflexivity.
    + reflexivity.
  - apply (Hcalls Demo.wallet Demo.gift_request (RespInvocation Demo.pending)).
    + vm_compute. do 4 right. left. reflexivity.
    + reflexivity.
Defined.

(** Two runs of one gift: with collaborators that keep no state, and with
    collaborators that count their calls and stamp the purchase with the
    count. *)
Lemma answer_ignores_purchase_result_witness :
  responses (calls Demo.run_ok) <> responses (calls Demo.run_counted) /\
  answer Demo.run_ok = answer Demo.run_counted /\
  kinds (calls Demo.run_ok) = kinds (calls Demo.run_counted).
Proof.
  split; [vm_compute; discriminate|].
  apply (demo answer_ignores_purchase_result
           (Demo.world 5000 (10 ^ 15)) (Demo.counting_world 5000 (10 ^ 15))
           tt 7%nat Demo.wallet "1000000" "0xM" "0xR" "0xG").
  vm_compute. reflexivity.
Defined.

Lemma platform_fee_attached_witness :
  (exists amount_float,
     Literal.int_of_str "1000000" = inr 1000000 /\
     Literal.float_of_str "1000000" = inr amount_float /\
     Py.int_of_float (Py.fmul amount_float Py.f_0_03) = inr 30000 /\
     amount (Demo.buy_request "1030000")
       = Some (Py.str_of_int (1000000 + 30000)) /\
     asset_id (Demo.buy_request "1030000") = Some "wei" /\
     1000000 <= 1000000 + 30000) /\
  (exists platform_fee,
     amount (Demo.buy_request "12716049268271604882")
       = Some (Py.str_of_int (12345678901234567890 + platform_fee)) /\
     2 ^ 53 < 12345678901234567890 /\
     platform_fee = 370370367037036992 /\
     platform_fee <> exact_fee 12345678901234567890) /\
  (exists platform_fee,
     amount (Demo.buy_request "-103")
       = Some (Py.str_of_int (-100 + platform_fee)) /\
     -100 + platform_fee <= -100).
Proof.
  split; [|split].
  - destruct (demo platform_fee_attached (Demo.world 5000 (10 ^ 15)) tt
                Demo.wallet "1000000" "0xM" "0xR" "0xG"
                Demo.wallet (Demo.buy_request "1030000")
                (RespInvocation Demo.pending))
      as (ai & af & fee & Hint & Hfloat & Hfee & Hamount & Hasset & Hbounds).
    + vm_compute. right. left. reflexivity.
    + reflexivity.
    + destruct (Hbounds LiteralFacts.reference_agreement) as (Hup & _ & _).
      vm_compute in Hint. injection Hint as <-.
      vm_compute in Hfloat. injection Hfloat as <-.
      vm_compute in Hfee. injection Hfee as <-.
      eexists. split; [vm_compute; reflexivity|].
      split; [vm_compute; reflexivity|].
      split; [vm_compute; reflexivity|].
      split; [exact Hamount|]. split; [exact Hasset|].
      apply Hup. lia.
  - destruct (demo platform_fee_attached (Demo.world 5000 (10 ^ 15)) tt
                Demo.wallet "12345678901234567890" "0xM" "0xR" "0xG"
                Demo.wallet (Demo.buy_request "12716049268271604882")
                (RespInvocation Demo.pending))
      as (ai & af & fee & Hint & Hfloat & Hfee & Hamount & Hasset & Hbounds).
    + vm_compute. right. left. reflexivity.
    + reflexivity.
    + destruct (Hbounds LiteralFacts.reference_agreement) as (_ & _ & Hbig).
      vm_compute in Hint. injection Hint as <-.
      destruct (Hbig eq_refl) as (Hlarge & Hvalue & Hinexact).
      exists fee. split; [exact Hamount|].
      split; [exact Hlarge|]. split; [exact Hvalue|exact Hinexact].
  - destruct (demo platform_fee_attached (Demo.world 5000 (10 ^ 15)) tt
                Demo.wallet "-100" "0xM" "0xR" "0xG"
                Demo.wallet (Demo.buy_request "-103")
                (RespInvocation Demo.pending))
      as (ai & af & fee & Hint & Hfloat & Hfee & Hamount & Hasset & Hbounds).
    + vm_compute. right. left. reflexivity.
    + reflexivity.
    + destruct (Hbounds LiteralFacts.reference_agreement) as (_ & Hdown & _).
      vm_compute in Hint. injection Hint as <-.
      exists fee. split; [exact Hamount|]. apply Hdown. lia.
Defined.

(** C9 as stated fails: on the amount "-100" the purchase is invoked with
    "-103" wei attached, which is less than the amount. *)
Lemma negative_amount_counterexample :
  nth_error (calls Demo.run_negative) 1
    = Some (ReqInvoke Demo.wallet (Demo.buy_request "-103"),
            RespInvocation Demo.pending) /\
  method (Demo.buy_request "-103") = "buy" /\
  amount (Demo.buy_request "-103") = Some (Py.str_of_int (-103)) /\
  Literal.int_of_str "-100" = inr (-100) /\
  -103 < -100.
Proof.
  repeat split; vm_compute; reflexivity.
Qed.

Lemma min_order_size_slippage_witness :
  (exists token_quote quote_float min_order_size,
     nth_error (calls Demo.run_ok) 0
       = Some (ReqBuyQuote "base-sepolia" "0xM" "1000000",
               RespInt token_quote) /\
     Py.float_of_int token_quote = inr quote_float /\
     Py.int_of_float (Py.fmul quote_float Py.f_0_99) = inr min_order_size /\
     dict_get (args (Demo.buy_request "1030000")) "minOrderSize"
       = Some (PyStr (Py.str_of_int min_order_size)) /\
     0 <= min_order_size <= token_quote) /\
  (exists token_quote quote_float min_order_size,
     nth_error (calls Demo.run_negative_quote) 0
       = Some (ReqBuyQuote "base-sepolia" "0xM" "1000000",
               RespInt token_quote) /\
     Py.float_of_int token_quote = inr quote_float /\
     Py.int_of_float (Py.fmul quote_float Py.f_0_99) = inr min_order_size /\
     dict_get (args (Demo.buy_request_at (-4950) "1030000")) "minOrderSize"
       = Some (PyStr (Py.str_of_int min_order_size)) /\
     token_quote <= min_order_size <= 0).
Proof.
  split.
  - destruct (demo min_order_size_slippage (Demo.world 5000 (10 ^ 15)) tt
                Demo.wallet "1000000" "0xM" "0xR" "0xG"
                Demo.wallet (Demo.buy_request "1030000")
                (RespInvocation Demo.pending))
      as (q & qf & mo & Hquote & Hfloat & Hmin & Harg & Hup & _).
    + vm_compute. right. left. reflexivity.
    + reflexivity.
    + exists q, qf, mo. repeat (split; [assumption|]).
      apply Hup. vm_compute in Hquote. injection Hquote as <-. lia.
  - destruct (demo min_order_size_slippage (Demo.world (-5000) (10 ^ 15)) tt
                Demo.wallet "1000000" "0xM" "0xR" "0xG"
                Demo.wallet (Demo.buy_request_at (-4950) "1030000")
                (RespInvocation Demo.pending))
      as (q & qf & mo & Hquote & Hfloat & Hmin & Harg & _ & Hdown).
    + vm_compute. right. left. reflexivity.
    + reflexivity.
    + exists q, qf, mo. repeat (split; [assumption|]).
      apply Hdown. vm_compute in Hquote. injection Hquote as <-. lia.
Defined.

(** C10 as stated fails: on a quote of minus 5000 tokens the purchase is
    invoked with the minimum "-4950", which is more than the quote. *)
Lemma negative_quote_counterexample :
  nth_error (calls Demo.run_negative_quote) 0
    = Some (ReqBuyQuote "base-sepolia" "0xM" "1000000", RespInt (-5000)) /\
  nth_error (calls Demo.run_negative_quote) 1
    = Some (ReqInvoke Demo.wallet (Demo.buy_request_at (-4950) "1030000"),
            RespInvocation Demo.pending) /\
  method (Demo.buy_request_at (-4950) "1030000") = "buy" /\
  dict_get (args (Demo.buy_request_at (-4950) "1030000")) "minOrderSize"
    = Some (PyStr "-4950") /\
  Py.str_of_int (-4950) = "-4950" /\
  -5000 < -4950.
Proof.
  repeat split; vm_compute; reflexivity.
Qed.


Lemma purchase_not_undone_witness :
  exists c pending_buy buy_result total,
    nth_error (calls Demo.run_pricing_down) 1
      = Some (ReqInvoke Demo.wallet c, RespInvocation pending_buy) /\
    method c = "buy" /\
    amount c = Some total /\
    nth_error (calls Demo.run_pricing_down) 2
      = Some (ReqWait pending_buy, RespInvocation buy_result) /\
    4%nat = List.length (calls Demo.run_pricing_down) /\
    answer Demo.run_pricing_down
      = caught (mk_exn "ConnectionError" "rpc unreachable" true).
Proof.
  apply (demo purchase_not_undone Demo.pricing_down_world tt
           Demo.wallet "1000000" "0xM" "0xR" "0xG" 3%nat
           (ReqSellQuote "base-sepolia" "0xM" "5000")).
  - vm_compute. reflexivity.
  - lia.
Defined.

Lemma invocations_of_a_run_witness :
  (method (Demo.buy_request "1030000") = "buy" /\
   contract_address (Demo.buy_request "1030000") = "0xM" /\
   call_abi (Demo.buy_request "1030000") = Demo.WOW_ABI /\
   asset_id (Demo.buy_request "1030000") = Some "wei" /\
   amount (Demo.buy_request "1030000") <> None)
  \/
  (method (Demo.buy_request "1030000") = "createGift" /\
   contract_address (Demo.buy_request "1030000") = escrow_address /\
   call_abi (Demo.buy_request "1030000") = GIFT_ESCROW_ABI /\
   asset_id (Demo.buy_request "1030000") = None /\
   amount (Demo.buy_request "1030000") = None).
Proof.
  pose proof (demo invocations_of_a_run (Demo.world 5000 (10 ^ 15)) tt
                Demo.wallet "1000000" "0xM" "0xR" "0xG") as H.
  cbv zeta in H. destruct H as [Hinv _].
  apply (Hinv Demo.wallet (Demo.buy_request "1030000")
              (RespInvocation Demo.pending)).
  vm_compute. right. left. reflexivity.
Defined.

Lemma wait_follows_its_invocation_witness :
  exists k' c,
    5%nat = Datatypes.S k' /\
    nth_error (calls Demo.run_counted) k'
      = Some (ReqInvoke Demo.wallet c, RespInvocation Demo.pending).
Proof.
  apply (demo wait_follows_its_invocation
           (Demo.counting_world 5000 (10 ^ 15)) 7%nat
           Demo.wallet "1000000" "0xM" "0xR" "0xG" 5%nat Demo.pending
           (RespInvocation Demo.mined)).
  vm_compute. reflexivity.
Defined.

Lemma create_gift_matches_abi_witness :
  exists entry,
    abi_lookup (call_abi Demo.gift_request) (method Demo.gift_request)
      = Some entry /\
    map fst (args Demo.gift_request) = map param_name (abi_inputs entry) /\
    abi_stateMutability entry = "payable" /\
    amount Demo.gift_request = None.
Proof.
  apply (demo create_gift_matches_abi (Demo.world 5000 (10 ^ 15)) tt
           Demo.wallet "1000000" "0xM" "0xR" "0xG"
           Demo.wallet Demo.gift_request (RespInvocation Demo.pending)).
  - vm_compute. do 4 right. left. reflexivity.
  - reflexivity.
Defined.

Lemma quote_comes_first_witness :
  exists resp,
    calls Demo.run_word = [(ReqBuyQuote "base-sepolia" "0xM" "ten", resp)].
Proof.
  pose proof (demo quote_comes_first (Demo.world 5000 (10 ^ 15)) tt
                Demo.wallet "ten" "0xM" "0xR" "0xG") as H.
  cbv zeta in H. destruct H as [_ Hrefused].
  apply (Hrefused (mk_exn "ValueError"
                     "could not convert string to float: 'ten'" true)).
  left. vm_compute. reflexivity.
Defined.

Lemma min_order_size_within_one_percent_witness :
  exists token_quote min_order_size,
    nth_error (calls Demo.run_ok) 0
      = Some (ReqBuyQuote "base-sepolia" "0xM" "1000000", RespInt token_quote) /\
    dict_get (args (Demo.buy_request "1030000")) "minOrderSize"
      = Some (PyStr (Py.str_of_int min_order_size)) /\
    100 * 2 ^ 52 * min_order_size <= 99 * (2 ^ 52 + 1) * token_quote /\
    99 * (2 ^ 49 - 1) * token_quote <= 100 * 2 ^ 49 * (min_order_size + 1).
Proof.
  destruct (demo min_order_size_within_one_percent
              (Demo.world 5000 (10 ^ 15)) tt
              Demo.wallet "1000000" "0xM" "0xR" "0xG"
              Demo.wallet (Demo.buy_request "1030000")
              (RespInvocation Demo.pending))
    as (q & mo & Hquote & Harg & Hbounds).
  - vm_compute. right. left. reflexivity.
  - reflexivity.
  - exists q, mo. split; [exact Hquote|]. split; [exact Harg|].
    apply Hbounds. vm_compute in Hquote. injection Hquote as <-. lia.
Defined.

Lemma platform_fee_within_three_percent_witness :
  exists amount_int platform_fee,
    Literal.int_of_str "1000000" = inr amount_int /\
    amount (Demo.buy_request "1030000")
      = Some (Py.str_of_int (amount_int + platform_fee)) /\
    100 * 2 ^ 52 * platform_fee <= 3 * (2 ^ 52 + 1) * amount_int /\
    3 * (2 ^ 49 - 1) * amount_int <= 100 * 2 ^ 49 * (platform_fee + 1).
Proof.
  destruct (demo platform_fee_within_three_percent
              (Demo.world 5000 (10 ^ 15)) tt
              Demo.wallet "1000000" "0xM" "0xR" "0xG"
              Demo.wallet (Demo.buy_request "1030000")
              (RespInvocation Demo.pending))
    as (ai & fee & Hint & Hamount & Hbounds).
  - exact LiteralFacts.reference_agreement.
  - vm_compute. right. left. reflexivity.
  - reflexivity.
  - exists ai, fee. split; [exact Hint|]. split; [exact Hamount|].
    apply Hbounds. vm_compute in Hint. injection Hint as <-. lia.
Defined.

Lemma usdc_price_of_sell_quote_witness :
  (exists usdc, answer Demo.run_price = inr usdc) /\
  (0 <= 2000000 /\
   10 ^ 9 * 2 ^ 50 * Z.abs 2000000 <= 2 * (2 ^ 50 + 1) * Z.abs (10 ^ 15) /\
   2 * (2 ^ 48 - 1) * Z.abs (10 ^ 15)
     <= 10 ^ 9 * 2 ^ 48 * (Z.abs 2000000 + 1)).
Proof.
  pose proof (usdc_price_of_sell_quote (Demo.world 5000 (10 ^ 15)) tt
                "base-sepolia" "0xM" 5000 (10 ^ 15)) as H.
  cbv zeta in H.
  destruct H as (_ & Htotal & Hbounds); [vm_compute; reflexivity|].
  split.
  - apply Htotal. vm_compute. reflexivity.
  - destruct (Hbounds 2000000) as (Hsign & _ & Hup & Hlow).
    + vm_compute. reflexivity.
    + split; [apply Hsign; vm_compute; discriminate|].
      split; [exact Hup|exact Hlow].
Defined.

End Concrete.

